(** * BookSmith: the retry, persistence and navigation logic

    A shallow embedding of the TypeScript sources of the BookSmith
    application (the Gemini service object, the credential dialog, the
    application shell and the reader), followed by the properties the
    specification states about them and by further properties of the code
    (the shell's handlers, the PDF export, the market chart and the earlier
    revision of the service).

    Conventions.
    - A JavaScript string is the [string] of the bytes of its UTF-8
      encoding.  [trim] and the class [\s] know the white space of the
      language, ASCII or not; [toLowerCase] maps the ASCII letters only.
    - A JavaScript number that indexes an array or counts milliseconds is a
      [Z]; a loop counter that only grows from 0 is a [nat].
    - An optional or possibly absent property is an [option]; [None] reads
      as [undefined].
    - The remote model is an oracle: the n-th request gets the n-th
      outcome.  Every request, delay and callback is recorded in a trace. *)

From Stdlib Require Import ZArith Ascii String List Bool Lia.
From stdpp Require Import base option list strings pretty.

Local Open Scope Z_scope.
Local Open Scope string_scope.
Local Open Scope list_scope.

(** ** JavaScript strings and errors *)

Module Js.

Definition dquote : string := String (ascii_of_nat 34) EmptyString.
Definition newline : string := String (ascii_of_nat 10) EmptyString.

(** [s.includes(needle)] *)
Fixpoint includes (s needle : string) : bool :=
  String.prefix needle s ||
  match s with
  | EmptyString => false
  | String _ s' => includes s' needle
  end.

Definition lowerAscii (c : ascii) : ascii :=
  let n := nat_of_ascii c in
  if (Nat.leb 65 n && Nat.leb n 90)%bool then ascii_of_nat (n + 32) else c.

(** [s.toLowerCase()] *)
Fixpoint toLowerCase (s : string) : string :=
  match s with
  | EmptyString => EmptyString
  | String c s' => String (lowerAscii c) (toLowerCase s')
  end.

Definition isEmpty (s : string) : bool :=
  match s with EmptyString => true | _ => false end.

(** *** White space

    The white space of [trim] and of the class [\s]: TAB, LF, VT, FF, CR,
    SP, and U+00A0, U+1680, U+2000 to U+200A, U+2028, U+2029, U+202F,
    U+205F, U+3000 and U+FEFF, which take two or three bytes. *)

(** TAB, LF, VT, FF, CR (9 to 13) and SP (32). *)
Definition asciiWhiteSpace (c : ascii) : bool :=
  let n := nat_of_ascii c in
  ((Nat.leb 9 n && Nat.leb n 13) || Nat.eqb n 32)%bool.

(** U+00A0 is C2 A0. *)
Definition twoByteWhiteSpace (c1 c2 : ascii) : bool :=
  (Nat.eqb (nat_of_ascii c1) 194 && Nat.eqb (nat_of_ascii c2) 160)%bool.

(** U+1680 is E1 9A 80; U+2000 to U+200A are E2 80 80 to E2 80 8A; U+2028,
    U+2029 and U+202F are E2 80 A8, E2 80 A9 and E2 80 AF; U+205F is
    E2 81 9F; U+3000 is E3 80 80; U+FEFF is EF BB BF. *)
Definition threeByteWhiteSpace (c1 c2 c3 : ascii) : bool :=
  let n1 := nat_of_ascii c1 in
  let n2 := nat_of_ascii c2 in
  let n3 := nat_of_ascii c3 in
  ((Nat.eqb n1 225 && Nat.eqb n2 154 && Nat.eqb n3 128)
   || (Nat.eqb n1 226 && Nat.eqb n2 128
       && ((Nat.leb 128 n3 && Nat.leb n3 138)
           || Nat.eqb n3 168 || Nat.eqb n3 169 || Nat.eqb n3 175))
   || (Nat.eqb n1 226 && Nat.eqb n2 129 && Nat.eqb n3 159)
   || (Nat.eqb n1 227 && Nat.eqb n2 128 && Nat.eqb n3 128)
   || (Nat.eqb n1 239 && Nat.eqb n2 187 && Nat.eqb n3 191))%bool.

(** The number of bytes of the white-space character [s] starts with; 0
    when [s] starts with none. *)
Definition whiteSpaceWidth (s : string) : nat :=
  match s with
  | EmptyString => 0
  | String c1 r1 =>
      if asciiWhiteSpace c1 then 1
      else
        match r1 with
        | EmptyString => 0
        | String c2 r2 =>
            if twoByteWhiteSpace c1 c2 then 2
            else
              match r2 with
              | EmptyString => 0
              | String c3 _ => if threeByteWhiteSpace c1 c2 c3 then 3 else 0
              end
        end
  end%nat.

(** Whether [s] is made of white space only: [!s.trim()]. *)
Fixpoint allWhiteSpace (s : string) : bool :=
  match s with
  | EmptyString => true
  | String _ r1 =>
      match whiteSpaceWidth s with
      | 1%nat => allWhiteSpace r1
      | 2%nat =>
          match r1 with
          | String _ r2 => allWhiteSpace r2
          | EmptyString => false
          end
      | 3%nat =>
          match r1 with
          | String _ (String _ r3) => allWhiteSpace r3
          | _ => false
          end
      | _ => false
      end
  end.


(** [s.trimStart()]: the white-space characters at the start are dropped. *)
Fixpoint trimStart (s : string) : string :=
  match s with
  | EmptyString => EmptyString
  | String _ r1 =>
      match whiteSpaceWidth s with
      | 1%nat => trimStart r1
      | 2%nat =>
          match r1 with
          | String _ r2 => trimStart r2
          | EmptyString => s
          end
      | 3%nat =>
          match r1 with
          | String _ (String _ r3) => trimStart r3
          | _ => s
          end
      | _ => s
      end
  end.

(** [s.trimEnd()]: what is left is cut where only white space follows. *)
Fixpoint trimEnd (s : string) : string :=
  match s with
  | EmptyString => EmptyString
  | String c r => if allWhiteSpace s then EmptyString else String c (trimEnd r)
  end.

(** [s.trim()] *)
Definition trim (s : string) : string := trimEnd (trimStart s).

(** [a || b] on strings: the empty string is falsy. *)
Definition orElse (a b : string) : string := if isEmpty a then b else a.

(** [a || b] where [a] may be [undefined]. *)
Definition optOrElse (a : option string) (b : string) : string :=
  match a with
  | Some s => orElse s b
  | None => b
  end.

(** Truthiness of a possibly undefined string. *)
Definition truthy (a : option string) : bool :=
  match a with
  | Some s => negb (isEmpty s)
  | None => false
  end.

(** A value interpolated in a template literal. *)
Definition interpolate (a : option string) : string :=
  match a with
  | Some s => s
  | None => "undefined"
  end.

(** An [Error] object as the sources inspect it: the numeric [status] the
    client library attaches to an HTTP failure, [name] and [message]. *)
Record Error := mkError {
  status : option Z;
  name : string;
  message : string
}.

(** [new Error(msg)] *)
Definition newError (msg : string) : Error :=
  {| status := None; name := "Error"; message := msg |}.

(** [Error.prototype.toString] *)
Definition toString (e : Error) : string :=
  if isEmpty (name e) then message e
  else if isEmpty (message e) then name e
  else name e +:+ ": " +:+ message e.

End Js.

(** ** The data model (types.ts) *)

Inductive Sender := USER | AI.

(** What a message's [timestamp] property holds at run time: the [Date]
    object the application creates, or the text a reloaded project carries. *)
Inductive Timestamp :=
| DateObj (epochMs : Z)
| DateText (iso : string).

Record Message := mkMessage {
  msg_id : string;
  msg_text : string;
  msg_sender : Sender;
  msg_timestamp : Timestamp;
  msg_isThinking : option bool
}.

(** A chapter object.  [Chapter] in types.ts declares [title], [content],
    [imageKeyword] and the optional [imageUrl]; the chapter items of a
    [create_ebook] call carry [title], [outline] and [imageKeyword].  Both
    are objects of this shape, an absent property being [None]. *)
Record Chapter := mkChapter {
  ch_title : string;
  ch_outline : option string;
  ch_imageKeyword : string;
  ch_content : option string;
  ch_imageUrl : option string
}.

Record EBook := mkEBook {
  bk_title : string;
  bk_author : string;
  bk_description : string;
  bk_theme : string;
  bk_format : string;
  bk_chapters : list Chapter
}.

(** JSON documents.  Numbers are kept on the integers. *)
#[local] Unset Elimination Schemes.
Inductive Json :=
| JNull
| JBool (b : bool)
| JNum (n : Z)
| JStr (s : string)
| JArr (items : list Json)
| JObj (props : list (string * Json)).
#[local] Set Elimination Schemes.

(** The arguments of [analyze_market] are passed on and stored as they
    arrive ([args as unknown as MarketData]); no modelled function reads
    inside them.  [JNull] stands for the [null] of [MarketData | null]. *)
Definition MarketData := Json.

Record SavedProject := mkSavedProject {
  sp_id : string;
  sp_name : string;
  sp_book : EBook;
  sp_messages : list Message;
  sp_marketData : MarketData;
  sp_createdAt : Z
}.

Inductive AppMode := ModeChat | ModePreview | ModeAnalysis | ModeProjects.

(** ** Effects: a state and exception monad with a fuel mark *)

Inductive Res (A : Type) :=
| Val (a : A)
| Exn (e : Js.Error)
| Fuel.
Arguments Val {A} a.
Arguments Exn {A} e.
Arguments Fuel {A}.

Definition M (S A : Type) : Type := S -> Res A * S.

Definition ret {S A} (a : A) : M S A := fun s => (Val a, s).

Definition bind {S A B} (m : M S A) (k : A -> M S B) : M S B :=
  fun s =>
    match m s with
    | (Val a, s') => k a s'
    | (Exn e, s') => (Exn e, s')
    | (Fuel, s') => (Fuel, s')
    end.

(** [throw e] *)
Definition throw {S A} (e : Js.Error) : M S A := fun s => (Exn e, s).

(** [try { body } catch (e) { handler e }]: what [body] did to the state
    before it threw stays done. *)
Definition tryCatch {S A} (body : M S A) (handler : Js.Error -> M S A) : M S A :=
  fun s =>
    match body s with
    | (Exn e, s') => handler e s'
    | r => r
    end.

Definition outOfFuel {S A} : M S A := fun s => (Fuel, s).

Definition gets {S A} (f : S -> A) : M S A := fun s => (Val (f s), s).
Definition modify {S} (f : S -> S) : M S unit := fun s => (Val tt, f s).

Declare Scope js_scope.
Delimit Scope js_scope with js.
Notation "x <- m ;; k" := (bind m (fun x => k))
  (at level 100, m at next level, right associativity) : js_scope.
Notation "m ;; k" := (bind m (fun _ => k))
  (at level 100, right associativity) : js_scope.

(** ** GeminiService (services/geminiService.ts) *)

Module Service.
Local Open Scope js_scope.

(** A function call of a response.  Its arguments are shaped as the
    declaration of the tool requires ([createEBookTool], [analyzeMarketTool],
    [editChapterTool]); a name that is none of the three is [OtherCall]. *)
Inductive FunctionCall :=
| CreateEbook (args : EBook) (id : option string)
| AnalyzeMarket (args : MarketData) (id : option string)
| EditChapter (chapterIndex : Z) (newContent : string) (id : option string)
| OtherCall (name : string) (id : option string).

Definition callName (c : FunctionCall) : string :=
  match c with
  | CreateEbook _ _ => "create_ebook"
  | AnalyzeMarket _ _ => "analyze_market"
  | EditChapter _ _ _ => "edit_chapter"
  | OtherCall n _ => n
  end.

(** [{ functionResponse: { name, response, id } }]; [response] is
    [{ result }] ([inl]) or [{ error }] ([inr]). *)
Record FunctionResponse := mkFunctionResponse {
  fr_name : string;
  fr_response : string + string;
  fr_id : option string
}.

(** What the code reads of a chat response. *)
Record Response := mkResponse {
  finishReason : option string;   (* response.candidates?.[0]?.finishReason *)
  text : option string;           (* response.text *)
  functionCalls : option (list FunctionCall)
}.

(** How an awaited request settles. *)
Inductive Outcome (A : Type) :=
| Resolved (a : A)
| Rejected (e : Js.Error).
Arguments Resolved {A} a.
Arguments Rejected {A} e.

(** The values interpolated in the chapter prompt, in the order of the
    template; the fixed text around them is left out. *)
Record ChapterPrompt := mkChapterPrompt {
  p_format : string;
  p_title : string;
  p_theme : string;
  p_chapterTitle : string;
  p_outline : string
}.

(** A reference to an object of the store: its position there. *)
Abbreviation Ref := nat (only parsing).

Inductive Event :=
| ChatSend (message : string)
| ChatSendParts (parts : list FunctionResponse)
| GenerateContent (prompt : ChapterPrompt)
| Wait (ms : Z)
| EBookGenerated (book : EBook)
| MarketAnalyzed (data : MarketData)
| ChapterEdited (index : Z) (content : string)
| Background (bookData args : Ref).

Definition maxAttempts : nat := 3.

Definition retrySuffix : string := " (Focus on valid JSON. Keep outlines CONCISE.)".

Definition giveUpMessage (lastError : string) : string :=
  "I encountered an error: " +:+ Js.dquote +:+ lastError +:+ Js.dquote
  +:+ ". Please try asking for fewer chapters (e.g., 5) or a shorter story.".

Definition failedPlaceholder (outline : option string) : string :=
  "(Content generation failed. Outline: " +:+ Js.interpolate outline +:+ ")".

Definition failedAfterRetriesPlaceholder (outline : option string) : string :=
  "(Content generation failed after retries. Outline: "
  +:+ Js.interpolate outline +:+ ")".

(** How a loop body ends. *)
Inductive Step (A : Type) :=
| Return (a : A)
| Continue
| Break.
Arguments Return {A} a.
Arguments Continue {A}.
Arguments Break {A}.

(** *** generateChapterContent *)

(** The state of one background task: the local [attempts] of the running
    [generateChapterContent], the requests made so far, the trace. *)
Record GenState := mkGenState {
  g_attempts : nat;
  genCalls : nat;
  g_trace : list Event
}.

Definition genInit : GenState :=
  {| g_attempts := 0; genCalls := 0; g_trace := [] |}.

Definition g_emit (e : Event) : M GenState unit :=
  modify (fun s => {| g_attempts := g_attempts s; genCalls := genCalls s;
                      g_trace := g_trace s ++ [e] |}).

Definition g_setAttempts (n : nat) : M GenState unit :=
  modify (fun s => {| g_attempts := n; genCalls := genCalls s;
                      g_trace := g_trace s |}).

(** [this.wait(ms)] *)
Definition g_wait (ms : Z) : M GenState unit := g_emit (Wait ms).

Definition chapterPrompt (book : EBook) (chapter : Chapter) : ChapterPrompt :=
  {| p_format := bk_format book;
     p_title := bk_title book;
     p_theme := bk_theme book;
     p_chapterTitle := ch_title chapter;
     p_outline := Js.interpolate (ch_outline chapter) |}.

(** [e.status === 429 || e.toString().includes('429')] *)
Definition isRateLimit (e : Js.Error) : bool :=
  match Js.status e with
  | Some n => (n =? 429)%Z
  | None => false
  end || Js.includes (Js.toString e) "429".

Section Generation.
(** The outcome of the n-th [ai.models.generateContent] request of the
    task; a resolved request yields [result.text]. *)
Variable gen : nat -> Outcome (option string).

(** [await this.ai.models.generateContent({ model, contents: prompt })] *)
Definition generateContent (prompt : ChapterPrompt) : M GenState (option string) :=
  fun s =>
    let s' := {| g_attempts := g_attempts s; genCalls := S (genCalls s);
                 g_trace := g_trace s ++ [GenerateContent prompt] |} in
    match gen (genCalls s) with
    | Resolved t => (Val t, s')
    | Rejected e => (Exn e, s')
    end.

(** The body of [while (attempts < 3)]. *)
Definition generateIteration (book : EBook) (chapter : Chapter)
  : M GenState (Step string) :=
  tryCatch
    (result <- generateContent (chapterPrompt book chapter) ;;
     ret (Return (Js.optOrElse result EmptyString)))
    (fun e =>
       if isRateLimit e then
         n <- gets g_attempts ;;
         g_wait (2 ^ Z.of_nat n * 2000) ;;
         g_setAttempts (S n) ;;
         ret Continue
       else ret (Return (failedPlaceholder (ch_outline chapter)))).

Fixpoint generateLoop (fuel : nat) (book : EBook) (chapter : Chapter)
  : M GenState string :=
  n <- gets g_attempts ;;
  if (n <? 3)%nat then
    match fuel with
    | O => outOfFuel
    | S fuel' =>
        step <- generateIteration book chapter ;;
        match step with
        | Return s => ret s
        | Continue => generateLoop fuel' book chapter
        | Break => ret (failedAfterRetriesPlaceholder (ch_outline chapter))
        end
    end
  else ret (failedAfterRetriesPlaceholder (ch_outline chapter)).

Definition generateChapterContent (fuel : nat) (book : EBook) (chapter : Chapter)
  : M GenState string :=
  g_setAttempts 0 ;;
  generateLoop fuel book chapter.

(** The earlier revision of the method: one request in one [try], and the
    placeholder for any failure. *)
Definition generateChapterContentOnce (book : EBook) (chapter : Chapter)
  : M GenState string :=
  tryCatch
    (result <- generateContent (chapterPrompt book chapter) ;;
     ret (Js.optOrElse result EmptyString))
    (fun _ => ret (failedPlaceholder (ch_outline chapter))).
End Generation.

(** *** The background generation task *)

Definition typeError : Js.Error :=
  {| Js.status := None; Js.name := "TypeError";
     Js.message := "Cannot read properties of undefined" |}.

(** Reading a property of the value [o]; [undefined] has none. *)
Definition defined {S A} (o : option A) : M S A :=
  match o with
  | Some a => ret a
  | None => throw typeError
  end.

Fixpoint forEach {S A} (l : list A) (body : A -> M S unit) : M S unit :=
  match l with
  | [] => ret tt
  | x :: l' => body x ;; forEach l' body
  end.

(** [{ ...ch, outline: o }] *)
Definition withOutline (ch : Chapter) (o : option string) : Chapter :=
  {| ch_title := ch_title ch; ch_outline := o;
     ch_imageKeyword := ch_imageKeyword ch; ch_content := ch_content ch;
     ch_imageUrl := ch_imageUrl ch |}.

Section Background.
Variable gen : nat -> Outcome (option string).
(** The store the task reads; it writes nothing to it. *)
Variable heap : list EBook.

(** The body of [for (let i = 0; i < bookData.chapters.length; i++)].
    [bookData] and [args] are the two names the closure captured. *)
Definition backgroundStep (fuel : nat) (bookData args : Ref) (i : nat)
  : M GenState unit :=
  book <- defined (heap !! bookData) ;;
  ch <- defined (bk_chapters book !! i) ;;
  (if (0 <? i)%nat then g_wait 2000 else ret tt) ;;
  argsObj <- defined (heap !! args) ;;
  argsCh <- defined (bk_chapters argsObj !! i) ;;
  content <- generateChapterContent gen fuel book
               (withOutline ch (ch_outline argsCh)) ;;
  g_emit (ChapterEdited (Z.of_nat i) content).

Definition backgroundGeneration (fuel : nat) (bookData args : Ref)
  : M GenState unit :=
  book <- defined (heap !! bookData) ;;
  forEach (seq 0 (length (bk_chapters book)))
          (backgroundStep fuel bookData args).
End Background.

(** *** sendMessage *)

(** The locals of a running [sendMessage] ([attempts], [lastError],
    [functionResponseParts]), the requests made on the chat so far, the
    store of argument objects, the trace. *)
Record State := mkState {
  attempts : nat;
  lastError : string;
  functionResponseParts : list FunctionResponse;
  chatCalls : nat;
  heap : list EBook;
  trace : list Event
}.

Definition init : State :=
  {| attempts := 0; lastError := EmptyString; functionResponseParts := [];
     chatCalls := 0; heap := []; trace := [] |}.

Definition setAttempts (n : nat) : M State unit :=
  modify (fun s => mkState n (lastError s) (functionResponseParts s)
                           (chatCalls s) (heap s) (trace s)).

Definition setLastError (e : string) : M State unit :=
  modify (fun s => mkState (attempts s) e (functionResponseParts s)
                           (chatCalls s) (heap s) (trace s)).

Definition setParts (p : list FunctionResponse) : M State unit :=
  modify (fun s => mkState (attempts s) (lastError s) p
                           (chatCalls s) (heap s) (trace s)).

Definition setHeap (h : list EBook) : M State unit :=
  modify (fun s => mkState (attempts s) (lastError s) (functionResponseParts s)
                           (chatCalls s) h (trace s)).

Definition emit (e : Event) : M State unit :=
  modify (fun s => mkState (attempts s) (lastError s) (functionResponseParts s)
                           (chatCalls s) (heap s) (trace s ++ [e])).

Definition wait (ms : Z) : M State unit := emit (Wait ms).

(** [functionResponseParts.push(p)] *)
Definition push (p : FunctionResponse) : M State unit :=
  parts <- gets functionResponseParts ;;
  setParts (parts ++ [p]).

(** The argument object of a call enters the store; the result is the
    reference the code calls [args]. *)
Definition alloc (o : EBook) : M State Ref :=
  h <- gets heap ;;
  setHeap (h ++ [o]) ;;
  ret (length h).

Definition deref (r : Ref) : M State EBook :=
  h <- gets heap ;;
  defined (h !! r).

(** The object [o] once its [chapters] property holds [chs]. *)
Definition withChapters (o : EBook) (chs : list Chapter) : EBook :=
  mkEBook (bk_title o) (bk_author o) (bk_description o) (bk_theme o)
          (bk_format o) chs.

(** [r.chapters = chs] *)
Definition writeChapters (r : Ref) (chs : list Chapter) : M State unit :=
  o <- deref r ;;
  h <- gets heap ;;
  setHeap (<[r := withChapters o chs]> h).

(** [ch => ({ title: ch.title, imageKeyword: ch.imageKeyword, content: '' })] *)
Definition initialChapter (ch : Chapter) : Chapter :=
  {| ch_title := ch_title ch; ch_outline := None;
     ch_imageKeyword := ch_imageKeyword ch; ch_content := Some EmptyString;
     ch_imageUrl := None |}.

Definition isSome_string (o : option string) (v : string) : bool :=
  match o with
  | Some s => String.eqb s v
  | None => false
  end.

(** [!calls || calls.length === 0] *)
Definition noCalls (calls : option (list FunctionCall)) : bool :=
  match calls with
  | Some (_ :: _) => false
  | _ => true
  end.

(** [candidate?.finishReason === "MALFORMED_FUNCTION_CALL"] *)
Definition malformedOutput (r : Response) : bool :=
  isSome_string (finishReason r) "MALFORMED_FUNCTION_CALL".

(** [candidate?.finishReason === "SAFETY"] *)
Definition safetyBlock (r : Response) : bool :=
  isSome_string (finishReason r) "SAFETY".

(** [!response.text && (!response.functionCalls ||
    response.functionCalls.length === 0)] *)
Definition emptyResponse (r : Response) : bool :=
  negb (Js.truthy (text r)) && noCalls (functionCalls r).

(** The calls the loop [for (const call of calls)] visits. *)
Definition callList (calls : option (list FunctionCall)) : list FunctionCall :=
  match calls with
  | Some l => l
  | None => []
  end.

Definition callId (c : FunctionCall) : option string :=
  match c with
  | CreateEbook _ id | AnalyzeMarket _ id | EditChapter _ _ id | OtherCall _ id => id
  end.

(** The body of [for (const call of calls)]: the three tool branches
    inside their own [try], and the [catch (toolError)]. *)
Definition handleCall (call : FunctionCall) : M State unit :=
  tryCatch
    (match call with
     | CreateEbook argsObj id =>
         args <- alloc argsObj ;;
         (* const bookData = args as any: a second name for the object *)
         let bookData := args in
         o <- deref bookData ;;
         let initialChapters := map initialChapter (bk_chapters o) in
         writeChapters bookData initialChapters ;;
         book <- deref bookData ;;
         emit (EBookGenerated book) ;;
         push (mkFunctionResponse "create_ebook"
                 (inl "Structure created. Generating content in background.") id) ;;
         emit (Background bookData args)
     | AnalyzeMarket data id =>
         emit (MarketAnalyzed data) ;;
         push (mkFunctionResponse "analyze_market" (inl "Success") id)
     | EditChapter chapterIndex newContent id =>
         emit (ChapterEdited chapterIndex newContent) ;;
         push (mkFunctionResponse "edit_chapter" (inl "Success") id)
     | OtherCall _ _ => ret tt
     end)
    (fun toolError =>
       push (mkFunctionResponse (callName call) (inr "Processing failed")
               (callId call))).

(** [finalMessage] in the pass that starts with [attempts] at [n]. *)
Definition finalMessage (n : nat) (message : string) : string :=
  if (0 <? n)%nat then message +:+ retrySuffix else message.

Section Chat.
(** The outcome of the n-th [this.chat.sendMessage] request. *)
Variable chat : nat -> Outcome Response.

Definition request (e : Event) : M State Response :=
  fun s =>
    let s' := mkState (attempts s) (lastError s) (functionResponseParts s)
                      (S (chatCalls s)) (heap s) (trace s ++ [e]) in
    match chat (chatCalls s) with
    | Resolved r => (Val r, s')
    | Rejected e => (Exn e, s')
    end.

(** [await this.chat.sendMessage({ message })] with a text ... *)
Definition chatSendMessage (message : string) : M State Response :=
  request (ChatSend message).

(** ... and with the function responses. *)
Definition chatSendParts (parts : list FunctionResponse) : M State Response :=
  request (ChatSendParts parts).

(** The [try] block of the loop body. *)
Definition tryBody (message : string) : M State string :=
  n <- gets attempts ;;
  response <- chatSendMessage (finalMessage n message) ;;
  if malformedOutput response
  then throw (Js.newError "MALFORMED_JSON")
  else if safetyBlock response
  then throw (Js.newError "SAFETY_BLOCK")
  else if emptyResponse response
  then throw (Js.newError "EMPTY_RESPONSE")
  else
    let responseText := Js.optOrElse (text response) EmptyString in
    let calls := functionCalls response in
    if noCalls calls then
      ret (Js.orElse responseText "Content generated successfully!")
    else
      setParts [] ;;
      forEach (callList calls) handleCall ;;
      parts <- gets functionResponseParts ;;
      responseText <-
        match parts with
        | _ :: _ =>
            tryCatch
              (toolResponse <- chatSendParts parts ;;
               if Js.truthy (text toolResponse)
               then ret (responseText +:+ Js.newline +:+ Js.newline
                         +:+ Js.interpolate (text toolResponse))
               else ret responseText)
              (fun _ => ret responseText)
        | [] => ret responseText
        end ;;
      ret (Js.orElse responseText "Content generated successfully!").

(** The [catch (error)] block of the loop body. *)
Definition onError (error : Js.Error) : M State (Step string) :=
  setLastError (Js.orElse (Js.message error) (Js.toString error)) ;;
  err <- gets lastError ;;
  let errStr := Js.toLowerCase err in
  if Js.includes errStr "429" || Js.includes errStr "503" then
    n <- gets attempts ;;
    wait ((Z.of_nat n + 1) * 2000) ;;
    setAttempts (S n) ;;
    ret Continue
  else if Js.includes errStr "403" || Js.includes errStr "key not valid" then
    throw error
  else
    n <- gets attempts ;;
    setAttempts (S n) ;;
    n <- gets attempts ;;
    if (maxAttempts <=? n)%nat then ret Break
    else (wait 1500 ;; ret Continue).

Definition iteration (message : string) : M State (Step string) :=
  tryCatch (r <- tryBody message ;; ret (Return r)) onError.

Definition giveUp : M State string :=
  err <- gets lastError ;;
  ret (giveUpMessage err).

(** [while (attempts < maxAttempts) { ... }] and the [return] after it. *)
Fixpoint sendLoop (fuel : nat) (message : string) : M State string :=
  n <- gets attempts ;;
  if (n <? maxAttempts)%nat then
    match fuel with
    | O => outOfFuel
    | S fuel' =>
        step <- iteration message ;;
        match step with
        | Return r => ret r
        | Continue => sendLoop fuel' message
        | Break => giveUp
        end
    end
  else giveUp.

(** [sendMessage]; the chat session is taken as started. *)
Definition sendMessage (fuel : nat) (message : string) : M State string :=
  setAttempts 0 ;;
  setLastError EmptyString ;;
  sendLoop fuel message.
End Chat.

(** *** Reading a trace *)

Fixpoint count {A} (p : A -> bool) (l : list A) : nat :=
  match l with
  | [] => O
  | x :: l' => ((if p x then 1 else 0) + count p l')%nat
  end.

Definition isChatSend (e : Event) : bool :=
  match e with ChatSend _ => true | _ => false end.

Definition isGenerateContent (e : Event) : bool :=
  match e with GenerateContent _ => true | _ => false end.

Definition isWait (e : Event) : bool :=
  match e with Wait _ => true | _ => false end.

(** The requests that carry the user's message. *)
Definition sends (tr : list Event) : nat := count isChatSend tr.

(** The state right after the request of the pass was sent. *)
Definition sent (message : string) (s : State) : State :=
  mkState (attempts s) (lastError s) (functionResponseParts s)
          (S (chatCalls s)) (heap s)
          (trace s ++ [ChatSend (finalMessage (attempts s) message)]).

(** [s'] continues [s] without a new attempt: the attempt counter and the
    last error are those of [s], and no user message was sent. *)
Definition silent (s s' : State) : Prop :=
  attempts s' = attempts s
  /\ lastError s' = lastError s
  /\ exists evs, trace s' = trace s ++ evs /\ sends evs = O.

(** The chapter generation requests. *)
Definition generations (tr : list Event) : nat := count isGenerateContent tr.

(** Whether a generation request is turned down for rate. *)
Definition rateLimited (o : Outcome (option string)) : bool :=
  match o with
  | Resolved _ => false
  | Rejected e => isRateLimit e
  end.

(** The events of [generateChapterContent]: requests and delays. *)
Definition quiet (e : Event) : bool := isGenerateContent e || isWait e.

(** What [generateChapterContent] returns for a request that is not turned
    down for rate. *)
Definition settled (chapter : Chapter) (o : Outcome (option string)) : string :=
  match o with
  | Resolved t => Js.optOrElse t EmptyString
  | Rejected _ => failedPlaceholder (ch_outline chapter)
  end.

(** [requests gen book chapter c n evs content c']: a call of
    [generateChapterContent] on [book] and [chapter] that has used [n]
    attempts and is at the request numbered [c] leaves the events [evs],
    returns [content] and is followed by the request numbered [c'].  A
    request that is not turned down for rate settles the call; one that is
    turned down is followed by its delay and the next attempt; after three
    attempts the call gives up. *)
Inductive requests (gen : nat -> Outcome (option string)) (book : EBook)
  (chapter : Chapter) : nat -> nat -> list Event -> string -> nat -> Prop :=
| requests_settled (c n : nat) :
    (n < 3)%nat ->
    rateLimited (gen c) = false ->
    requests gen book chapter c n
      [GenerateContent (chapterPrompt book chapter)]
      (settled chapter (gen c)) (S c)
| requests_again (c n : nat) (evs : list Event) (content : string) (c' : nat) :
    (n < 3)%nat ->
    rateLimited (gen c) = true ->
    requests gen book chapter (S c) (S n) evs content c' ->
    requests gen book chapter c n
      (GenerateContent (chapterPrompt book chapter)
       :: Wait (2 ^ Z.of_nat n * 2000) :: evs)
      content c'
| requests_exhausted (c n : nat) :
    (3 <= n)%nat ->
    requests gen book chapter c n []
      (failedAfterRetriesPlaceholder (ch_outline chapter)) c.

(** The events of the chapter at index [i] of [book] in a background task
    that is at the request numbered [c]: the 2000 ms delay unless [i] is 0,
    then the requests of [generateChapterContent] for that chapter, then the
    delivery of what it returned to [onChapterEdited] with the index [i]. *)
Inductive chapterEvents (gen : nat -> Outcome (option string)) (book : EBook)
  (i c : nat) : list Event -> nat -> Prop :=
| chapterEvents_intro (ch : Chapter) (evs : list Event) (content : string)
    (c' : nat) :
    bk_chapters book !! i = Some ch ->
    requests gen book ch c 0 evs content c' ->
    chapterEvents gen book i c
      ((if (0 <? i)%nat then [Wait 2000] else [])
       ++ evs ++ [ChapterEdited (Z.of_nat i) content])
      c'.

(** [walk gen book i n c tr c']: [tr] holds the events of the chapters [i],
    [i + 1], ..., [i + n - 1] of [book], one chapter after the other, the
    requests being numbered from [c] to [c'] excluded. *)
Inductive walk (gen : nat -> Outcome (option string)) (book : EBook)
  : nat -> nat -> nat -> list Event -> nat -> Prop :=
| walk_done (i c : nat) : walk gen book i O c [] c
| walk_chapter (i n c c1 c2 : nat) (evs tr : list Event) :
    chapterEvents gen book i c evs c1 ->
    walk gen book (S i) n c1 tr c2 ->
    walk gen book i (S n) c (evs ++ tr) c2.

End Service.

(** ** ApiKeyModal (components/ApiKeyModal.tsx) *)

Module ApiKeyModal.

Inductive Status := idle | validating | valid | error.

(** The component state [validateAndSave] reads and writes. *)
Record State := mkState {
  key : string;
  status : Status;
  errorMessage : string
}.

Inductive Callback :=
| OnSave (key : string)
| OnClose.

Inductive Event :=
| Validate (apiKey : string)                   (* ai.models.generateContent *)
| SetTimeout (calls : list Callback) (ms : Z). (* setTimeout(() => { ... }, ms) *)

Definition setStatus (st : Status) (s : State) : State :=
  {| key := key s; status := st; errorMessage := errorMessage s |}.

Definition setErrorMessage (m : string) (s : State) : State :=
  {| key := key s; status := status s; errorMessage := m |}.

(** [validation] is how the validation request settles. *)
Definition validateAndSave (validation : Service.Outcome unit) (s : State)
  : State * list Event :=
  let trimmedKey := Js.trim (key s) in
  if Js.isEmpty trimmedKey then
    (setStatus error (setErrorMessage "Please enter an API key." s), [])
  else
    let s := setErrorMessage EmptyString (setStatus validating s) in
    match validation with
    | Service.Resolved _ =>
        (setStatus valid s,
         [Validate trimmedKey; SetTimeout [OnSave trimmedKey; OnClose] 500])
    | Service.Rejected e =>
        let errString := Js.toLowerCase (Js.toString e) in
        if Js.includes errString "429" || Js.includes errString "quota" then
          (setStatus valid s,
           [Validate trimmedKey; SetTimeout [OnSave trimmedKey; OnClose] 500])
        else
          let s := setStatus error s in
          let s :=
            if Js.includes errString "403"
               || Js.includes errString "permission denied"
            then setErrorMessage
                   "Key rejected. This is usually a billing/project setting." s
            else if Js.includes errString "400"
                    || Js.includes errString "invalid argument"
            then setErrorMessage "Invalid Key Format." s
            else setErrorMessage "Connection failed. Please check internet." s in
          (s, [Validate trimmedKey])
    end.

(** The keys handed to [onSave] once the timers of a trace have fired. *)
Definition savedKeys (tr : list Event) : list string :=
  flat_map (fun e =>
              match e with
              | SetTimeout calls _ =>
                  flat_map (fun c => match c with OnSave k => [k] | OnClose => [] end)
                           calls
              | Validate _ => []
              end) tr.

End ApiKeyModal.

(** ** EBookReader (components/EBookReader.tsx) *)

Module EBookReader.

(** [useState(-1)]: the cover. *)
Definition initialChapter : Z := -1.

Definition nextChapter (book : EBook) (currentChapter : Z) : Z :=
  if (currentChapter <? Z.of_nat (length (bk_chapters book)) - 1)%Z
  then currentChapter + 1
  else currentChapter.

Definition prevChapter (currentChapter : Z) : Z :=
  if (currentChapter >? -1)%Z then currentChapter - 1 else currentChapter.

Inductive Click := Next | Prev.

Definition click (book : EBook) (currentChapter : Z) (c : Click) : Z :=
  match c with
  | Next => nextChapter book currentChapter
  | Prev => prevChapter currentChapter
  end.

(** The index after a sequence of clicks on a freshly mounted reader. *)
Definition browse (book : EBook) (clicks : list Click) : Z :=
  fold_left (click book) clicks initialChapter.

End EBookReader.

(** ** JSON.stringify and JSON.parse on the application's records *)

Module Persist.

Fixpoint zeros (n : nat) : string :=
  match n with
  | O => EmptyString
  | S n' => String "0" (zeros n')
  end.

(** [String(n).padStart(width, '0')] for a natural [n]. *)
Definition padStart (width : nat) (n : Z) : string :=
  let s := pretty n in
  zeros (width - String.length s) +:+ s.

(** [Date.prototype.toISOString] for the instant [ms] milliseconds after
    the epoch (proleptic Gregorian calendar, UTC). *)
Definition toISOString (ms : Z) : string :=
  let days := ms / 86400000 in
  let rest := ms mod 86400000 in
  let z := days + 719468 in
  let era := z / 146097 in
  let doe := z - era * 146097 in
  let yoe := (doe - doe / 1460 + doe / 36524 - doe / 146096) / 365 in
  let doy := doe - (365 * yoe + yoe / 4 - yoe / 100) in
  let mp := (5 * doy + 2) / 153 in
  let d := doy - (153 * mp + 2) / 5 + 1 in
  let m := if (mp <? 10)%Z then mp + 3 else mp - 9 in
  let y := yoe + era * 400 + (if (m <=? 2)%Z then 1 else 0) in
  let year :=
    if ((0 <=? y)%Z && (y <=? 9999)%Z)%bool then padStart 4 y
    else (if (y <? 0)%Z then "-" else "+") +:+ padStart 6 (Z.abs y) in
  year +:+ "-" +:+ padStart 2 m +:+ "-" +:+ padStart 2 d
  +:+ "T" +:+ padStart 2 (rest / 3600000)
  +:+ ":" +:+ padStart 2 (rest / 60000 mod 60)
  +:+ ":" +:+ padStart 2 (rest / 1000 mod 60)
  +:+ "." +:+ padStart 3 (rest mod 1000) +:+ "Z".

(** A property whose value is [undefined] is left out. *)
Definition optional (k : string) (v : option Json) : list (string * Json) :=
  match v with
  | Some j => [(k, j)]
  | None => []
  end.

(** *** JSON.stringify *)

Definition senderText (s : Sender) : string :=
  match s with USER => "user" | AI => "model" end.

(** A [Date] is written through its [toJSON], i.e. [toISOString]. *)
Definition stringifyTimestamp (t : Timestamp) : Json :=
  match t with
  | DateObj ms => JStr (toISOString ms)
  | DateText s => JStr s
  end.

Definition stringifyMessage (m : Message) : Json :=
  JObj ([("id", JStr (msg_id m));
         ("text", JStr (msg_text m));
         ("sender", JStr (senderText (msg_sender m)));
         ("timestamp", stringifyTimestamp (msg_timestamp m))]
        ++ optional "isThinking" (JBool <$> msg_isThinking m)).

Definition stringifyChapter (c : Chapter) : Json :=
  JObj ([("title", JStr (ch_title c))]
        ++ optional "outline" (JStr <$> ch_outline c)
        ++ [("imageKeyword", JStr (ch_imageKeyword c))]
        ++ optional "content" (JStr <$> ch_content c)
        ++ optional "imageUrl" (JStr <$> ch_imageUrl c)).

Definition stringifyEBook (b : EBook) : Json :=
  JObj [("title", JStr (bk_title b));
        ("author", JStr (bk_author b));
        ("description", JStr (bk_description b));
        ("theme", JStr (bk_theme b));
        ("format", JStr (bk_format b));
        ("chapters", JArr (map stringifyChapter (bk_chapters b)))].

Definition stringifyProject (p : SavedProject) : Json :=
  JObj [("id", JStr (sp_id p));
        ("name", JStr (sp_name p));
        ("book", stringifyEBook (sp_book p));
        ("messages", JArr (map stringifyMessage (sp_messages p)));
        ("marketData", sp_marketData p);
        ("createdAt", JNum (sp_createdAt p))].

(** [JSON.stringify(savedProjects)] *)
Definition stringify (ps : list SavedProject) : Json :=
  JArr (map stringifyProject ps).

(** *** JSON.parse, read back as the application's records

    [JSON.parse] is called without a reviver: a string stays a string. *)

Fixpoint assoc (k : string) (props : list (string * Json)) : option Json :=
  match props with
  | [] => None
  | (k', v) :: rest => if String.eqb k k' then Some v else assoc k rest
  end.

(** [j.k] *)
Definition prop (k : string) (j : Json) : option Json :=
  match j with
  | JObj props => assoc k props
  | _ => None
  end.

Definition asString (j : Json) : option string :=
  match j with JStr s => Some s | _ => None end.

Definition asNumber (j : Json) : option Z :=
  match j with JNum n => Some n | _ => None end.

Definition asArray (j : Json) : option (list Json) :=
  match j with JArr l => Some l | _ => None end.

(** An optional property: absent, or of the expected kind. *)
Definition optionalOf {A} (read : Json -> option A) (o : option Json)
  : option (option A) :=
  match o with
  | None => Some None
  | Some j => Some <$> read j
  end.

Definition asBool (j : Json) : option bool :=
  match j with JBool b => Some b | _ => None end.

Definition parseSender (j : Json) : option Sender :=
  s ← asString j;
  if String.eqb s "user" then Some USER
  else if String.eqb s "model" then Some AI
  else None.

Definition parseTimestamp (j : Json) : option Timestamp :=
  DateText <$> asString j.

Definition parseMessage (j : Json) : option Message :=
  id ← prop "id" j ≫= asString;
  text ← prop "text" j ≫= asString;
  sender ← prop "sender" j ≫= parseSender;
  timestamp ← prop "timestamp" j ≫= parseTimestamp;
  isThinking ← optionalOf asBool (prop "isThinking" j);
  Some (mkMessage id text sender timestamp isThinking).

Definition parseChapter (j : Json) : option Chapter :=
  title ← prop "title" j ≫= asString;
  outline ← optionalOf asString (prop "outline" j);
  imageKeyword ← prop "imageKeyword" j ≫= asString;
  content ← optionalOf asString (prop "content" j);
  imageUrl ← optionalOf asString (prop "imageUrl" j);
  Some (mkChapter title outline imageKeyword content imageUrl).

Definition parseEBook (j : Json) : option EBook :=
  title ← prop "title" j ≫= asString;
  author ← prop "author" j ≫= asString;
  description ← prop "description" j ≫= asString;
  theme ← prop "theme" j ≫= asString;
  format ← prop "format" j ≫= asString;
  items ← prop "chapters" j ≫= asArray;
  chapters ← mapM parseChapter items;
  Some (mkEBook title author description theme format chapters).

Definition parseProject (j : Json) : option SavedProject :=
  id ← prop "id" j ≫= asString;
  name ← prop "name" j ≫= asString;
  book ← prop "book" j ≫= parseEBook;
  items ← prop "messages" j ≫= asArray;
  messages ← mapM parseMessage items;
  marketData ← prop "marketData" j;
  createdAt ← prop "createdAt" j ≫= asNumber;
  Some (mkSavedProject id name book messages marketData createdAt).

(** [JSON.parse(saved)] read as [SavedProject[]]. *)
Definition parse (j : Json) : option (list SavedProject) :=
  items ← asArray j;
  mapM parseProject items.

(** What a message is after [JSON.parse(JSON.stringify(m))]. *)
Definition storedMessage (m : Message) : Message :=
  mkMessage (msg_id m) (msg_text m) (msg_sender m)
    (match msg_timestamp m with
     | DateObj ms => DateText (toISOString ms)
     | DateText s => DateText s
     end)
    (msg_isThinking m).

(** What a project is after [JSON.parse(JSON.stringify(p))]. *)
Definition storedProject (p : SavedProject) : SavedProject :=
  mkSavedProject (sp_id p) (sp_name p) (sp_book p)
    (map storedMessage (sp_messages p)) (sp_marketData p) (sp_createdAt p).

End Persist.

(** ** App (App.tsx) *)

Module App.

(** The React state the modelled handlers read and write. *)
Record State := mkState {
  messages : list Message;
  generatedBook : option EBook;
  marketData : MarketData;
  savedProjects : list SavedProject;
  currentMode : AppMode
}.

Definition setMessages (f : list Message -> list Message) (s : State) : State :=
  mkState (f (messages s)) (generatedBook s) (marketData s) (savedProjects s)
          (currentMode s).

Definition setGeneratedBook (f : option EBook -> option EBook) (s : State) : State :=
  mkState (messages s) (f (generatedBook s)) (marketData s) (savedProjects s)
          (currentMode s).

Definition setMarketData (d : MarketData) (s : State) : State :=
  mkState (messages s) (generatedBook s) d (savedProjects s) (currentMode s).

Definition setSavedProjects (f : list SavedProject -> list SavedProject) (s : State)
  : State :=
  mkState (messages s) (generatedBook s) (marketData s) (f (savedProjects s))
          (currentMode s).

Definition setCurrentMode (m : AppMode) (s : State) : State :=
  mkState (messages s) (generatedBook s) (marketData s) (savedProjects s) m.

(** [a[i]] for a number [i] that is an integer. *)
Definition at_ {A} (a : list A) (i : Z) : option A :=
  if (i <? 0)%Z then None else a !! Z.to_nat i.

(** [{ ...ch, content: newContent }] *)
Definition withContent (ch : Chapter) (newContent : string) : Chapter :=
  {| ch_title := ch_title ch; ch_outline := ch_outline ch;
     ch_imageKeyword := ch_imageKeyword ch; ch_content := Some newContent;
     ch_imageUrl := ch_imageUrl ch |}.

(** The updater handed to [setGeneratedBook] by the chapter-edit callback. *)
Definition editChapter (chapterIndex : Z) (newContent : string)
  (prev : option EBook) : option EBook :=
  match prev with
  | None => None
  | Some prev =>
      let updatedChapters := bk_chapters prev in
      let updatedChapters :=
        match at_ updatedChapters chapterIndex with
        | Some ch =>
            <[Z.to_nat chapterIndex := withContent ch newContent]> updatedChapters
        | None => updatedChapters
        end in
      Some (mkEBook (bk_title prev) (bk_author prev) (bk_description prev)
                    (bk_theme prev) (bk_format prev) updatedChapters)
  end.

(** The third callback of [sendMessage]; [now] is the clock reading. *)
Definition onChapterEdited (now : Z) (chapterIndex : Z) (newContent : string)
  (s : State) : State :=
  let s := setGeneratedBook (editChapter chapterIndex newContent) s in
  let successMsg :=
    {| msg_id := "edit-success-" +:+ pretty now;
       msg_text := "**Edit Complete:** Chapter " +:+ pretty (chapterIndex + 1)
                   +:+ " updated.";
       msg_sender := AI;
       msg_timestamp := DateObj now;
       msg_isThinking := None |} in
  let s := setMessages (fun prev => prev ++ [successMsg]) s in
  setCurrentMode ModePreview s.

Definition handleSaveProject (now : Z) (s : State) : State :=
  match generatedBook s with
  | Some book =>
      let newProject :=
        {| sp_id := pretty now;
           sp_name := bk_title book;
           sp_book := book;
           sp_messages := messages s;
           sp_marketData := marketData s;
           sp_createdAt := now |} in
      let s' := setSavedProjects (fun prev => newProject :: prev) s in
      setMessages (fun prev =>
                     prev ++ [ {| msg_id := "save-msg-" +:+ pretty now;
                                  msg_text := "**Project Saved!**";
                                  msg_sender := AI;
                                  msg_timestamp := DateObj now;
                                  msg_isThinking := None |} ]) s'
  | None => s
  end.

(** [onLoadProject] of the project library. *)
Definition onLoadProject (p : SavedProject) (s : State) : State :=
  let s := setGeneratedBook (fun _ => Some (sp_book p)) s in
  let s := setMessages (fun _ => sp_messages p) s in
  setCurrentMode ModePreview s.

(** The effect on [savedProjects]: the item [booksmith_projects] of the
    browser storage after the state changed. *)
Definition persisted (s : State) : Json := Persist.stringify (savedProjects s).

(** The initial [savedProjects] of a freshly mounted application:
    [saved ? JSON.parse(saved) : []]. *)
Definition restoredProjects (saved : option Json) : option (list SavedProject) :=
  match saved with
  | Some j => Persist.parse j
  | None => Some []
  end.

(** The projects a page reload finds for the state [s]. *)
Definition reloadedProjects (s : State) : option (list SavedProject) :=
  restoredProjects (Some (persisted s)).

End App.

(** ** Reading a run of sendMessage *)

Module Run.

(** [lastError] after the error [e]: [error.message || error.toString()]. *)
Definition lastErrorOf (e : Js.Error) : string :=
  Js.orElse (Js.message e) (Js.toString e).

(** The text the [catch] block of [sendMessage] classifies:
    [lastError.toLowerCase()]. *)
Definition errorText (e : Js.Error) : string :=
  Js.toLowerCase (lastErrorOf e).

(** The first test of the [catch] block. *)
Definition rateClass (e : Js.Error) : bool :=
  Js.includes (errorText e) "429" || Js.includes (errorText e) "503".

(** The second test, reached when the first fails. *)
Definition authClass (e : Js.Error) : bool :=
  negb (rateClass e)
  && (Js.includes (errorText e) "403" || Js.includes (errorText e) "key not valid").

(** The object of a [create_ebook] call after its chapters were replaced. *)
Definition initialBook (argsObj : EBook) : EBook :=
  Service.withChapters argsObj (map Service.initialChapter (bk_chapters argsObj)).

(** The function response pushed for a call. *)
Definition responseOf (call : Service.FunctionCall) : list Service.FunctionResponse :=
  match call with
  | Service.CreateEbook _ id =>
      [Service.mkFunctionResponse "create_ebook"
         (inl "Structure created. Generating content in background.") id]
  | Service.AnalyzeMarket _ id =>
      [Service.mkFunctionResponse "analyze_market" (inl "Success") id]
  | Service.EditChapter _ _ id =>
      [Service.mkFunctionResponse "edit_chapter" (inl "Success") id]
  | Service.OtherCall _ _ => []
  end.

(** The callbacks and background tasks of a list of calls, the store
    holding [r] objects before the first of them. *)
Fixpoint callEvents (r : nat) (calls : list Service.FunctionCall)
  : list Service.Event :=
  match calls with
  | [] => []
  | Service.CreateEbook argsObj _ :: rest =>
      Service.EBookGenerated (initialBook argsObj)
      :: Service.Background r r :: callEvents (S r) rest
  | Service.AnalyzeMarket data _ :: rest =>
      Service.MarketAnalyzed data :: callEvents r rest
  | Service.EditChapter i c _ :: rest =>
      Service.ChapterEdited i c :: callEvents r rest
  | Service.OtherCall _ _ :: rest => callEvents r rest
  end.

(** The objects a list of calls adds to the store. *)
Definition callObjects (calls : list Service.FunctionCall) : list EBook :=
  flat_map (fun call =>
              match call with
              | Service.CreateEbook argsObj _ => [initialBook argsObj]
              | _ => []
              end) calls.

(** The milliseconds a trace spends in [wait]. *)
Fixpoint totalWait (tr : list Service.Event) : Z :=
  match tr with
  | [] => 0
  | Service.Wait ms :: rest => ms + totalWait rest
  | _ :: rest => totalWait rest
  end.

(** A response the [try] block goes on to handle. *)
Definition usable (r : Service.Response) : bool :=
  negb (Service.malformedOutput r) && negb (Service.safetyBlock r)
  && negb (Service.emptyResponse r).

(** [response.text], or the empty string, or the fixed success text. *)
Definition plainAnswer (r : Service.Response) : string :=
  Js.orElse (Js.optOrElse (Service.text r) EmptyString)
            "Content generated successfully!".

End Run.

(** ** GeminiService.generateImage *)

Module ServiceImage.
Local Open Scope js_scope.

(** [part.inlineData]: [{ mimeType, data }]. *)
Record InlineData := mkInlineData {
  mimeType : option string;
  data : option string
}.

(** What the code reads of a part of the response. *)
Record Part := mkPart {
  inlineData : option InlineData
}.

(** [part.inlineData && part.inlineData.data] *)
Definition carriesData (part : Part) : bool :=
  match inlineData part with
  | Some d => Js.truthy (data d)
  | None => false
  end.

(** [`data:${part.inlineData.mimeType};base64,${part.inlineData.data}`] *)
Definition dataUri (d : InlineData) : string :=
  "data:" +:+ Js.interpolate (mimeType d) +:+ ";base64," +:+ Js.interpolate (data d).

Definition noImageData : Js.Error := Js.newError "No image data found in response".

(** An awaited request. *)
Definition await {S A} (outcome : Service.Outcome A) : M S A :=
  match outcome with
  | Service.Resolved a => ret a
  | Service.Rejected e => throw e
  end.

(** [for (const part of parts) { if (...) return ...; }], then what follows
    the loop. *)
Fixpoint firstImage {S} (parts : list Part) (otherwise : M S string) : M S string :=
  match parts with
  | [] => otherwise
  | part :: rest =>
      match inlineData part with
      | Some d => if Js.truthy (data d) then ret (dataUri d) else firstImage rest otherwise
      | None => firstImage rest otherwise
      end
  end.

(** [generateImage]; [outcome] is how the request settles, a resolved one
    yielding [response.candidates?.[0]?.content?.parts]. *)
Definition generateImage (outcome : Service.Outcome (option (list Part)))
  : M unit string :=
  tryCatch
    (parts <- await outcome ;;
     match parts with
     | Some l => firstImage l (throw noImageData)
     | None => throw noImageData
     end)
    (fun e => throw e).

End ServiceImage.

(** ** App (App.tsx): images, deleting, sending *)

Module Shell.

(** [{ ...ch, imageUrl }] *)
Definition withImageUrl (ch : Chapter) (imageUrl : string) : Chapter :=
  {| ch_title := ch_title ch; ch_outline := ch_outline ch;
     ch_imageKeyword := ch_imageKeyword ch; ch_content := ch_content ch;
     ch_imageUrl := Some imageUrl |}.

(** The updater [handleGenerateImage] hands to [setGeneratedBook]. *)
Definition setImage (chapterIndex : Z) (imageUrl : string) (prev : option EBook)
  : option EBook :=
  match prev with
  | None => None
  | Some prev =>
      let newChapters := bk_chapters prev in
      let newChapters :=
        match App.at_ newChapters chapterIndex with
        | Some ch => <[Z.to_nat chapterIndex := withImageUrl ch imageUrl]> newChapters
        | None => newChapters
        end in
      Some (mkEBook (bk_title prev) (bk_author prev) (bk_description prev)
                    (bk_theme prev) (bk_format prev) newChapters)
  end.

(** [handleGenerateImage]; [service] tells whether the service object
    exists, [outcome] how the image request settles. *)
Definition handleGenerateImage (service : bool)
  (outcome : Service.Outcome (option (list ServiceImage.Part)))
  (chapterIndex : Z) (s : App.State) : Res string * App.State :=
  if negb service then (Exn (Js.newError "AI Service not ready"), s)
  else
    match fst (ServiceImage.generateImage outcome tt) with
    | Val imageUrl =>
        (Val imageUrl, App.setGeneratedBook (setImage chapterIndex imageUrl) s)
    | Exn e => (Exn e, s)
    | Fuel => (Fuel, s)
    end.

(** [onDeleteProject]: [prev.filter(p => p.id !== id)]. *)
Definition onDeleteProject (id : string) (s : App.State) : App.State :=
  App.setSavedProjects
    (List.filter (fun p => negb (String.eqb (sp_id p) id))) s.

(** *** The key, the service object and the storage *)

(** The rest of the state of [App]: the key, the dialog flag, the service
    object of [geminiServiceRef] (the key it was built with and its state),
    the item [gemini_api_key] of the browser storage, the input line and
    the loading flag. *)
Record State := mkState {
  app : App.State;
  apiKey : string;
  isKeyModalOpen : bool;
  service : option (string * Service.State);
  storedKey : option string;
  inputValue : string;
  isLoading : bool
}.

Definition withApp (a : App.State) (s : State) : State :=
  mkState a (apiKey s) (isKeyModalOpen s) (service s) (storedKey s)
          (inputValue s) (isLoading s).

Definition setIsKeyModalOpen (b : bool) (s : State) : State :=
  mkState (app s) (apiKey s) b (service s) (storedKey s) (inputValue s)
          (isLoading s).

(** How the [try] block of the effect on [apiKey] ends. *)
Inductive EffectOutcome :=
| Done          (* both statements ran *)
| NoService     (* [new GeminiService(apiKey)] threw *)
| NotStored.    (* [localStorage.setItem] threw *)

(** The effect on [apiKey].  With a key, a new service object is built and
    then the key is stored, inside one [try] whose [catch] only logs: when
    the first statement throws nothing is changed, when the second throws
    the new service object is there and the stored key is the old one.
    Without a key the dialog is opened. *)
Definition keyEffect (o : EffectOutcome) (s : State) : State :=
  if negb (Js.isEmpty (apiKey s)) then
    match o with
    | Done =>
        mkState (app s) (apiKey s) (isKeyModalOpen s)
                (Some (apiKey s, Service.init)) (Some (apiKey s))
                (inputValue s) (isLoading s)
    | NoService => s
    | NotStored =>
        mkState (app s) (apiKey s) (isKeyModalOpen s)
                (Some (apiKey s, Service.init)) (storedKey s)
                (inputValue s) (isLoading s)
    end
  else setIsKeyModalOpen true s.

(** The application when it is mounted: [apiKey] starts as
    [localStorage.getItem('gemini_api_key') || ENV_API_KEY], then the
    effect runs. *)
Definition mount (o : EffectOutcome) (a : App.State) (stored : option string)
  (env : string) : State :=
  keyEffect o (mkState a (Js.optOrElse stored env) false None stored
                 EmptyString false).

(** [onSave] of the key dialog: [setApiKey(key); setIsKeyModalOpen(false)];
    the effect runs again when [apiKey] changed. *)
Definition onSave (o : EffectOutcome) (key : string) (s : State) : State :=
  let s' := mkState (app s) key false (service s) (storedKey s) (inputValue s)
                    (isLoading s) in
  if String.eqb key (apiKey s) then s' else keyEffect o s'.

(** [handleClear] of the key dialog, as far as [App] sees it: [onSave('')]. *)
Definition handleClear (o : EffectOutcome) (s : State) : State :=
  onSave o EmptyString s.

(** The callbacks the shell hands to the key dialog: [onSave] above and
    [onClose], which shuts the dialog. *)
Definition fire (o : EffectOutcome) (s : State) (c : ApiKeyModal.Callback)
  : State :=
  match c with
  | ApiKeyModal.OnSave key => onSave o key s
  | ApiKeyModal.OnClose => setIsKeyModalOpen false s
  end.

(** The timers of a trace of the dialog, fired in their order. *)
Definition fireTimers (o : EffectOutcome) (tr : list ApiKeyModal.Event)
  (s : State) : State :=
  fold_left
    (fun s e =>
       match e with
       | ApiKeyModal.SetTimeout calls _ => fold_left (fire o) calls s
       | ApiKeyModal.Validate _ => s
       end) tr s.

(** *** handleSendMessage *)

Definition upperAscii (c : ascii) : ascii :=
  let n := nat_of_ascii c in
  if (Nat.leb 97 n && Nat.leb n 122)%bool then ascii_of_nat (n - 32) else c.

(** [s.toUpperCase()] *)
Fixpoint toUpperCase (s : string) : string :=
  match s with
  | EmptyString => EmptyString
  | String c s' => String (upperAscii c) (toUpperCase s')
  end.

Definition aiMessage (id text : string) (now : Z) : Message :=
  mkMessage id text AI (DateObj now) None.

(** The first callback of [sendMessage]. *)
Definition onEBookGenerated (now : Z) (book : EBook) (a : App.State) : App.State :=
  let a := App.setGeneratedBook (fun _ => Some book) a in
  let successMsg :=
    aiMessage ("book-success-" +:+ pretty now)
      ("**Success!** Created: " +:+ Js.dquote +:+ bk_title book +:+ Js.dquote
       +:+ " (" +:+ toUpperCase (bk_format book) +:+ ").") now in
  let a := App.setMessages (fun prev => prev ++ [successMsg]) a in
  App.setCurrentMode ModePreview a.

(** The second callback. *)
Definition onMarketAnalyzed (data : MarketData) (a : App.State) : App.State :=
  App.setCurrentMode ModeAnalysis (App.setMarketData data a).

(** One callback of [sendMessage]: the state of [App], whether an action
    was taken ([isActionTaken]) and the number of clock readings so far. *)
Definition callback (clock : nat -> Z) (acc : App.State * bool * nat)
  (ev : Service.Event) : App.State * bool * nat :=
  let '(a, taken, k) := acc in
  match ev with
  | Service.EBookGenerated book => (onEBookGenerated (clock k) book a, true, S k)
  | Service.MarketAnalyzed data => (onMarketAnalyzed data a, true, k)
  | Service.ChapterEdited i c => (App.onChapterEdited (clock k) i c a, true, S k)
  | _ => acc
  end.

(** The callbacks [sendMessage] invoked, in the order of its trace. *)
Definition runCallbacks (clock : nat -> Z) (evs : list Service.Event)
  (acc : App.State * bool * nat) : App.State * bool * nat :=
  fold_left (callback clock) evs acc.

(** The text of the error message, and whether the key dialog is opened. *)
Definition describeError (error : Js.Error) : string * bool :=
  let errorStr := Js.toLowerCase (Js.toString error) in
  if Js.includes errorStr "403" || Js.includes errorStr "key not valid"
     || Js.includes errorStr "invalid_api_key"
  then ("Invalid API Key. Please click 'API Configuration' to update it.", true)
  else if Js.includes errorStr "fetch failed"
  then ("Network error. Please check your internet connection.", false)
  else if Js.includes errorStr "empty response" || Js.includes errorStr "safety"
          || Js.includes errorStr "blocked"
  then ("The AI could not generate a response. "
        +:+ (if Js.includes errorStr "safety"
             then "Content blocked by safety filters."
             else "Please try a simpler or shorter request."), false)
  else ("An error occurred. The system might be overloaded. "
        +:+ "Please wait a moment and try again.", false).

(** The [catch] block, [now] being the clock reading of its message. *)
Definition onSendError (now : Z) (error : Js.Error) (s : State) : State :=
  let '(errorText, openDialog) := describeError error in
  let s := if openDialog then setIsKeyModalOpen true s else s in
  withApp
    (App.setMessages
       (fun prev =>
          prev ++ [aiMessage (pretty (now + 1))
                     ("**System Error:** " +:+ errorText) now])
       (app s)) s.

(** [handleSendMessage(text)].  [clock] gives the clock readings of the
    messages it builds, in their order; [chat] and [fuel] are those of the
    call of [sendMessage].  The result is [None] when that call ran out of
    fuel. *)
Definition handleSendMessage (clock : nat -> Z)
  (chat : nat -> Service.Outcome Service.Response) (fuel : nat)
  (text : string) (s : State) : option State :=
  if Js.isEmpty (Js.trim text) then Some s
  else if Js.isEmpty (apiKey s) then Some (setIsKeyModalOpen true s)
  else
    let userMsg := mkMessage (pretty (clock O)) text USER (DateObj (clock O)) None in
    (* setMessages, setInputValue(''), setIsLoading(true) *)
    let s := mkState (App.setMessages (fun prev => prev ++ [userMsg]) (app s))
                     (apiKey s) (isKeyModalOpen s) (service s) (storedKey s)
                     EmptyString true in
    let finally := fun s : State =>
      mkState (app s) (apiKey s) (isKeyModalOpen s) (service s) (storedKey s)
              (inputValue s) false in
    match service s with
    | None =>
        Some (finally (onSendError (clock 1%nat)
                         (Js.newError "Service not initialized") s))
    | Some (key, svc) =>
        let '(result, svc') := Service.sendMessage chat fuel text svc in
        let '(a, isActionTaken, k) :=
          runCallbacks clock
            (drop (length (Service.trace svc)) (Service.trace svc'))
            (app s, false, 1%nat) in
        let s := mkState a (apiKey s) (isKeyModalOpen s) (Some (key, svc'))
                         (storedKey s) (inputValue s) (isLoading s) in
        match result with
        | Val response =>
            if (Js.isEmpty response && negb isActionTaken)%bool then
              Some (finally (onSendError (clock k)
                               (Js.newError "Empty response from AI") s))
            else if Js.isEmpty response then Some (finally s)
            else
              Some (finally
                      (withApp
                         (App.setMessages
                            (fun prev =>
                               prev ++ [aiMessage (pretty (clock k + 1)) response
                                          (clock k)])
                            a) s))
        | Exn error => Some (finally (onSendError (clock k) error s))
        | Fuel => None
        end
    end.

(** [handleTemplateClick(type)] *)
Inductive Template := Fiction | NonFiction | Comic.

Definition templatePrompt (type : Template) : string :=
  match type with
  | Fiction => "Create a Fiction novel. Use a Hero's Journey structure."
  | NonFiction => "Create a Non-Fiction guide."
  | Comic => "Create a Comic Book script with detailed panels."
  end.

Definition handleTemplateClick (clock : nat -> Z)
  (chat : nat -> Service.Outcome Service.Response) (fuel : nat)
  (type : Template) (s : State) : option State :=
  handleSendMessage clock chat fuel (templatePrompt type) s.

(** [handleAnalyzeTopic(topic)] *)
Definition handleAnalyzeTopic (clock : nat -> Z)
  (chat : nat -> Service.Outcome Service.Response) (fuel : nat)
  (topic : string) (s : State) : option State :=
  handleSendMessage clock chat fuel ("Analyze the market for: " +:+ topic)
    (withApp (App.setCurrentMode ModeChat (app s)) s).

(** [handleSearch] of the market view: the topic line and the shell. *)
Definition handleSearch (clock : nat -> Z)
  (chat : nat -> Service.Outcome Service.Response) (fuel : nat)
  (topicInput : string) (s : State) : option (string * State) :=
  if negb (Js.isEmpty (Js.trim topicInput)) then
    s' ← handleAnalyzeTopic clock chat fuel topicInput s;
    Some (EmptyString, s')
  else Some (topicInput, s).

(** A state in which a key that is set is also the stored one and the one
    the service object was built with. *)
Definition keyServed (s : State) : Prop :=
  Js.isEmpty (apiKey s) = false ->
  storedKey s = Some (apiKey s)
  /\ exists svc, service s = Some (apiKey s, svc).

End Shell.

(** ** The reader and the book under it *)

(** The reader is mounted on the generated book; the callbacks of the shell
    replace the book under it while the index of the reader stays. *)
Module ReaderView.

Record State := mkState {
  book : EBook;
  currentChapter : Z
}.

(** Mounting: [useState(-1)]. *)
Definition mount (b : EBook) : State := mkState b EBookReader.initialChapter.

Inductive Action :=
| NextChapter
| PrevChapter
| ShowCover                       (* the first button of the sidebar *)
| ShowChapter (idx : nat)         (* the button of [book.chapters.map] at [idx] *)
| ChapterEdited (chapterIndex : Z) (newContent : string)
| ImageGenerated (chapterIndex : Z) (imageUrl : string).

(** A [setGeneratedBook] of the shell seen from the reader. *)
Definition update (f : option EBook -> option EBook) (s : State) : option State :=
  b ← f (Some (book s)); Some (mkState b (currentChapter s)).

(** One action; [None] when the sidebar has no button at [idx], or when
    the book is taken away. *)
Definition step (s : State) (a : Action) : option State :=
  match a with
  | NextChapter =>
      Some (mkState (book s) (EBookReader.nextChapter (book s) (currentChapter s)))
  | PrevChapter =>
      Some (mkState (book s) (EBookReader.prevChapter (currentChapter s)))
  | ShowCover => Some (mkState (book s) (-1))
  | ShowChapter idx =>
      _ ← bk_chapters (book s) !! idx; Some (mkState (book s) (Z.of_nat idx))
  | ChapterEdited i c => update (App.editChapter i c) s
  | ImageGenerated i url => update (Shell.setImage i url) s
  end.

Fixpoint run (acts : list Action) (s : State) : option State :=
  match acts with
  | [] => Some s
  | a :: rest => s' ← step s a; run rest s'
  end.

(** [disabled] of the two buttons of the footer. *)
Definition prevDisabled (s : State) : bool := (currentChapter s =? -1)%Z.

Definition nextDisabled (s : State) : bool :=
  (currentChapter s =? Z.of_nat (length (bk_chapters (book s))) - 1)%Z.

(** The chapter the page reads when [currentChapter >= 0]:
    [book.chapters[currentChapter]]. *)
Definition shown (s : State) : option Chapter :=
  App.at_ (bk_chapters (book s)) (currentChapter s).

(** What every action keeps: the index is the cover or a chapter of the
    book, and the book has the titles it was mounted with. *)
Definition inv (b : EBook) (s : State) : Prop :=
  -1 <= currentChapter s <= Z.of_nat (length (bk_chapters (book s))) - 1
  /\ map ch_title (bk_chapters (book s)) = map ch_title (bk_chapters b).

End ReaderView.


(** ** EBookReader.downloadPDF *)

From Stdlib Require QArith Lqa.

(** The document as the calls on the jsPDF object build it.  Lengths are
    rationals (millimetres); the font calls are left out.  The calls of the
    library are taken to succeed, [addImage] apart. *)
Module Pdf.
Import QArith.

Inductive Op :=
| AddPage
| AddImage (imageData : string) (x y w h : Q)
| Text (text : string) (x y : Q)
| Save (fileName : string).

(** [s.replace(/ab/g, by)] for the two characters [a] and [b]. *)
Fixpoint replacePair (a b : ascii) (by_ : string) (s : string) : string :=
  match s with
  | EmptyString => EmptyString
  | String c rest =>
      match rest with
      | String c' rest' =>
          if (Ascii.eqb c a && Ascii.eqb c' b)%bool
          then by_ +:+ replacePair a b by_ rest'
          else String c (replacePair a b by_ rest)
      | EmptyString => String c EmptyString
      end
  end.

(** [s.replace(/a/g, '')] *)
Fixpoint removeChar (a : ascii) (s : string) : string :=
  match s with
  | EmptyString => EmptyString
  | String c rest =>
      if Ascii.eqb c a then removeChar a rest else String c (removeChar a rest)
  end.

(** [s.split(sep)] for a separator of one character. *)
Fixpoint split (sep : ascii) (s : string) : list string :=
  match s with
  | EmptyString => [EmptyString]
  | String c rest =>
      if Ascii.eqb c sep then EmptyString :: split sep rest
      else match split sep rest with
           | first :: others => String c first :: others
           | [] => [String c EmptyString]
           end
  end.

(** [s.replace(/\s+/g, by)]: [open] tells that the character before was
    white space. *)
Fixpoint replaceSpaceRuns (by_ : string) (open : bool) (s : string) : string :=
  match s with
  | EmptyString => EmptyString
  | String c r1 =>
      let mark := if open then EmptyString else by_ in
      let keep := String c (replaceSpaceRuns by_ false r1) in
      match Js.whiteSpaceWidth s with
      | 1%nat => mark +:+ replaceSpaceRuns by_ true r1
      | 2%nat =>
          match r1 with
          | String _ r2 => mark +:+ replaceSpaceRuns by_ true r2
          | EmptyString => keep
          end
      | 3%nat =>
          match r1 with
          | String _ (String _ r3) => mark +:+ replaceSpaceRuns by_ true r3
          | _ => keep
          end
      | _ => keep
      end
  end.

Definition lineFeed : ascii := ascii_of_nat 10.

Definition cleanContent (content : string) : string :=
  replacePair lineFeed lineFeed Js.newline
    (removeChar "#" (replacePair "*" "*" EmptyString content)).

Definition paragraphs (content : string) : list string :=
  split lineFeed (cleanContent content).

Definition fileName (title : string) : string :=
  replaceSpaceRuns "_" false title +:+ ".pdf".

Definition margin : Q := 20.
Definition lineHeight : Q := 7.

Section Document.

(** The page size of the document and [doc.splitTextToSize]. *)
Variables pageWidth pageHeight : Q.
Variable splitTextToSize : string -> Q -> list string.

Definition maxLineWidth : Q := pageWidth - margin * 2.

(** The body of [lines.forEach], on the operations so far and [cursorY]. *)
Definition drawLine (acc : list Op * Q) (line : string) : list Op * Q :=
  let '(ops, cursorY) := acc in
  let '(ops, cursorY) :=
    if negb (Qle_bool cursorY (pageHeight - margin))
    then (ops ++ [AddPage], margin)
    else (ops, cursorY) in
  (ops ++ [Text line margin cursorY], cursorY + lineHeight).

(** The body of [paragraphs.forEach]. *)
Definition drawParagraph (acc : list Op * Q) (para : string) : list Op * Q :=
  if Js.isEmpty (Js.trim para) then (fst acc, snd acc + lineHeight / 2)
  else
    let '(ops, cursorY) :=
      fold_left drawLine (splitTextToSize para maxLineWidth) acc in
    (ops, cursorY + lineHeight / 2).

Definition heading (index : nat) (chapter : Chapter) : string :=
  "Chapter " +:+ pretty (Z.of_nat index + 1)%Z +:+ ": " +:+ ch_title chapter.

(** The body of [book.chapters.forEach]; [None] when [chapter.content] is
    undefined and [replace] throws. *)
Definition drawChapter (ops : list Op) (index : nat) (chapter : Chapter)
  : option (list Op) :=
  let ops := ops ++ [AddPage; Text (heading index chapter) margin (margin + 10)] in
  content ← ch_content chapter;
  Some (fst (fold_left drawParagraph (paragraphs content) (ops, margin + 30))).

Fixpoint drawChapters (ops : list Op) (index : nat) (chapters : list Chapter)
  : option (list Op) :=
  match chapters with
  | [] => Some ops
  | chapter :: rest =>
      ops' ← drawChapter ops index chapter; drawChapters ops' (S index) rest
  end.

Inductive Result :=
| Saved (ops : list Op)
| Alerted (message : string).

(** [downloadPDF]; [coverData] is what [getDataUri] resolves to, the empty
    string when the cover cannot be loaded, [imageOk] whether [addImage]
    accepts it. *)
Definition downloadPDF (coverData : string) (imageOk : bool) (book : EBook)
  : Result :=
  let ops :=
    if (negb (Js.isEmpty coverData) && imageOk)%bool
    then [AddImage coverData margin (margin + 40) maxLineWidth 120]
    else [] in
  let ops :=
    ops ++ [Text (bk_title book) (pageWidth / 2) (margin + 20);
            Text ("By " +:+ bk_author book) (pageWidth / 2)
                 (pageHeight - margin - 20)] in
  match drawChapters ops 0 (bk_chapters book) with
  | Some ops => Saved (ops ++ [Save (fileName (bk_title book))])
  | None => Alerted "Could not generate PDF. Please try again."
  end.

End Document.

(** The texts of a document, in the order they were drawn. *)
Fixpoint texts (ops : list Op) : list string :=
  match ops with
  | [] => []
  | Text t _ _ :: rest => t :: texts rest
  | _ :: rest => texts rest
  end.

(** The heights at which text was drawn. *)
Fixpoint heights (ops : list Op) : list Q :=
  match ops with
  | [] => []
  | Text _ _ y :: rest => y :: heights rest
  | _ :: rest => heights rest
  end.

Definition isAddPage (op : Op) : bool :=
  match op with AddPage => true | _ => false end.

(** The lines a paragraph gives, none for a blank one. *)
Definition paragraphLines (splitTextToSize : string -> Q -> list string)
  (width : Q) (para : string) : list string :=
  if Js.isEmpty (Js.trim para) then [] else splitTextToSize para width.

(** The texts a chapter gives: its heading, then the lines of its
    paragraphs. *)
Definition chapterTexts (splitTextToSize : string -> Q -> list string)
  (width : Q) (index : nat) (chapter : Chapter) : list string :=
  heading index chapter
  :: flat_map (paragraphLines splitTextToSize width)
       (paragraphs (default EmptyString (ch_content chapter))).

(** A height at which text lies between the top and the bottom margin. *)
Definition withinMargins (pageHeight y : Q) : Prop :=
  margin <= y /\ y <= pageHeight - margin.

(** Operations whose texts lie within the margins, and a cursor below the
    top margin. *)
Definition placed (pageHeight : Q) (acc : list Op * Q) : Prop :=
  Forall (withinMargins pageHeight) (heights (fst acc)) /\ margin <= snd acc.

(** The characters of a string. *)
Fixpoint chars (s : string) : list ascii :=
  match s with
  | EmptyString => []
  | String c rest => c :: chars rest
  end.

End Pdf.

(** ** MarketAnalysis: the chart *)

Module MarketAnalysis.

(** An item of [trendData] or [forecastData]. *)
Record Point := mkPoint {
  month : string;
  value : Z
}.

(** An item of [combinedChartData]; [None] reads as [null]. *)
Record ChartPoint := mkChartPoint {
  cp_month : string;
  cp_value : Z;
  actual : option Z;
  forecast : option Z
}.

Definition combinedChartData (trendData forecastData : list Point)
  : list ChartPoint :=
  imap (fun i d =>
          mkChartPoint (month d) (value d) (Some (value d))
            (if (Z.of_nat i =? Z.of_nat (length trendData) - 1)%Z
             then Some (value d) else None))
       trendData
  ++ map (fun d => mkChartPoint (month d) (value d) None (Some (value d)))
       forecastData.

(** The point both series pass through. *)
Definition isBridge (p : ChartPoint) : bool :=
  match actual p, forecast p with
  | Some _, Some _ => true
  | _, _ => false
  end.

End MarketAnalysis.

(** ** The earlier revision of sendMessage *)

(** The earlier revision of the service differs from the later one in the
    suffix of a retry, in the text the [catch] block inspects, and in what
    happens when the attempts are used up. *)
Module Earlier.
Import Service.
Local Open Scope js_scope.

Definition retrySuffix : string := " (Ensure valid JSON output.)".

Definition troubleMessage : string :=
  "I'm having trouble generating that much content at once. "
  +:+ "Please try asking for fewer chapters or a shorter story.".

(** [finalMessage] in the pass that starts with [attempts] at [n]. *)
Definition finalMessage (n : nat) (message : string) : string :=
  if (n =? 1)%nat then message +:+ retrySuffix else message.

Section Chat.
Variable chat : nat -> Outcome Response.

(** The [try] block of the loop body. *)
Definition tryBody (message : string) : M State string :=
  n <- gets attempts ;;
  response <- chatSendMessage chat (finalMessage n message) ;;
  if malformedOutput response
  then throw (Js.newError "MALFORMED_JSON")
  else if safetyBlock response
  then throw (Js.newError "SAFETY_BLOCK")
  else if emptyResponse response
  then throw (Js.newError "EMPTY_RESPONSE")
  else
    let responseText := Js.optOrElse (text response) EmptyString in
    let calls := functionCalls response in
    if noCalls calls then
      ret (Js.orElse responseText "Content generated successfully!")
    else
      setParts [] ;;
      forEach (callList calls) handleCall ;;
      parts <- gets functionResponseParts ;;
      responseText <-
        match parts with
        | _ :: _ =>
            tryCatch
              (toolResponse <- chatSendParts chat parts ;;
               if Js.truthy (text toolResponse)
               then ret (responseText +:+ Js.newline +:+ Js.newline
                         +:+ Js.interpolate (text toolResponse))
               else ret responseText)
              (fun _ => ret responseText)
        | [] => ret responseText
        end ;;
      ret (Js.orElse responseText "Content generated successfully!").

(** The [catch (error)] block of the loop body. *)
Definition onError (error : Js.Error) : M State (Step string) :=
  let errStr := Js.toLowerCase (Js.toString error) in
  if Js.includes errStr "429" || Js.includes errStr "503" then
    n <- gets attempts ;;
    wait ((Z.of_nat n + 1) * 2000) ;;
    setAttempts (S n) ;;
    ret Continue
  else if Js.includes errStr "403" || Js.includes errStr "key not valid" then
    throw error
  else
    n <- gets attempts ;;
    setAttempts (S n) ;;
    n <- gets attempts ;;
    if (maxAttempts <=? n)%nat then throw error
    else (wait 1500 ;; ret Continue).

Definition iteration (message : string) : M State (Step string) :=
  tryCatch (r <- tryBody message ;; ret (Return r)) onError.

(** [while (attempts < maxAttempts) { ... }] and the [return] after it. *)
Fixpoint sendLoop (fuel : nat) (message : string) : M State string :=
  n <- gets attempts ;;
  if (n <? maxAttempts)%nat then
    match fuel with
    | O => outOfFuel
    | S fuel' =>
        step <- iteration message ;;
        match step with
        | Return r => ret r
        | Continue => sendLoop fuel' message
        | Break => ret troubleMessage
        end
    end
  else ret troubleMessage.

Definition sendMessage (fuel : nat) (message : string) : M State string :=
  setAttempts 0 ;;
  sendLoop fuel message.
End Chat.

(** The text the [catch] block inspects. *)
Definition errorText (e : Js.Error) : string := Js.toLowerCase (Js.toString e).

Definition rateClass (e : Js.Error) : bool :=
  Js.includes (errorText e) "429" || Js.includes (errorText e) "503".

Definition authClass (e : Js.Error) : bool :=
  negb (rateClass e)
  && (Js.includes (errorText e) "403" || Js.includes (errorText e) "key not valid").

End Earlier.

(** ** Sample data *)

Module Sample.

Definition chapterOne : Chapter :=
  mkChapter "Dawn" None "sunrise chart" (Some EmptyString) None.

Definition chapterTwo : Chapter :=
  mkChapter "Dusk" None "sunset chart" (Some EmptyString) None.

Definition book : EBook :=
  mkEBook "Days" "Ann" "A book of days" "modern" "novel" [chapterOne; chapterTwo].

Definition welcome : Message :=
  mkMessage "welcome" "Hello!" AI (DateObj 1700000000000) None.

Definition appState : App.State :=
  App.mkState [welcome] (Some book) JNull [] ModePreview.

(** An oracle that answers from a list, then keeps giving [rest]. *)
Definition script {A} (outcomes : list A) (rest : A) : nat -> A :=
  fun n => nth n outcomes rest.

Definition busy : Js.Error := Js.mkError (Some 429) "ApiError" "Resource exhausted".

Definition broken : Js.Error := Js.newError "fetch failed".

(** A chapter as [generateChapterContent] expects it. *)
Definition draft : Chapter :=
  mkChapter "Dawn" (Some "The sun rises.") "sunrise chart" None None.

(** Chat responses: a text answer, a malformed function call, nothing. *)
Definition answer (t : string) : Service.Outcome Service.Response :=
  Service.Resolved (Service.mkResponse (Some "STOP") (Some t) None).

Definition malformed : Service.Outcome Service.Response :=
  Service.Resolved
    (Service.mkResponse (Some "MALFORMED_FUNCTION_CALL") None None).

Definition nothing : Service.Outcome Service.Response :=
  Service.Resolved (Service.mkResponse (Some "STOP") None (Some [])).

(** A permission failure, and one whose text also holds the digits 429. *)
Definition forbidden : Js.Error :=
  Js.mkError (Some 403) "ApiError" "403 PERMISSION_DENIED: API key not valid.".

Definition forbiddenProject : Js.Error :=
  Js.mkError (Some 403) "ApiError"
    "403 PERMISSION_DENIED: project 14290 has no access.".

(** The arguments of a [create_ebook] call with one chapter. *)
Definition plan : EBook :=
  mkEBook "Days" "Ann" "A book of days" "modern" "novel" [draft].

Definition planned : Service.Outcome Service.Response :=
  Service.Resolved
    (Service.mkResponse (Some "STOP") None
       (Some [Service.CreateEbook plan (Some "call-1")])).

(** A response with three calls, the second of an unknown name. *)
Definition edits : Service.Outcome Service.Response :=
  Service.Resolved
    (Service.mkResponse (Some "STOP") None
       (Some [Service.AnalyzeMarket JNull None;
              Service.OtherCall "search" None;
              Service.EditChapter 1 "Night falls." (Some "call-2")])).

(** A rate-limit failure whose text names the status. *)
Definition tooMany : Js.Error :=
  Js.mkError (Some 429) "ApiError" "429 RESOURCE_EXHAUSTED".

(** An image response: a text part, then a part with image data. *)
Definition imageParts : list ServiceImage.Part :=
  [ServiceImage.mkPart None;
   ServiceImage.mkPart
     (Some (ServiceImage.mkInlineData (Some "image/png") (Some "iVBORw0KGgo=")))].


(** U+00A0, the no-break space. *)
Definition nbsp : string :=
  String (ascii_of_nat 194) (String (ascii_of_nat 160) EmptyString).

(** The shell as it starts with a stored key, and a clock. *)
Definition shell : Shell.State :=
  Shell.mount Shell.Done appState (Some "AIza-sample") EmptyString.

Definition clock (n : nat) : Z := 1700000000000 + Z.of_nat n.

(** A book whose chapters are written, and a page of 210 by 297 whose
    lines are the paragraphs themselves. *)
Definition written : EBook :=
  mkEBook "Two  Days" "Ann" "A book of days" "modern" "novel"
    [mkChapter "Dawn" None "sunrise chart"
       (Some ("# Morning" +:+ Js.newline +:+ Js.newline +:+ "The **sun** rose."
              +:+ Js.newline +:+ "Birds sang.")) None;
     mkChapter "Dusk" None "sunset chart" (Some "Night fell.") None].

Definition wholeLine (text : string) (width : QArith_base.Q) : list string :=
  [text].
End Sample.

(** Evaluation of the monad of [sendMessage] on a state given by its fields. *)
Ltac run_monad :=
  cbv beta iota zeta delta
    [bind ret gets modify throw tryCatch Service.defined Service.push Service.emit
     Service.wait Service.alloc Service.deref Service.writeChapters
     Service.setParts Service.setHeap Service.setAttempts Service.setLastError
     Service.attempts Service.lastError Service.functionResponseParts
     Service.chatCalls Service.heap Service.trace].

(** * Properties *)

(** ** EBookReader: the chapter index stays on the book *)

Section ReaderFacts.
Import EBookReader.
Variable book : EBook.

Lemma click_in_range (c : Z) (k : Click) :
  -1 <= c <= Z.of_nat (length (bk_chapters book)) - 1 ->
  -1 <= click book c k <= Z.of_nat (length (bk_chapters book)) - 1.
Proof.
  intros Hc.
  destruct k; simpl; unfold nextChapter, prevChapter.
  - destruct (Z.ltb_spec c (Z.of_nat (length (bk_chapters book)) - 1)); lia.
  - destruct (Z.gtb_spec c (-1)); lia.
Qed.

Lemma fold_click_in_range (clicks : list Click) (c : Z) :
  -1 <= c <= Z.of_nat (length (bk_chapters book)) - 1 ->
  -1 <= fold_left (click book) clicks c <= Z.of_nat (length (bk_chapters book)) - 1.
Proof.
  revert c. induction clicks as [|k clicks IH]; intros c Hc; simpl.
  - exact Hc.
  - apply IH. now apply click_in_range.
Qed.
End ReaderFacts.

(** C10. The reader starts on the cover, index -1; after any sequence of
    nextChapter and prevChapter calls the index lies between -1 and
    chapters.length - 1; nextChapter does nothing on the last chapter and
    prevChapter does nothing on the cover. *)
Theorem reader_index_in_range :
  forall (book : EBook) (clicks : list EBookReader.Click),
    EBookReader.initialChapter = -1
    /\ -1 <= EBookReader.browse book clicks
          <= Z.of_nat (length (bk_chapters book)) - 1
    /\ EBookReader.nextChapter book (Z.of_nat (length (bk_chapters book)) - 1)
       = Z.of_nat (length (bk_chapters book)) - 1
    /\ EBookReader.prevChapter (-1) = -1.
Proof.
  intros book clicks. split; [reflexivity|]. split; [|split].
  - unfold EBookReader.browse. apply fold_click_in_range.
    unfold EBookReader.initialChapter. lia.
  - unfold EBookReader.nextChapter. now rewrite Z.ltb_irrefl.
  - reflexivity.
Qed.

(** ** App: the chapter-edit callback *)

Section EditFacts.
Import App.

Lemma at_Some {A} (a : list A) (i : Z) (x : A) :
  at_ a i = Some x <-> 0 <= i /\ a !! Z.to_nat i = Some x.
Proof.
  unfold at_. destruct (Z.ltb_spec i 0); split.
  - discriminate.
  - intros [? _]. lia.
  - intros H'. split; [lia | exact H'].
  - intros [_ H']. exact H'.
Qed.

Lemma at_None {A} (a : list A) (i : Z) :
  at_ a i = None <-> i < 0 \/ Z.of_nat (length a) <= i.
Proof.
  unfold at_. destruct (Z.ltb_spec i 0); split.
  - intros _. now left.
  - reflexivity.
  - intros H'. right. apply lookup_ge_None in H'. lia.
  - intros [?|?]; [lia|]. apply lookup_ge_None. lia.
Qed.
End EditFacts.

(** C9. The chapter-edit callback leaves a null book null; on a book it
    keeps title, author, description, theme, format and the number of
    chapters, leaves every chapter other than [chapterIndex] as it was,
    replaces only the content of chapter [chapterIndex] (its title, image
    keyword and image URL are kept), and leaves the whole book as it was
    when [chapterIndex] is out of bounds. *)
Theorem chapter_edit_changes_only_content :
  forall (now chapterIndex : Z) (newContent : string) (s : App.State),
    let s' := App.onChapterEdited now chapterIndex newContent s in
    (App.generatedBook s = None -> App.generatedBook s' = None)
    /\ (forall book, App.generatedBook s = Some book ->
        exists book',
          App.generatedBook s' = Some book'
          /\ bk_title book' = bk_title book
          /\ bk_author book' = bk_author book
          /\ bk_description book' = bk_description book
          /\ bk_theme book' = bk_theme book
          /\ bk_format book' = bk_format book
          /\ length (bk_chapters book') = length (bk_chapters book)
          /\ (forall j : Z, j <> chapterIndex ->
              App.at_ (bk_chapters book') j = App.at_ (bk_chapters book) j)
          /\ (forall ch, App.at_ (bk_chapters book) chapterIndex = Some ch ->
              exists ch',
                App.at_ (bk_chapters book') chapterIndex = Some ch'
                /\ ch_content ch' = Some newContent
                /\ ch_title ch' = ch_title ch
                /\ ch_imageKeyword ch' = ch_imageKeyword ch
                /\ ch_imageUrl ch' = ch_imageUrl ch
                /\ ch_outline ch' = ch_outline ch)
          /\ (App.at_ (bk_chapters book) chapterIndex = None -> book' = book)).
Proof.
  intros now i c s. cbn zeta. destruct s as [ms gb md sps mode]. cbn.
  split.
  - intros ->. reflexivity.
  - intros book ->. cbn.
    destruct (App.at_ (bk_chapters book) i) as [ch|] eqn:Hat.
    + apply at_Some in Hat as [Hi Hlk].
      eexists. split; [reflexivity|]. cbn.
      repeat split; try reflexivity.
      * apply length_insert.
      * intros j Hj. unfold App.at_.
        destruct (j <? 0)%Z eqn:Hneg; [reflexivity|].
        apply Z.ltb_ge in Hneg.
        apply list_lookup_insert_ne. lia.
      * intros ch0 [= <-]. exists (App.withContent ch c).
        split; [|cbn; repeat split; reflexivity].
        apply at_Some. split; [lia|].
        apply list_lookup_insert_eq. now apply lookup_lt_Some in Hlk.
      * discriminate.
    + eexists. split; [reflexivity|]. cbn.
      repeat split; try reflexivity.
      * intros ch0. discriminate.
      * intros _. now destruct book.
Qed.

Lemma chapter_edit_changes_only_content_witness :
  exists book',
    App.generatedBook (App.onChapterEdited 7 1 "Night falls." Sample.appState)
    = Some book'
    /\ bk_title book' = "Days"
    /\ App.at_ (bk_chapters book') 0 = Some Sample.chapterOne.
Proof.
  destruct (proj2 (chapter_edit_changes_only_content 7 1 "Night falls."
                     Sample.appState) Sample.book eq_refl)
    as (book' & Hbook & Htitle & _ & _ & _ & _ & _ & Hother & _).
  exists book'. split; [exact Hbook|]. split; [exact Htitle|].
  rewrite (Hother 0); [reflexivity | lia].
Defined.

(** ** ApiKeyModal: which validations accept the key *)

(** C4, as stated, fails: the text of the error, 'Error: Quota exceeded for
    metric: requests per minute', contains neither '429' nor 'quota', yet
    the status is set to 'valid' and the key is handed to onSave.  The text
    is matched after toLowerCase. *)
Lemma quota_in_capitals_is_accepted :
  let e := Js.newError "Quota exceeded for metric: requests per minute" in
  let s := ApiKeyModal.mkState "abc" ApiKeyModal.idle EmptyString in
  Js.toString e = "Error: Quota exceeded for metric: requests per minute"
  /\ Js.includes (Js.toString e) "429" || Js.includes (Js.toString e) "quota" = false
  /\ ApiKeyModal.status (fst (ApiKeyModal.validateAndSave (Service.Rejected e) s))
     = ApiKeyModal.valid
  /\ ApiKeyModal.savedKeys (snd (ApiKeyModal.validateAndSave (Service.Rejected e) s))
     = ["abc"].
Proof. repeat split; vm_compute; reflexivity. Qed.

(** C4, amended. For a key that is not blank, a validation request that
    succeeds, and one that fails with an error whose text, once in lower
    case, contains '429' or 'quota', both set the status to 'valid' and hand
    the trimmed key to onSave; any other failure sets the status to 'error'
    and onSave is not called. *)
Theorem validation_accepts_success_and_rate_limit :
  forall (validation : Service.Outcome unit) (s : ApiKeyModal.State),
    Js.trim (ApiKeyModal.key s) <> EmptyString ->
    let accepted :=
      match validation with
      | Service.Resolved _ => true
      | Service.Rejected e =>
          Js.includes (Js.toLowerCase (Js.toString e)) "429"
          || Js.includes (Js.toLowerCase (Js.toString e)) "quota"
      end in
    let '(s', tr) := ApiKeyModal.validateAndSave validation s in
    if accepted
    then ApiKeyModal.status s' = ApiKeyModal.valid
         /\ ApiKeyModal.savedKeys tr = [Js.trim (ApiKeyModal.key s)]
    else ApiKeyModal.status s' = ApiKeyModal.error
         /\ ApiKeyModal.savedKeys tr = [].
Proof.
  intros validation s Hkey. cbn zeta.
  unfold ApiKeyModal.validateAndSave.
  destruct (Js.trim (ApiKeyModal.key s)) eqn:Htrim; [congruence|].
  cbn [Js.isEmpty].
  destruct validation as [[]|e].
  - split; reflexivity.
  - destruct (Js.includes (Js.toLowerCase (Js.toString e)) "429"
              || Js.includes (Js.toLowerCase (Js.toString e)) "quota").
    + split; reflexivity.
    + split; [|reflexivity].
      destruct (_ || _); [reflexivity|]. destruct (_ || _); reflexivity.
Qed.

Lemma validation_accepts_success_and_rate_limit_witness :
  let s := ApiKeyModal.mkState (Sample.nbsp +:+ " abc " +:+ Sample.nbsp)
             ApiKeyModal.idle EmptyString in
  let '(s', tr) := ApiKeyModal.validateAndSave (Service.Rejected Sample.tooMany) s in
  ApiKeyModal.status s' = ApiKeyModal.valid
  /\ ApiKeyModal.savedKeys tr = ["abc"].
Proof.
  exact (validation_accepts_success_and_rate_limit
           (Service.Rejected Sample.tooMany)
           (ApiKeyModal.mkState (Sample.nbsp +:+ " abc " +:+ Sample.nbsp)
              ApiKeyModal.idle EmptyString)
           ltac:(vm_compute; discriminate)).
Defined.

(** ** App: saving, persisting and loading a project *)

Section PersistFacts.
Import Persist.

Lemma mapM_map_Some {A B C} (f : B -> option C) (g : A -> B) (h : A -> C)
  (l : list A) :
  (forall x, f (g x) = Some (h x)) -> mapM f (map g l) = Some (map h l).
Proof.
  intros Hfg. induction l as [|x l IH]; [reflexivity|].
  cbn. rewrite Hfg. cbn. rewrite IH. reflexivity.
Qed.

Lemma parse_stringify_chapter (c : Chapter) :
  parseChapter (stringifyChapter c) = Some c.
Proof. destruct c as [t [o|] k [co|] [u|]]; reflexivity. Qed.

Lemma parse_stringify_message (m : Message) :
  parseMessage (stringifyMessage m) = Some (storedMessage m).
Proof.
  destruct m as [i t [|] [ms|iso] [b|]]; reflexivity.
Qed.

Lemma parse_stringify_book (b : EBook) :
  parseEBook (stringifyEBook b) = Some b.
Proof.
  destruct b as [t a d th f chs]. unfold parseEBook, stringifyEBook. cbn.
  rewrite (mapM_map_Some _ _ (fun c => c)) by apply parse_stringify_chapter.
  now rewrite map_id.
Qed.

Lemma parse_stringify_project (p : SavedProject) :
  parseProject (stringifyProject p) = Some (storedProject p).
Proof.
  destruct p as [i n b ms md t]. unfold parseProject, stringifyProject.
  cbn [prop assoc String.eqb Ascii.eqb Bool.eqb mbind option_bind asString
       sp_id sp_name sp_book sp_messages sp_marketData sp_createdAt].
  rewrite parse_stringify_book. cbn.
  rewrite (mapM_map_Some _ _ storedMessage) by apply parse_stringify_message.
  reflexivity.
Qed.

Lemma parse_stringify (ps : list SavedProject) :
  parse (stringify ps) = Some (map storedProject ps).
Proof.
  unfold parse, stringify. cbn.
  apply mapM_map_Some, parse_stringify_project.
Qed.
End PersistFacts.

(** C5. The state [Sample.appState], whose one message carries a Date, is
    saved at the clock 1700000000001 and the stored list is read back as a
    reload reads it, by JSON.parse without a reviver.  Loading the project
    then gives a message list that differs from the saved one: the timestamp
    of the message, declared a Date, is the text of that date. *)
Lemma reloaded_messages_differ :
  match App.reloadedProjects (App.handleSaveProject 1700000000001 Sample.appState) with
  | Some (p :: _) =>
      App.messages (App.onLoadProject p Sample.appState) <> App.messages Sample.appState
      /\ App.messages (App.onLoadProject p Sample.appState)
         = [mkMessage "welcome" "Hello!" AI (DateText "2023-11-14T22:13:20.000Z") None]
  | _ => False
  end.
Proof. vm_compute. split; [discriminate | reflexivity]. Qed.

(** Saving and loading, on every input.  handleSaveProject puts the current
    book, message list and market data in a project at the head of the saved
    projects; loading that project in the same session restores the same
    book and the same message list.  After the stored list is serialized and
    parsed again, loading the project restores the same book and, message by
    message, the same id, text, sender and thinking flag. *)
Lemma saved_project_round_trip :
  forall (now : Z) (s other : App.State) (book : EBook),
    App.generatedBook s = Some book ->
    let s1 := App.handleSaveProject now s in
    (exists p,
        App.savedProjects s1 = p :: App.savedProjects s
        /\ sp_book p = book
        /\ sp_messages p = App.messages s
        /\ sp_marketData p = App.marketData s
        /\ App.generatedBook (App.onLoadProject p other) = Some book
        /\ App.messages (App.onLoadProject p other) = App.messages s)
    /\ (exists q rest,
        App.reloadedProjects s1 = Some (q :: rest)
        /\ App.generatedBook (App.onLoadProject q other) = Some book
        /\ Forall2 (fun m m' =>
                      msg_id m' = msg_id m
                      /\ msg_text m' = msg_text m
                      /\ msg_sender m' = msg_sender m
                      /\ msg_isThinking m' = msg_isThinking m)
             (App.messages s) (App.messages (App.onLoadProject q other))).
Proof.
  intros now s other book Hbook. cbn zeta.
  unfold App.handleSaveProject. rewrite Hbook.
  split.
  - eexists. cbn. repeat split; reflexivity.
  - unfold App.reloadedProjects, App.restoredProjects, App.persisted.
    rewrite parse_stringify. cbn.
    eexists _, _. split; [reflexivity|]. cbn.
    repeat split; try reflexivity.
    induction (App.messages s) as [|m ms IH]; cbn; constructor.
    + destruct m; cbn. repeat split; reflexivity.
    + exact IH.
Qed.

Lemma saved_project_round_trip_witness :
  exists q rest,
    App.reloadedProjects (App.handleSaveProject 1700000000001 Sample.appState)
    = Some (q :: rest)
    /\ App.generatedBook (App.onLoadProject q Sample.appState) = Some Sample.book.
Proof.
  destruct (saved_project_round_trip 1700000000001 Sample.appState Sample.appState
              Sample.book eq_refl) as [_ (q & rest & Hq & Hb & _)].
  exists q, rest. split; [exact Hq | exact Hb].
Defined.

(** ** GeminiService: chapter generation *)

Section GenerationFacts.
Import Service.
Variable gen : nat -> Outcome (option string).
Variables (book : EBook) (chapter : Chapter).

Lemma count_app {A} (p : A -> bool) (l1 l2 : list A) :
  count p (l1 ++ l2) = (count p l1 + count p l2)%nat.
Proof. induction l1 as [|x l1 IH]; cbn; [reflexivity | rewrite IH; lia]. Qed.

(** One pass through the loop body, by the outcome of its request. *)
Lemma generateIteration_run (s : GenState) :
  generateIteration gen book chapter s =
  let p := GenerateContent (chapterPrompt book chapter) in
  match gen (genCalls s) with
  | Resolved t =>
      (Val (Return (Js.optOrElse t EmptyString)),
       mkGenState (g_attempts s) (S (genCalls s)) (g_trace s ++ [p]))
  | Rejected e =>
      if isRateLimit e then
        (Val Continue,
         mkGenState (S (g_attempts s)) (S (genCalls s))
           ((g_trace s ++ [p]) ++ [Wait (2 ^ Z.of_nat (g_attempts s) * 2000)]))
      else
        (Val (Return (failedPlaceholder (ch_outline chapter))),
         mkGenState (g_attempts s) (S (genCalls s)) (g_trace s ++ [p]))
  end.
Proof.
  unfold generateIteration, tryCatch, bind, generateContent, ret.
  destruct (gen (genCalls s)) as [t|e]; [reflexivity|].
  destruct (isRateLimit e); reflexivity.
Qed.

(** The loop, one unfolding at a time. *)
Lemma generateLoop_unfold (fuel : nat) (s : GenState) :
  generateLoop gen fuel book chapter s =
  if (g_attempts s <? 3)%nat then
    match fuel with
    | O => (Fuel, s)
    | S fuel' =>
        match generateIteration gen book chapter s with
        | (Val (Return r), s') => (Val r, s')
        | (Val Continue, s') => generateLoop gen fuel' book chapter s'
        | (Val Break, s') =>
            (Val (failedAfterRetriesPlaceholder (ch_outline chapter)), s')
        | (Exn e, s') => (Exn e, s')
        | (Fuel, s') => (Fuel, s')
        end
    end
  else (Val (failedAfterRetriesPlaceholder (ch_outline chapter)), s).
Proof.
  destruct fuel; cbn [generateLoop]; unfold bind, gets;
    destruct (g_attempts s <? 3)%nat; try reflexivity.
  destruct (generateIteration gen book chapter s) as [[[r| |]|e|] s']; reflexivity.
Qed.

Lemma generateLoop_run (fuel : nat) (s : GenState) :
  (g_attempts s <= 3)%nat ->
  exists r evs a',
    generateLoop gen fuel book chapter s
    = (r, mkGenState a' (genCalls s + generations evs) (g_trace s ++ evs))
    /\ Forall (fun e => quiet e = true) evs
    /\ (generations evs <= 3 - g_attempts s)%nat
    /\ (forall e, r <> Exn e)
    /\ ((3 - g_attempts s <= fuel)%nat ->
        ((g_attempts s < 3)%nat -> (1 <= generations evs)%nat)
        /\ exists content,
            r = Val content
            /\ (forall k, (k < 3 - g_attempts s)%nat ->
                (forall j, (j < k)%nat -> rateLimited (gen (genCalls s + j)) = true) ->
                rateLimited (gen (genCalls s + k)) = false ->
                content = settled chapter (gen (genCalls s + k)))
            /\ ((forall j, (j < 3 - g_attempts s)%nat ->
                 rateLimited (gen (genCalls s + j)) = true) ->
                content = failedAfterRetriesPlaceholder (ch_outline chapter))).
Proof.
  revert s. induction fuel as [|fuel IH]; intros [a c t] Ha; cbn in Ha;
    rewrite generateLoop_unfold; cbn [genCalls g_attempts g_trace].
  - destruct (Nat.ltb_spec a 3).
    + exists Fuel, [], a. rewrite Nat.add_0_r, app_nil_r.
      split; [reflexivity|]. split; [constructor|]. split; [cbn; lia|].
      split; [discriminate|]. cbn. intros ?. lia.
    + exists (Val (failedAfterRetriesPlaceholder (ch_outline chapter))), [], a.
      rewrite Nat.add_0_r, app_nil_r.
      split; [reflexivity|]. split; [constructor|]. split; [cbn; lia|].
      split; [discriminate|]. cbn. intros _. split; [lia|].
      exists (failedAfterRetriesPlaceholder (ch_outline chapter)).
      split; [reflexivity|]. split; [intros; lia|reflexivity].
  - destruct (Nat.ltb_spec a 3) as [Hlt|Hge].
    + rewrite generateIteration_run. cbn [genCalls g_attempts g_trace].
      destruct (gen c) as [txt|e] eqn:Hgen; [|destruct (isRateLimit e) eqn:Hrate].
      * exists (Val (Js.optOrElse txt EmptyString)), [GenerateContent (chapterPrompt book chapter)], a.
        cbn. rewrite Nat.add_1_r.
        split; [reflexivity|]. split; [repeat constructor|]. split; [lia|].
        split; [discriminate|]. intros _. split; [lia|].
        exists (Js.optOrElse txt EmptyString). split; [reflexivity|]. split.
        -- intros [|k] _ Hpre Hk.
           ++ rewrite Nat.add_0_r, Hgen. reflexivity.
           ++ specialize (Hpre O ltac:(lia)). rewrite Nat.add_0_r, Hgen in Hpre.
              discriminate.
        -- intros Hall. specialize (Hall O ltac:(lia)).
           rewrite Nat.add_0_r, Hgen in Hall. discriminate.
      * destruct (IH (mkGenState (S a) (S c)
                       ((t ++ [GenerateContent (chapterPrompt book chapter)])
                          ++ [Wait (2 ^ Z.of_nat a * 2000)])) ltac:(cbn; lia))
          as (r & evs & a' & Hrun & Hq & Hn & Hexn & Hval).
        cbn [genCalls g_attempts g_trace] in *. unfold generations in *.
        exists r, (GenerateContent (chapterPrompt book chapter)
                   :: Wait (2 ^ Z.of_nat a * 2000) :: evs), a'.
        split.
        { rewrite Hrun. f_equal. f_equal; [cbn; lia|].
          rewrite <- !app_assoc. reflexivity. }
        split; [repeat constructor; exact Hq|].
        split; [cbn; lia|]. split; [exact Hexn|].
        intros Hfuel. destruct (Hval ltac:(lia)) as (_ & content & -> & Hk & Hall).
        split; [cbn; lia|].
        exists content. split; [reflexivity|]. split.
        -- intros [|k] Hlt' Hpre Hnot.
           ++ rewrite Nat.add_0_r, Hgen in Hnot. cbn in Hnot. congruence.
           ++ replace (c + S k)%nat with (S c + k)%nat by lia.
              apply Hk; [lia| |].
              ** intros j Hj. replace (S c + j)%nat with (c + S j)%nat by lia.
                 apply Hpre. lia.
              ** replace (S c + k)%nat with (c + S k)%nat by lia. exact Hnot.
        -- intros Hall'. apply Hall. intros j Hj.
           replace (S c + j)%nat with (c + S j)%nat by lia. apply Hall'. lia.
      * exists (Val (failedPlaceholder (ch_outline chapter))),
               [GenerateContent (chapterPrompt book chapter)], a.
        cbn. rewrite Nat.add_1_r.
        split; [reflexivity|]. split; [repeat constructor|]. split; [lia|].
        split; [discriminate|]. intros _. split; [lia|].
        exists (failedPlaceholder (ch_outline chapter)). split; [reflexivity|]. split.
        -- intros [|k] _ Hpre Hk.
           ++ rewrite Nat.add_0_r, Hgen. reflexivity.
           ++ specialize (Hpre O ltac:(lia)). rewrite Nat.add_0_r, Hgen in Hpre.
              cbn in Hpre. congruence.
        -- intros Hall. specialize (Hall O ltac:(lia)).
           rewrite Nat.add_0_r, Hgen in Hall. cbn in Hall. congruence.
    + exists (Val (failedAfterRetriesPlaceholder (ch_outline chapter))), [], a.
      cbn. rewrite Nat.add_0_r, app_nil_r.
      split; [reflexivity|]. split; [constructor|]. split; [lia|].
      split; [discriminate|]. intros _. split; [lia|].
      exists (failedAfterRetriesPlaceholder (ch_outline chapter)).
      split; [reflexivity|]. split; [intros; lia|reflexivity].
Qed.
(** The run of the loop, as the relation [requests] tells it. *)
Lemma generateLoop_requests (fuel : nat) (s : GenState) :
  (g_attempts s <= 3)%nat ->
  (3 - g_attempts s <= fuel)%nat ->
  exists content evs a' c',
    generateLoop gen fuel book chapter s
    = (Val content, mkGenState a' c' (g_trace s ++ evs))
    /\ requests gen book chapter (genCalls s) (g_attempts s) evs content c'.
Proof.
  revert s. induction fuel as [|fuel IH]; intros [a c t] Ha Hf; cbn in Ha, Hf;
    rewrite generateLoop_unfold; cbn [genCalls g_attempts g_trace].
  - destruct (Nat.ltb_spec a 3); [lia|].
    exists (failedAfterRetriesPlaceholder (ch_outline chapter)), [], a, c.
    rewrite app_nil_r. split; [reflexivity|]. now constructor.
  - destruct (Nat.ltb_spec a 3) as [Hlt|Hge].
    + rewrite generateIteration_run. cbn [genCalls g_attempts g_trace].
      pose proof (requests_settled gen book chapter c a Hlt) as Hsettled.
      destruct (gen c) as [txt|e] eqn:Hgen; [|destruct (isRateLimit e) eqn:Hrate].
      * exists (Js.optOrElse txt EmptyString),
               [GenerateContent (chapterPrompt book chapter)], a, (S c).
        split; [reflexivity|]. now apply Hsettled.
      * destruct (IH (mkGenState (S a) (S c)
                       ((t ++ [GenerateContent (chapterPrompt book chapter)])
                          ++ [Wait (2 ^ Z.of_nat a * 2000)]))
                    ltac:(cbn; lia) ltac:(cbn; lia))
          as (content & evs & a' & c' & Hrun & Hreq).
        cbn [genCalls g_attempts g_trace] in Hrun, Hreq.
        exists content,
               (GenerateContent (chapterPrompt book chapter)
                :: Wait (2 ^ Z.of_nat a * 2000) :: evs), a', c'.
        split; [rewrite Hrun, <- !app_assoc; reflexivity|].
        apply requests_again; [exact Hlt | now rewrite Hgen | exact Hreq].
      * exists (failedPlaceholder (ch_outline chapter)),
               [GenerateContent (chapterPrompt book chapter)], a, (S c).
        split; [reflexivity|]. now apply Hsettled.
    + exists (failedAfterRetriesPlaceholder (ch_outline chapter)), [], a, c.
      rewrite app_nil_r. split; [reflexivity|]. now constructor.
Qed.
End GenerationFacts.

(** The earlier revision of generateChapterContent does not throw either:
    it returns the text of the response, or the placeholder with the outline
    of the chapter it was given for any failure of its one request. *)
Lemma earlier_revision_yields_placeholder :
  forall (gen : nat -> Service.Outcome (option string))
         (book : EBook) (chapter : Chapter) (s : Service.GenState),
  exists content,
    fst (Service.generateChapterContentOnce gen book chapter s) = Val content
    /\ Service.generations
         (Service.g_trace (snd (Service.generateChapterContentOnce gen book chapter s)))
       = S (Service.generations (Service.g_trace s))
    /\ (forall e, gen (Service.genCalls s) = Service.Rejected e ->
        content = Service.failedPlaceholder (ch_outline chapter)).
Proof.
  intros gen book chapter s.
  unfold Service.generateChapterContentOnce, tryCatch, bind, Service.generateContent, ret.
  destruct (gen (Service.genCalls s)) as [t|e]; cbn [fst snd Service.g_trace];
    eexists; (split; [reflexivity|]);
    (split; [unfold Service.generations; rewrite count_app; cbn; lia|]).
  - intros e. discriminate.
  - reflexivity.
Qed.

(** ** GeminiService: the attempts of sendMessage *)

Section ChatFacts.
Import Service.
Variable chat : nat -> Outcome Response.

Lemma sends_app (l1 l2 : list Event) : sends (l1 ++ l2) = (sends l1 + sends l2)%nat.
Proof. apply count_app. Qed.

Lemma silent_refl (s : State) : silent s s.
Proof. repeat split. exists []. now rewrite app_nil_r. Qed.

Lemma silent_trans (s1 s2 s3 : State) : silent s1 s2 -> silent s2 s3 -> silent s1 s3.
Proof.
  intros (Ha & He & evs & Ht & Hn) (Ha' & He' & evs' & Ht' & Hn').
  split; [congruence|]. split; [congruence|].
  exists (evs ++ evs'). split.
  - now rewrite Ht', Ht, app_assoc.
  - rewrite sends_app. lia.
Qed.

(** A step that keeps the counters and appends events other than sends. *)
Lemma silent_step (s : State) parts calls h (evs : list Event) :
  sends evs = O ->
  silent s (mkState (attempts s) (lastError s) parts calls h (trace s ++ evs)).
Proof. intros Hn. repeat split. now exists evs. Qed.

Lemma lookup_last (h : list EBook) (o : EBook) : (h ++ [o]) !! length h = Some o.
Proof. now apply list_lookup_middle. Qed.

Lemma insert_last (h : list EBook) (o o' : EBook) :
  <[length h := o']> (h ++ [o]) = h ++ [o'].
Proof. rewrite insert_app_r_alt by lia. now rewrite Nat.sub_diag. Qed.

(** Handling a [create_ebook] call. *)
Lemma handleCall_create (argsObj : EBook) (id : option string) (s : State) :
  handleCall (CreateEbook argsObj id) s =
  let book := withChapters argsObj (map initialChapter (bk_chapters argsObj)) in
  let r := length (heap s) in
  (Val tt,
   mkState (attempts s) (lastError s)
     (functionResponseParts s
      ++ [mkFunctionResponse "create_ebook"
            (inl "Structure created. Generating content in background.") id])
     (chatCalls s) (heap s ++ [book])
     (trace s ++ [EBookGenerated book; Background r r])).
Proof.
  destruct s as [a le ps cc h tr]. unfold handleCall. run_monad.
  rewrite !lookup_last. run_monad.
  rewrite insert_last, lookup_last. run_monad.
  rewrite <- app_assoc. reflexivity.
Qed.

Lemma handleCall_silent (call : FunctionCall) (s : State) :
  exists s', handleCall call s = (Val tt, s') /\ silent s s'.
Proof.
  destruct call as [argsObj id|data id|i c id|n id].
  - rewrite handleCall_create. cbv zeta. eexists. split; [reflexivity|].
    now apply silent_step.
  - destruct s as [a le ps cc h tr]. unfold handleCall. run_monad.
    eexists. split; [reflexivity|].
    now apply (silent_step (mkState a le ps cc h tr)).
  - destruct s as [a le ps cc h tr]. unfold handleCall. run_monad.
    eexists. split; [reflexivity|].
    now apply (silent_step (mkState a le ps cc h tr)).
  - eexists. split; [reflexivity|]. apply silent_refl.
Qed.

Lemma forEach_handleCall_silent (calls : list FunctionCall) (s : State) :
  exists s', forEach calls handleCall s = (Val tt, s') /\ silent s s'.
Proof.
  revert s. induction calls as [|call calls IH]; intros s.
  - exists s. split; [reflexivity | apply silent_refl].
  - destruct (handleCall_silent call s) as (s1 & H1 & Hs1).
    destruct (IH s1) as (s2 & H2 & Hs2).
    exists s2. split; [|eapply silent_trans; eassumption].
    cbn [forEach]. unfold bind. now rewrite H1.
Qed.

(** The [try] block sends the message of the pass, once; what follows
    sends no user message and keeps the counters. *)
Lemma tryBody_run (message : string) (s : State) :
  exists r s',
    tryBody chat message s = (r, s')
    /\ r <> Fuel
    /\ silent (sent message s) s'.
Proof.
  destruct s as [a le ps cc h tr].
  unfold tryBody, chatSendMessage, request. run_monad.
  change (mkState a le ps (S cc) h (tr ++ [ChatSend (finalMessage a message)]))
    with (sent message (mkState a le ps cc h tr)).
  set (s0 := mkState a le ps cc h tr).
  destruct (chat cc) as [resp|e].
  2:{ eexists _, _. split; [reflexivity|]. split; [discriminate|apply silent_refl]. }
  destruct (malformedOutput resp).
  { eexists _, _. split; [reflexivity|]. split; [discriminate|apply silent_refl]. }
  destruct (safetyBlock resp).
  { eexists _, _. split; [reflexivity|]. split; [discriminate|apply silent_refl]. }
  destruct (emptyResponse resp).
  { eexists _, _. split; [reflexivity|]. split; [discriminate|apply silent_refl]. }
  destruct (noCalls (functionCalls resp)).
  { eexists _, _. split; [reflexivity|]. split; [discriminate|apply silent_refl]. }
  set (s1 := mkState _ _ [] _ _ _).
  assert (Hs1 : silent (sent message s0) s1).
  { repeat split. exists []. now rewrite app_nil_r. }
  destruct (forEach_handleCall_silent (callList (functionCalls resp)) s1)
    as (s2 & H2 & Hs2).
  rewrite H2. destruct s2 as [a2 le2 ps2 cc2 h2 tr2].
  pose proof (silent_trans _ _ _ Hs1 Hs2) as Hs.
  destruct ps2 as [|p ps2].
  { eexists _, _. split; [reflexivity|]. split; [discriminate|exact Hs]. }
  unfold chatSendParts, request. run_monad.
  assert (Hs3 : forall parts, silent (sent message s0)
                  (mkState a2 le2 parts (S cc2) h2
                     (tr2 ++ [ChatSendParts (p :: ps2)]))).
  { intros parts. eapply silent_trans; [exact Hs|].
    apply (silent_step (mkState a2 le2 (p :: ps2) cc2 h2 tr2)). reflexivity. }
  destruct (chat cc2) as [ack|e].
  - destruct (Js.truthy (text ack));
      (eexists _, _; split; [reflexivity|]; split; [discriminate|apply Hs3]).
  - eexists _, _. split; [reflexivity|]. split; [discriminate|apply Hs3].
Qed.

(** The [catch] block, by the text of the error. *)
Lemma onError_run (error : Js.Error) (s : State) :
  onError error s =
  let err := Js.orElse (Js.message error) (Js.toString error) in
  let errStr := Js.toLowerCase err in
  let keep := fun n tr =>
    mkState n err (functionResponseParts s) (chatCalls s) (heap s) tr in
  if Js.includes errStr "429" || Js.includes errStr "503" then
    (Val Continue,
     keep (S (attempts s))
          (trace s ++ [Wait ((Z.of_nat (attempts s) + 1) * 2000)]))
  else if Js.includes errStr "403" || Js.includes errStr "key not valid" then
    (Exn error, keep (attempts s) (trace s))
  else if (maxAttempts <=? S (attempts s))%nat then
    (Val Break, keep (S (attempts s)) (trace s))
  else
    (Val Continue, keep (S (attempts s)) (trace s ++ [Wait 1500])).
Proof.
  destruct s as [a le ps cc h tr]. unfold onError. run_monad.
  destruct (_ || _); [reflexivity|].
  destruct (_ || _); [reflexivity|].
  destruct (maxAttempts <=? S a)%nat; reflexivity.
Qed.

(** One pass of the loop sends the message of the pass, once and first;
    it ends the loop, or comes back with the counter one higher. *)
Lemma iteration_run (message : string) (s : State) :
  exists r s' evs,
    iteration chat message s = (r, s')
    /\ trace s' = trace s ++ ChatSend (finalMessage (attempts s) message) :: evs
    /\ sends evs = O
    /\ r <> Fuel
    /\ (r = Val Continue -> attempts s' = S (attempts s)).
Proof.
  destruct (tryBody_run message s) as (r & s1 & Hrun & Hfuel & Ha & He & evs & Htr & Hn).
  unfold iteration, tryCatch, bind at 1. rewrite Hrun.
  assert (Htr1 : trace s1
                 = trace s ++ ChatSend (finalMessage (attempts s) message) :: evs).
  { rewrite Htr. cbn. now rewrite <- app_assoc. }
  destruct r as [v|e|]; [| |congruence].
  - exists (Val (Return v)), s1, evs.
    repeat split; [exact Htr1|exact Hn|discriminate|discriminate].
  - rewrite onError_run. cbv zeta. cbn in Ha.
    destruct (_ || _).
    + eexists _, _, (evs ++ [_]). split; [reflexivity|]. cbn [trace attempts].
      split; [rewrite Htr1, <- app_assoc; reflexivity|].
      split; [rewrite sends_app, Hn; reflexivity|].
      split; [discriminate|]. intros _. now rewrite Ha.
    + destruct (_ || _).
      * eexists _, _, _. split; [reflexivity|]. cbn [trace attempts].
        split; [exact Htr1|]. split; [exact Hn|].
        split; discriminate.
      * destruct (maxAttempts <=? S (attempts s1))%nat.
        -- eexists _, _, _. split; [reflexivity|]. cbn [trace attempts].
           split; [exact Htr1|]. split; [exact Hn|]. split; discriminate.
        -- eexists _, _, (evs ++ [_]). split; [reflexivity|]. cbn [trace attempts].
           split; [rewrite Htr1, <- app_assoc; reflexivity|].
           split; [rewrite sends_app, Hn; reflexivity|].
           split; [discriminate|]. intros _. now rewrite Ha.
Qed.

(** The loop, one unfolding at a time. *)
Lemma sendLoop_unfold (fuel : nat) (message : string) (s : State) :
  sendLoop chat fuel message s =
  if (attempts s <? maxAttempts)%nat then
    match fuel with
    | O => (Fuel, s)
    | S fuel' =>
        match iteration chat message s with
        | (Val (Return r), s') => (Val r, s')
        | (Val Continue, s') => sendLoop chat fuel' message s'
        | (Val Break, s') => (Val (giveUpMessage (lastError s')), s')
        | (Exn e, s') => (Exn e, s')
        | (Fuel, s') => (Fuel, s')
        end
    end
  else (Val (giveUpMessage (lastError s)), s).
Proof.
  destruct fuel; cbn [sendLoop]; unfold bind, gets, giveUp, ret;
    destruct (attempts s <? maxAttempts)%nat; try reflexivity.
  destruct (iteration chat message s) as [[[r| |]|e|] s']; reflexivity.
Qed.

Lemma sendLoop_run (fuel : nat) (message : string) (s : State) :
  (attempts s <= maxAttempts)%nat ->
  exists r s' evs,
    sendLoop chat fuel message s = (r, s')
    /\ trace s' = trace s ++ evs
    /\ (sends evs <= maxAttempts - attempts s)%nat
    /\ ((maxAttempts - attempts s <= fuel)%nat -> r <> Fuel).
Proof.
  revert s. induction fuel as [|fuel IH]; intros s Ha; rewrite sendLoop_unfold;
    unfold maxAttempts in *.
  - destruct (Nat.ltb_spec (attempts s) 3).
    + exists Fuel, s, []. rewrite app_nil_r.
      split; [reflexivity|]. split; [reflexivity|]. split; [cbn; lia|]. lia.
    + eexists _, s, []. rewrite app_nil_r. split; [reflexivity|].
      repeat split; cbn; [lia|discriminate].
  - destruct (Nat.ltb_spec (attempts s) 3) as [Hlt|Hge].
    2:{ eexists _, s, []. rewrite app_nil_r. split; [reflexivity|].
        repeat split; cbn; [lia|discriminate]. }
    destruct (iteration_run message s) as (r & s1 & evs & Hrun & Htr & Hn & Hfuel & Hcont).
    rewrite Hrun. destruct r as [[v| |]|e|]; [| | | |congruence].
    + exists (Val v), s1, (ChatSend (finalMessage (attempts s) message) :: evs).
      repeat split; [exact Htr|unfold sends in *; cbn; lia|discriminate].
    + specialize (Hcont eq_refl).
      destruct (IH s1 ltac:(lia)) as (r2 & s2 & evs2 & Hrun2 & Htr2 & Hn2 & Hfuel2).
      exists r2, s2, ((ChatSend (finalMessage (attempts s) message) :: evs) ++ evs2).
      split; [exact Hrun2|].
      split; [now rewrite Htr2, Htr, app_assoc|].
      split; [rewrite sends_app; unfold sends in *; cbn; lia|].
      intros Hf. apply Hfuel2. lia.
    + eexists _, s1, (ChatSend (finalMessage (attempts s) message) :: evs).
      split; [reflexivity|].
      repeat split; [exact Htr|unfold sends in *; cbn; lia|discriminate].
    + exists (Exn e), s1, (ChatSend (finalMessage (attempts s) message) :: evs).
      repeat split; [exact Htr|unfold sends in *; cbn; lia|discriminate].
Qed.

(** The passes that end in the [catch] block before any call is handled. *)
Lemma tryBody_rejected (message : string) (s : State) (e : Js.Error) :
  chat (chatCalls s) = Rejected e ->
  tryBody chat message s = (Exn e, sent message s).
Proof.
  intros Hc. destruct s as [a le ps cc h tr]. cbn in Hc.
  unfold tryBody, chatSendMessage, request. run_monad. now rewrite Hc.
Qed.

Lemma tryBody_malformed (message : string) (s : State) (resp : Response) :
  chat (chatCalls s) = Resolved resp ->
  malformedOutput resp = true ->
  tryBody chat message s = (Exn (Js.newError "MALFORMED_JSON"), sent message s).
Proof.
  intros Hc Hm. destruct s as [a le ps cc h tr]. cbn in Hc.
  unfold tryBody, chatSendMessage, request. run_monad. now rewrite Hc, Hm.
Qed.

Lemma tryBody_empty (message : string) (s : State) (resp : Response) :
  chat (chatCalls s) = Resolved resp ->
  malformedOutput resp = false ->
  safetyBlock resp = false ->
  emptyResponse resp = true ->
  tryBody chat message s = (Exn (Js.newError "EMPTY_RESPONSE"), sent message s).
Proof.
  intros Hc Hm Hs He. destruct s as [a le ps cc h tr]. cbn in Hc.
  unfold tryBody, chatSendMessage, request. run_monad. now rewrite Hc, Hm, Hs, He.
Qed.

(** A pass that starts below the maximum begins by sending its message. *)
Lemma sendLoop_first_send (fuel : nat) (message : string) (s : State) :
  (attempts s < maxAttempts)%nat ->
  exists rest,
    trace (snd (sendLoop chat (S fuel) message s))
    = trace s ++ ChatSend (finalMessage (attempts s) message) :: rest.
Proof.
  intros Hlt. rewrite sendLoop_unfold.
  destruct (Nat.ltb_spec (attempts s) maxAttempts) as [_|?]; [|lia].
  destruct (iteration_run message s) as (r & s1 & evs & Hrun & Htr & _ & Hfuel & Hcont).
  rewrite Hrun. destruct r as [[v| |]|e|]; [| | | |congruence]; cbn [snd];
    try (now exists evs).
  specialize (Hcont eq_refl).
  destruct (sendLoop_run fuel message s1 ltac:(lia)) as (r2 & s2 & evs2 & Hrun2 & Htr2 & _).
  rewrite Hrun2. cbn [snd]. exists (evs ++ evs2).
  rewrite Htr2, Htr, <- app_assoc. reflexivity.
Qed.
End ChatFacts.

(** C1. A call of sendMessage sends the user's message to the model at most
    three times (the configured maximum), whatever the requests answer; a
    call of generateChapterContent issues at most three generation requests.
    With fuel for three passes both calls come to their end. *)
Theorem attempts_never_exceed_maximum :
  forall (chat : nat -> Service.Outcome Service.Response)
         (gen : nat -> Service.Outcome (option string))
         (fuel : nat) (message : string) (s : Service.State)
         (book : EBook) (chapter : Chapter) (g : Service.GenState),
    (exists evs,
        Service.trace (snd (Service.sendMessage chat fuel message s))
        = Service.trace s ++ evs
        /\ (Service.sends evs <= Service.maxAttempts)%nat
        /\ Service.maxAttempts = 3%nat
        /\ ((3 <= fuel)%nat ->
            fst (Service.sendMessage chat fuel message s) <> Fuel))
    /\ (exists evs,
        Service.g_trace (snd (Service.generateChapterContent gen fuel book chapter g))
        = Service.g_trace g ++ evs
        /\ (Service.generations evs <= 3)%nat
        /\ ((3 <= fuel)%nat ->
            fst (Service.generateChapterContent gen fuel book chapter g) <> Fuel)).
Proof.
  intros chat gen fuel message s book chapter g. split.
  - destruct s as [a le ps cc h tr].
    unfold Service.sendMessage, bind, Service.setAttempts, Service.setLastError, modify.
    cbn [Service.attempts Service.lastError Service.functionResponseParts
         Service.chatCalls Service.heap Service.trace].
    destruct (sendLoop_run chat fuel message (Service.mkState 0 EmptyString ps cc h tr)
                ltac:(cbn; unfold Service.maxAttempts; lia))
      as (r & s' & evs & Hrun & Htr & Hn & Hfuel).
    rewrite Hrun. cbn [fst snd]. exists evs.
    split; [exact Htr|].
    split; [cbn in Hn; unfold Service.maxAttempts in *; lia|]. split; [reflexivity|].
    intros Hf. apply Hfuel. cbn. unfold Service.maxAttempts. lia.
  - unfold Service.generateChapterContent, bind, Service.g_setAttempts, modify.
    destruct (generateLoop_run gen book chapter fuel
                (Service.mkGenState 0 (Service.genCalls g) (Service.g_trace g))
                ltac:(cbn; lia))
      as (r & evs & a' & Hrun & _ & Hn & _ & Hval).
    cbn [Service.genCalls Service.g_attempts Service.g_trace] in *.
    rewrite Hrun. cbn [fst snd Service.g_trace]. exists evs.
    split; [reflexivity|]. split; [lia|].
    intros Hf. destruct (Hval ltac:(lia)) as (_ & content & -> & _). discriminate.
Qed.

Lemma attempts_never_exceed_maximum_witness :
  fst (Service.sendMessage
         (Sample.script [Service.Rejected Sample.busy; Service.Rejected Sample.broken]
                        (Service.Rejected Sample.broken))
         3 "Write a novel" Service.init) <> Fuel
  /\ fst (Service.generateChapterContent
            (Sample.script [] (Service.Rejected Sample.busy))
            3 Sample.book Sample.draft Service.genInit) <> Fuel.
Proof.
  destruct (attempts_never_exceed_maximum
              (Sample.script [Service.Rejected Sample.busy; Service.Rejected Sample.broken]
                             (Service.Rejected Sample.broken))
              (Sample.script [] (Service.Rejected Sample.busy))
              3 "Write a novel" Service.init Sample.book Sample.draft Service.genInit)
    as [(evs & _ & _ & _ & Hsend) (evs' & _ & _ & Hgen)].
  split; [apply Hsend | apply Hgen]; lia.
Defined.

(** C2, as stated, fails: an error whose text contains '403' and also '429'
    is taken for a rate limit; sendMessage waits 2000 ms, counts the attempt
    and sends again. *)
Lemma auth_error_with_rate_text_is_retried :
  Js.includes (Js.message Sample.forbiddenProject) "403" = true
  /\ Service.sendMessage
       (Sample.script [Service.Rejected Sample.forbiddenProject] (Sample.answer "Done."))
       3 "Write a novel" Service.init
     = (Val "Done.",
        Service.mkState 1 "403 PERMISSION_DENIED: project 14290 has no access."
          [] 2 []
          [Service.ChatSend "Write a novel";
           Service.Wait 2000;
           Service.ChatSend
             "Write a novel (Focus on valid JSON. Keep outlines CONCISE.)"]).
Proof. split; vm_compute; reflexivity. Qed.

(** C2, amended. When the request of a pass fails with an error whose
    lower-cased text (its message, or its string form when the message is
    empty) contains '403' or 'key not valid' and contains neither '429' nor
    '503', sendMessage rethrows that error at once: the pass sent its one
    message, nothing is sent or awaited after it, and the attempt counter is
    what it was, however many attempts remain. *)
Theorem auth_error_short_circuits_retries :
  forall (chat : nat -> Service.Outcome Service.Response)
         (fuel : nat) (message : string) (s : Service.State) (e : Js.Error),
    (Service.attempts s < Service.maxAttempts)%nat ->
    chat (Service.chatCalls s) = Service.Rejected e ->
    let errText := Js.orElse (Js.message e) (Js.toString e) in
    let errStr := Js.toLowerCase errText in
    Js.includes errStr "403" || Js.includes errStr "key not valid" = true ->
    Js.includes errStr "429" || Js.includes errStr "503" = false ->
    Service.sendLoop chat (S fuel) message s
    = (Exn e,
       Service.mkState (Service.attempts s) errText
         (Service.functionResponseParts s) (S (Service.chatCalls s))
         (Service.heap s)
         (Service.trace s
          ++ [Service.ChatSend (Service.finalMessage (Service.attempts s) message)])).
Proof.
  intros chat fuel message s e Hlt Hchat errText errStr Hauth Hrate.
  rewrite sendLoop_unfold.
  destruct (Nat.ltb_spec (Service.attempts s) Service.maxAttempts) as [_|?]; [|lia].
  unfold Service.iteration, tryCatch, bind at 1.
  rewrite (tryBody_rejected chat message s e Hchat).
  rewrite onError_run. cbv zeta. fold errText. fold errStr.
  rewrite Hrate, Hauth. reflexivity.
Qed.

Lemma auth_error_short_circuits_retries_witness :
  Service.sendLoop
    (Sample.script [Service.Rejected Sample.busy; Service.Rejected Sample.forbidden]
                   (Sample.answer "Done."))
    2 "Write a novel"
    (Service.mkState 1 "Resource exhausted" [] 1 [] [Service.ChatSend "Write a novel";
                                                     Service.Wait 1500])
  = (Exn Sample.forbidden,
     Service.mkState 1 "403 PERMISSION_DENIED: API key not valid." [] 2 []
       [Service.ChatSend "Write a novel"; Service.Wait 1500;
        Service.ChatSend "Write a novel (Focus on valid JSON. Keep outlines CONCISE.)"]).
Proof.
  exact (auth_error_short_circuits_retries
           (Sample.script [Service.Rejected Sample.busy; Service.Rejected Sample.forbidden]
                          (Sample.answer "Done."))
           1 "Write a novel"
           (Service.mkState 1 "Resource exhausted" [] 1 []
              [Service.ChatSend "Write a novel"; Service.Wait 1500])
           Sample.forbidden
           ltac:(vm_compute; lia) eq_refl
           ltac:(vm_compute; reflexivity) ltac:(vm_compute; reflexivity)).
Defined.

(** C8, as stated, fails: two malformed responses in a row are followed by
    two retries, not one; and a malformed response to the third attempt is
    followed by none. *)
Lemma malformed_output_is_retried_twice :
  Service.sendMessage
    (Sample.script [Sample.malformed; Sample.malformed] (Sample.answer "Done."))
    3 "Write a novel" Service.init
  = (Val "Done.",
     Service.mkState 2 "MALFORMED_JSON" [] 3 []
       [Service.ChatSend "Write a novel";
        Service.Wait 1500;
        Service.ChatSend "Write a novel (Focus on valid JSON. Keep outlines CONCISE.)";
        Service.Wait 1500;
        Service.ChatSend "Write a novel (Focus on valid JSON. Keep outlines CONCISE.)"])
  /\ Service.sends
       (Service.trace
          (snd (Service.sendMessage (Sample.script [] Sample.nothing)
                  3 "Write a novel" Service.init))) = 3%nat.
Proof. split; vm_compute; reflexivity. Qed.

(** C8, amended. A response classified as malformed output, or as an empty
    response, counts as a failed attempt.  While the counter stays below the
    maximum (so after the first and the second attempt), sendMessage waits
    1500 ms and sends again, and the message it sends is the original one
    with the rephrased instruction appended; after the third attempt it
    sends nothing more and returns its error text. *)
Theorem malformed_or_empty_response_is_retried :
  forall (chat : nat -> Service.Outcome Service.Response)
         (fuel : nat) (message : string) (s : Service.State)
         (resp : Service.Response),
    (Service.attempts s < Service.maxAttempts)%nat ->
    chat (Service.chatCalls s) = Service.Resolved resp ->
    Service.malformedOutput resp = true
    \/ (Service.malformedOutput resp = false
        /\ Service.safetyBlock resp = false
        /\ Service.emptyResponse resp = true) ->
    let errText :=
      if Service.malformedOutput resp then "MALFORMED_JSON" else "EMPTY_RESPONSE" in
    let after := fun tr =>
      Service.mkState (S (Service.attempts s)) errText
        (Service.functionResponseParts s) (S (Service.chatCalls s))
        (Service.heap s) tr in
    let first :=
      Service.ChatSend (Service.finalMessage (Service.attempts s) message) in
    ((S (Service.attempts s) < Service.maxAttempts)%nat ->
     Service.sendLoop chat (S (S fuel)) message s
     = Service.sendLoop chat (S fuel) message
         (after (Service.trace s ++ [first; Service.Wait 1500]))
     /\ exists rest,
         Service.trace (snd (Service.sendLoop chat (S (S fuel)) message s))
         = Service.trace s
           ++ [first; Service.Wait 1500;
               Service.ChatSend (message +:+ Service.retrySuffix)] ++ rest)
    /\ (S (Service.attempts s) = Service.maxAttempts ->
        Service.sendLoop chat (S fuel) message s
        = (Val (Service.giveUpMessage errText), after (Service.trace s ++ [first]))).
Proof.
  intros chat fuel message s resp Hlt Hchat Hclass errText after first.
  assert (Hiter : Service.iteration chat message s
                  = Service.onError (Js.newError errText) (Service.sent message s)).
  { unfold Service.iteration, tryCatch, bind at 1. subst errText.
    destruct Hclass as [Hm|(Hm & Hs & He)]; rewrite Hm.
    - now rewrite (tryBody_malformed chat message s resp Hchat Hm).
    - now rewrite (tryBody_empty chat message s resp Hchat Hm Hs He). }
  assert (Herr : Service.onError (Js.newError errText) (Service.sent message s)
                 = if (Service.maxAttempts <=? S (Service.attempts s))%nat
                   then (Val Service.Break, after (Service.trace s ++ [first]))
                   else (Val Service.Continue,
                         after ((Service.trace s ++ [first]) ++ [Service.Wait 1500]))).
  { rewrite onError_run. subst errText after first.
    destruct (Service.malformedOutput resp); reflexivity. }
  split.
  - intros Hnext.
    assert (Hstep : Service.sendLoop chat (S (S fuel)) message s
                    = Service.sendLoop chat (S fuel) message
                        (after (Service.trace s ++ [first; Service.Wait 1500]))).
    { rewrite (sendLoop_unfold chat (S (S fuel))).
      destruct (Nat.ltb_spec (Service.attempts s) Service.maxAttempts) as [_|?]; [|lia].
      rewrite Hiter, Herr.
      destruct (Nat.leb_spec Service.maxAttempts (S (Service.attempts s))); [lia|].
      now rewrite <- app_assoc. }
    split; [exact Hstep|].
    rewrite Hstep.
    destruct (sendLoop_first_send chat fuel message
                (after (Service.trace s ++ [first; Service.Wait 1500])) Hnext)
      as (rest & Hrest).
    exists rest. rewrite Hrest. subst after first.
    cbn [Service.trace Service.attempts].
    change (Service.finalMessage (S (Service.attempts s)) message)
      with (message +:+ Service.retrySuffix).
    now rewrite <- app_assoc.
  - intros Hlast. rewrite sendLoop_unfold.
    destruct (Nat.ltb_spec (Service.attempts s) Service.maxAttempts) as [_|?]; [|lia].
    rewrite Hiter, Herr.
    destruct (Nat.leb_spec Service.maxAttempts (S (Service.attempts s))); [|lia].
    reflexivity.
Qed.

Lemma malformed_or_empty_response_is_retried_witness :
  Service.sendLoop (Sample.script [Sample.malformed] (Sample.answer "Done."))
    2 "Write a novel" Service.init
  = Service.sendLoop (Sample.script [Sample.malformed] (Sample.answer "Done."))
      1 "Write a novel"
      (Service.mkState 1 "MALFORMED_JSON" [] 1 []
         [Service.ChatSend "Write a novel"; Service.Wait 1500]).
Proof.
  exact (proj1
           (proj1
              (malformed_or_empty_response_is_retried
                 (Sample.script [Sample.malformed] (Sample.answer "Done."))
                 0 "Write a novel" Service.init
                 (Service.mkResponse (Some "MALFORMED_FUNCTION_CALL") None None)
                 ltac:(vm_compute; lia) eq_refl (or_introl eq_refl))
              ltac:(vm_compute; lia))).
Defined.

(** ** GeminiService: the create_ebook call and its background task *)

(** C6, as stated, fails: the chapter handed to onEBookGenerated has no
    outline, though the arguments of the call gave one. *)
Lemma generated_book_has_no_outline :
  ch_outline <$> bk_chapters Sample.plan = [Some "The sun rises."]
  /\ Service.trace
       (snd (Service.sendMessage (Sample.script [Sample.planned] (Sample.answer "Done."))
               3 "Write a novel" Service.init))
     = [Service.ChatSend "Write a novel";
        Service.EBookGenerated
          (mkEBook "Days" "Ann" "A book of days" "modern" "novel"
             [mkChapter "Dawn" None "sunrise chart" (Some EmptyString) None]);
        Service.Background 0%nat 0%nat;
        Service.ChatSendParts
          [Service.mkFunctionResponse "create_ebook"
             (inl "Structure created. Generating content in background.")
             (Some "call-1")]].
Proof. split; vm_compute; reflexivity. Qed.

(** C6, amended. Handling a create_ebook call hands one book to
    onEBookGenerated: it has the title, author, description, theme and format
    of the arguments and as many chapters, in the same order; each chapter
    has the title and the image keyword the arguments gave for it, and an
    empty content. *)
Theorem generated_book_keeps_titles_and_keywords :
  forall (argsObj : EBook) (id : option string) (s : Service.State),
  exists (book : EBook) (r : Service.Ref),
    fst (Service.handleCall (Service.CreateEbook argsObj id) s) = Val tt
    /\ Service.trace (snd (Service.handleCall (Service.CreateEbook argsObj id) s))
       = Service.trace s ++ [Service.EBookGenerated book; Service.Background r r]
    /\ bk_title book = bk_title argsObj
    /\ bk_author book = bk_author argsObj
    /\ bk_description book = bk_description argsObj
    /\ bk_theme book = bk_theme argsObj
    /\ bk_format book = bk_format argsObj
    /\ length (bk_chapters book) = length (bk_chapters argsObj)
    /\ (forall (i : nat) (ch : Chapter),
          bk_chapters argsObj !! i = Some ch ->
          exists ch',
            bk_chapters book !! i = Some ch'
            /\ ch_title ch' = ch_title ch
            /\ ch_imageKeyword ch' = ch_imageKeyword ch
            /\ ch_content ch' = Some EmptyString).
Proof.
  intros argsObj id s. rewrite handleCall_create. cbv zeta. cbn [fst snd Service.trace].
  eexists _, _. split; [reflexivity|]. split; [reflexivity|].
  cbn [Service.withChapters bk_title bk_author bk_description bk_theme bk_format
       bk_chapters].
  repeat split; try reflexivity.
  - apply length_map.
  - intros i ch Hi. exists (Service.initialChapter ch).
    rewrite list_lookup_fmap, Hi. repeat split; reflexivity.
Qed.

Lemma generated_book_keeps_titles_and_keywords_witness :
  exists (book : EBook) (ch' : Chapter),
    In (Service.EBookGenerated book)
       (Service.trace
          (snd (Service.handleCall (Service.CreateEbook Sample.plan None) Service.init)))
    /\ bk_chapters book !! 0%nat = Some ch'
    /\ ch_title ch' = "Dawn".
Proof.
  destruct (generated_book_keeps_titles_and_keywords Sample.plan None Service.init)
    as (book & r & _ & Htr & _ & _ & _ & _ & _ & _ & Hch).
  destruct (Hch 0%nat Sample.draft eq_refl) as (ch' & Hlk & Ht & _).
  exists book, ch'. split; [|split; [exact Hlk | exact Ht]].
  rewrite Htr. cbn. now left.
Defined.

Section BackgroundFacts.
Import Service.
Variable gen : nat -> Outcome (option string).
Variable store : list EBook.

(** With fuel for its three passes, [generateChapterContent] returns after
    one to three requests, and after one when none is turned down; the
    requests, the delays and what it returns are those of [requests]. *)
Lemma generateChapterContent_run (fuel : nat) (book : EBook) (chapter : Chapter)
  (s : GenState) :
  (3 <= fuel)%nat ->
  exists content evs a',
    generateChapterContent gen fuel book chapter s
    = (Val content,
       mkGenState a' (genCalls s + generations evs) (g_trace s ++ evs))
    /\ Forall (fun e => quiet e = true) evs
    /\ (1 <= generations evs <= 3)%nat
    /\ ((forall k, rateLimited (gen k) = false) -> generations evs = 1%nat)
    /\ requests gen book chapter (genCalls s) 0 evs content
         (genCalls s + generations evs).
Proof.
  intros Hfuel.
  unfold generateChapterContent, bind, g_setAttempts, modify.
  destruct (generateLoop_run gen book chapter fuel
              (mkGenState 0 (genCalls s) (g_trace s)) ltac:(cbn; lia))
    as (r & evs & a' & Hrun & Hq & Hn & _ & Hval).
  destruct (generateLoop_requests gen book chapter fuel
              (mkGenState 0 (genCalls s) (g_trace s))
              ltac:(cbn; lia) ltac:(cbn; lia))
    as (content' & evs' & a'' & c' & Hrun' & Hreq).
  cbn [genCalls g_attempts g_trace] in *.
  destruct (Hval ltac:(lia)) as (Hone & content & -> & _).
  rewrite Hrun in Hrun'. injection Hrun' as <- <- <- Hevs.
  apply app_inv_head in Hevs. subst evs'.
  exists content, evs, a'. split; [exact Hrun|]. split; [exact Hq|].
  split; [lia|]. split; [|exact Hreq]. intros Hnone.
  destruct fuel as [|fuel]; [lia|].
  rewrite generateLoop_unfold, generateIteration_run in Hrun.
  cbn [genCalls g_attempts g_trace Nat.ltb Nat.leb] in Hrun.
  specialize (Hnone (genCalls s)).
  destruct (gen (genCalls s)) as [t|e]; cbn in Hnone.
  - injection Hrun as _ _ Hc Ht.
    assert (generations evs = 1%nat) by lia. assumption.
  - rewrite Hnone in Hrun. injection Hrun as _ _ Hc Ht.
    assert (generations evs = 1%nat) by lia. assumption.
Qed.

Lemma generations_app (l1 l2 : list Event) :
  generations (l1 ++ l2) = (generations l1 + generations l2)%nat.
Proof. apply count_app. Qed.

Lemma withOutline_same (ch : Chapter) : withOutline ch (ch_outline ch) = ch.
Proof. now destruct ch. Qed.

Variables (fuel : nat) (bookData : Ref) (book : EBook).
Hypothesis Hfuel : (3 <= fuel)%nat.
Hypothesis HbookData : store !! bookData = Some book.

(** The chapter at index [i], when [args] names the object [bookData]
    names. *)
Lemma backgroundStep_run (i : nat) (ch : Chapter) (s : GenState) :
  bk_chapters book !! i = Some ch ->
  exists evs s',
    backgroundStep gen store fuel bookData bookData i s = (Val tt, s')
    /\ g_trace s' = g_trace s ++ evs
    /\ chapterEvents gen book i (genCalls s) evs (genCalls s')
    /\ (1 <= generations evs <= 3)%nat
    /\ ((forall k, rateLimited (gen k) = false) -> generations evs = 1%nat).
Proof.
  intros Hch. unfold backgroundStep.
  rewrite HbookData.
  cbv beta iota zeta delta [bind defined ret g_wait g_emit modify].
  rewrite Hch, withOutline_same.
  cbv beta iota zeta.
  assert (Hwait : generations (if (0 <? i)%nat then [Wait 2000] else []) = 0%nat)
    by (destruct (0 <? i)%nat; reflexivity).
  destruct (0 <? i)%nat eqn:Hi; cbv beta iota zeta.
  - destruct (generateChapterContent_run fuel book ch
                (mkGenState (g_attempts s) (genCalls s) (g_trace s ++ [Wait 2000]))
                Hfuel)
      as (content & evs & a' & Hrun & Hq & Hn & Hone & Hreq).
    cbn [genCalls g_attempts g_trace] in Hrun, Hreq.
    rewrite Hrun.
    pose proof (chapterEvents_intro gen book i (genCalls s) ch evs content _
                  Hch Hreq) as Hev.
    rewrite Hi in Hev.
    eexists _, _. split; [reflexivity|]. cbn [g_trace g_attempts genCalls].
    split; [rewrite <- !app_assoc; reflexivity|]. split; [exact Hev|].
    rewrite !generations_app. cbn [generations count isGenerateContent].
    split; [unfold generations in *; cbn; lia|].
    intros Hnone. specialize (Hone Hnone). unfold generations in *. cbn. lia.
  - destruct (generateChapterContent_run fuel book ch s Hfuel)
      as (content & evs & a' & Hrun & Hq & Hn & Hone & Hreq).
    rewrite Hrun.
    pose proof (chapterEvents_intro gen book i (genCalls s) ch evs content _
                  Hch Hreq) as Hev.
    rewrite Hi in Hev.
    eexists _, _. split; [reflexivity|]. cbn [g_trace g_attempts genCalls].
    split; [rewrite <- !app_assoc; reflexivity|]. split; [exact Hev|].
    rewrite !generations_app. cbn [generations count isGenerateContent].
    split; [unfold generations in *; cbn; lia|].
    intros Hnone. specialize (Hone Hnone). unfold generations in *. cbn. lia.
Qed.

(** The chapters from index [i] on, [n] of them. *)
Lemma background_walk (n i : nat) (s : GenState) :
  (i + n <= length (bk_chapters book))%nat ->
  exists tr s',
    forEach (seq i n) (backgroundStep gen store fuel bookData bookData) s
    = (Val tt, s')
    /\ g_trace s' = g_trace s ++ tr
    /\ walk gen book i n (genCalls s) tr (genCalls s')
    /\ (n <= generations tr <= 3 * n)%nat
    /\ ((forall k, rateLimited (gen k) = false) -> generations tr = n).
Proof.
  revert i s. induction n as [|n IH]; intros i s Hb.
  - exists [], s. rewrite app_nil_r.
    repeat split; try constructor; cbn; lia.
  - destruct (lookup_lt_is_Some_2 (bk_chapters book) i ltac:(lia)) as [ch Hch].
    destruct (backgroundStep_run i ch s Hch)
      as (evs & s1 & Hrun & Htr & Hev & Hn & Hone).
    destruct (IH (S i) s1 ltac:(lia))
      as (tr & s2 & Hrun2 & Htr2 & Hw & Hn2 & Hall).
    exists (evs ++ tr), s2. split.
    + cbn [seq forEach]. unfold bind. now rewrite Hrun.
    + split; [now rewrite Htr2, Htr, app_assoc|].
      split; [econstructor; eassumption|].
      rewrite generations_app. split; [lia|].
      intros Hnone. rewrite (Hone Hnone), (Hall Hnone). reflexivity.
Qed.
End BackgroundFacts.

(** A walk in which no request is turned down for rate: chapter by chapter
    the wait, one request and the delivery of what it settled to. *)
Lemma walk_unhindered (gen : nat -> Service.Outcome (option string)) (book : EBook) :
  (forall k, Service.rateLimited (gen k) = false) ->
  forall i n c tr c',
    Service.walk gen book i n c tr c' ->
    (i + n <= length (bk_chapters book))%nat ->
    tr = concat
           (imap (fun j ch =>
                    (if (0 <? i + j)%nat then [Service.Wait 2000] else [])
                    ++ [Service.GenerateContent (Service.chapterPrompt book ch);
                        Service.ChapterEdited (Z.of_nat (i + j))
                          (Service.settled ch (gen (c + j)%nat))])
                 (take n (drop i (bk_chapters book))))
    /\ c' = (c + n)%nat.
Proof.
  intros Hnone i n c tr c' Hw.
  induction Hw as [i c|i n c c1 c2 evs tr Hev Hw IH]; intros Hb.
  - split; [reflexivity | lia].
  - destruct Hev as [ch evs content c1 Hch Hreq].
    assert (Hone : evs = [Service.GenerateContent (Service.chapterPrompt book ch)]
                   /\ content = Service.settled ch (gen c) /\ c1 = S c).
    { inversion Hreq; subst.
      - repeat split.
      - rewrite Hnone in *. discriminate.
      - lia. }
    destruct Hone as (-> & -> & ->).
    specialize (IH ltac:(lia)). destruct IH as [-> ->]. split; [|lia].
    rewrite (drop_S _ _ _ Hch). cbn [take]. rewrite imap_cons. cbn [concat].
    rewrite !Nat.add_0_r, <- !app_assoc. cbn [app]. do 4 f_equal.
    apply imap_ext. intros j x _. cbn.
    replace (i + S j)%nat with (S (i + j)) by lia.
    replace (c + S j)%nat with (S (c + j)) by lia. reflexivity.
Qed.

(** C7, as stated, fails: a generation request turned down for rate is
    issued again, so a book of one chapter can cost two remote calls. *)
Lemma rate_limited_chapter_is_requested_again :
  length (bk_chapters Sample.plan) = 1%nat
  /\ Service.backgroundGeneration
       (Sample.script [Service.Rejected Sample.busy] (Service.Resolved (Some "Text.")))
       (Service.heap
          (snd (Service.handleCall (Service.CreateEbook Sample.plan None) Service.init)))
       3 0%nat 0%nat Service.genInit
     = (Val tt,
        Service.mkGenState 1 2
          [Service.GenerateContent
             (Service.mkChapterPrompt "novel" "Days" "modern" "Dawn" "undefined");
           Service.Wait 2000;
           Service.GenerateContent
             (Service.mkChapterPrompt "novel" "Days" "modern" "Dawn" "undefined");
           Service.ChapterEdited 0 "Text."]).
Proof. split; vm_compute; reflexivity. Qed.

(** C7, amended. Handling a create_ebook call starts one background task on
    the object of the call.  With fuel for the three passes of each chapter,
    the task ends without an exception after walking the chapters in index
    order ([walk]): before every chapter but the first it waits 2000 ms; for
    each chapter it calls generateChapterContent once, which issues one to
    three remote requests with the prompt of that chapter (one when no
    request is turned down for rate); and it hands what that call returned,
    the text of the answer or a placeholder, to onChapterEdited with the
    index of the chapter before it goes on to the next.  When no request is
    turned down for rate the trace is, chapter by chapter, the wait, the one
    request and the delivery of its result. *)
Theorem background_task_walks_chapters_in_order :
  forall (gen : nat -> Service.Outcome (option string)) (fuel : nat)
         (argsObj : EBook) (id : option string) (s : Service.State),
    (3 <= fuel)%nat ->
    let s' := snd (Service.handleCall (Service.CreateEbook argsObj id) s) in
    let r := length (Service.heap s) in
    let n := length (bk_chapters argsObj) in
    let book := Service.withChapters argsObj
                  (map Service.initialChapter (bk_chapters argsObj)) in
    Service.count (fun e => match e with Service.Background _ _ => true | _ => false end)
      (Service.trace s')
    = S (Service.count
           (fun e => match e with Service.Background _ _ => true | _ => false end)
           (Service.trace s))
    /\ In (Service.Background r r) (Service.trace s')
    /\ exists tr g,
        Service.backgroundGeneration gen (Service.heap s') fuel r r Service.genInit
        = (Val tt, g)
        /\ Service.g_trace g = tr
        /\ Service.walk gen book 0 n 0 tr (Service.genCalls g)
        /\ (n <= Service.generations tr <= 3 * n)%nat
        /\ ((forall k, Service.rateLimited (gen k) = false) ->
            Service.generations tr = n
            /\ tr = concat
                      (imap (fun i ch =>
                               (if (0 <? i)%nat then [Service.Wait 2000] else [])
                               ++ [Service.GenerateContent (Service.chapterPrompt book ch);
                                   Service.ChapterEdited (Z.of_nat i)
                                     (Service.settled ch (gen i))])
                            (bk_chapters book))).
Proof.
  intros gen fuel argsObj id s Hfuel. cbn zeta.
  rewrite handleCall_create. cbv zeta. cbn [snd Service.trace Service.heap].
  split.
  { rewrite count_app. cbn. lia. }
  split.
  { apply in_or_app. right. cbn. now right; left. }
  set (book := Service.withChapters argsObj
                 (map Service.initialChapter (bk_chapters argsObj))).
  assert (Hlk : (Service.heap s ++ [book]) !! length (Service.heap s) = Some book)
    by apply lookup_last.
  assert (Hlen : length (bk_chapters book) = length (bk_chapters argsObj))
    by apply length_map.
  destruct (background_walk gen (Service.heap s ++ [book]) fuel
              (length (Service.heap s)) book
              Hfuel Hlk (length (bk_chapters argsObj)) 0 Service.genInit
              ltac:(lia))
    as (tr & g & Hrun & Htr & Hw & Hn & Hone).
  exists tr, g. split.
  { unfold Service.backgroundGeneration, bind. rewrite Hlk. cbn [Service.defined ret].
    rewrite Hlen. exact Hrun. }
  split; [exact Htr|]. split; [exact Hw|]. split; [exact Hn|].
  intros Hnone. split; [exact (Hone Hnone)|].
  destruct (walk_unhindered gen book Hnone _ _ _ _ _ Hw ltac:(lia)) as [-> _].
  rewrite <- Hlen, drop_0, firstn_all. reflexivity.
Qed.

Lemma background_task_walks_chapters_in_order_witness :
  exists tr g,
    Service.backgroundGeneration
      (Sample.script [Service.Rejected Sample.busy] (Service.Resolved (Some "Text.")))
      (Service.heap
         (snd (Service.handleCall (Service.CreateEbook Sample.plan None) Service.init)))
      3 0%nat 0%nat Service.genInit
    = (Val tt, g)
    /\ Service.g_trace g = tr
    /\ Service.walk
         (Sample.script [Service.Rejected Sample.busy] (Service.Resolved (Some "Text.")))
         (Service.withChapters Sample.plan
            (map Service.initialChapter (bk_chapters Sample.plan)))
         0 1 0 tr (Service.genCalls g).
Proof.
  destruct (background_task_walks_chapters_in_order
              (Sample.script [Service.Rejected Sample.busy]
                             (Service.Resolved (Some "Text.")))
              3 Sample.plan None Service.init (le_n 3))
    as (_ & _ & tr & g & Hrun & Htr & Hw & _).
  exists tr, g. split; [exact Hrun|]. split; [exact Htr | exact Hw].
Defined.

(** The chapter the background task hands to generateChapterContent.  The
    closure reads the outline through [args]; [args] and [bookData] name one
    object, whose chapters are by then the initial chapters, so the outline
    it reads is undefined whatever the call provided. *)
Lemma background_task_reads_no_outline :
  forall (gen : nat -> Service.Outcome (option string)) (fuel : nat)
         (argsObj : EBook) (id : option string) (s : Service.State)
         (i : nat) (ch : Chapter) (g : Service.GenState),
    bk_chapters argsObj !! i = Some ch ->
    let s' := snd (Service.handleCall (Service.CreateEbook argsObj id) s) in
    let r := length (Service.heap s) in
    let book := Service.withChapters argsObj
                  (map Service.initialChapter (bk_chapters argsObj)) in
    ch_outline (Service.initialChapter ch) = None
    /\ Service.backgroundStep gen (Service.heap s') fuel r r i g
       = bind (if (0 <? i)%nat then Service.g_wait 2000 else ret tt)
           (fun _ =>
              bind (Service.generateChapterContent gen fuel book
                      (Service.initialChapter ch))
                (fun content =>
                   Service.g_emit (Service.ChapterEdited (Z.of_nat i) content)))
           g.
Proof.
  intros gen fuel argsObj id s i ch g Hch. cbn zeta.
  split; [reflexivity|].
  rewrite handleCall_create. cbv zeta. cbn [snd Service.heap].
  unfold Service.backgroundStep. rewrite lookup_last.
  cbv beta iota delta [bind Service.defined ret].
  cbn [Service.withChapters bk_chapters]. rewrite list_lookup_fmap, Hch.
  reflexivity.
Qed.

(** C3. generateChapterContent never throws, whatever book and chapter it
    is given.  With fuel for its three passes it returns a string: when the
    first request that is not turned down for rate fails, the string is
    '(Content generation failed. Outline: <outline>)', and when the three
    requests are all turned down for rate it is
    '(Content generation failed after retries. Outline: <outline>)', where
    <outline> is the outline of the chapter it was given as a template
    literal writes it: the text of the outline, or 'undefined' when the
    chapter has none.  The background task of a create_ebook call gives it
    chapters that have none, whatever outline the call carried: when the
    first request for the chapter at index [i] fails for another reason than
    rate, the task asks with the outline 'undefined' and delivers
    '(Content generation failed. Outline: undefined)'. *)
Theorem chapter_content_failure_yields_placeholder :
  forall (gen : nat -> Service.Outcome (option string)) (fuel : nat)
         (book : EBook) (chapter : Chapter) (s : Service.GenState),
    let run := Service.generateChapterContent gen fuel book chapter s in
    (forall e, fst run <> Exn e)
    /\ ((3 <= fuel)%nat ->
        exists content,
          fst run = Val content
          /\ (forall k e,
               (k < 3)%nat ->
               (forall j, (j < k)%nat ->
                  Service.rateLimited (gen (Service.genCalls s + j)%nat) = true) ->
               gen (Service.genCalls s + k)%nat = Service.Rejected e ->
               Service.isRateLimit e = false ->
               content = "(Content generation failed. Outline: "
                         +:+ Js.interpolate (ch_outline chapter) +:+ ")")
          /\ ((forall j, (j < 3)%nat ->
                 Service.rateLimited (gen (Service.genCalls s + j)%nat) = true) ->
              content = "(Content generation failed after retries. Outline: "
                        +:+ Js.interpolate (ch_outline chapter) +:+ ")"))
    /\ (forall (argsObj : EBook) (id : option string) (st : Service.State)
               (i : nat) (ch : Chapter) (e : Js.Error),
          (3 <= fuel)%nat ->
          bk_chapters argsObj !! i = Some ch ->
          gen (Service.genCalls s) = Service.Rejected e ->
          Service.isRateLimit e = false ->
          let st' := snd (Service.handleCall (Service.CreateEbook argsObj id) st) in
          let r := length (Service.heap st) in
          exists s',
            Service.backgroundStep gen (Service.heap st') fuel r r i s = (Val tt, s')
            /\ Service.g_trace s'
               = Service.g_trace s
                 ++ (if (0 <? i)%nat then [Service.Wait 2000] else [])
                 ++ [Service.GenerateContent
                       (Service.mkChapterPrompt (bk_format argsObj) (bk_title argsObj)
                          (bk_theme argsObj) (ch_title ch) "undefined");
                     Service.ChapterEdited (Z.of_nat i)
                       "(Content generation failed. Outline: undefined)"]).
Proof.
  intros gen fuel book chapter s. cbn zeta. split; [|split].
  - unfold Service.generateChapterContent, bind, Service.g_setAttempts, modify.
    destruct (generateLoop_run gen book chapter fuel
                (Service.mkGenState 0 (Service.genCalls s) (Service.g_trace s))
                ltac:(cbn; lia))
      as (r & evs & a' & Hrun & _ & _ & Hexn & _).
    rewrite Hrun. exact Hexn.
  - intros Hfuel.
    unfold Service.generateChapterContent, bind, Service.g_setAttempts, modify.
    destruct (generateLoop_run gen book chapter fuel
                (Service.mkGenState 0 (Service.genCalls s) (Service.g_trace s))
                ltac:(cbn; lia))
      as (r & evs & a' & Hrun & _ & _ & _ & Hval).
    cbn [Service.genCalls Service.g_attempts Service.g_trace] in *.
    rewrite Hrun. cbn [fst].
    destruct (Hval ltac:(lia)) as (_ & content & -> & Hk & Hall).
    exists content. split; [reflexivity|]. split.
    + intros k e Hlt Hpre Hgen Hrate.
      rewrite (Hk k ltac:(lia) Hpre).
      * rewrite Hgen. reflexivity.
      * rewrite Hgen. exact Hrate.
    + intros Hall'. rewrite Hall by (intros; apply Hall'; lia). reflexivity.
  - intros argsObj id st i ch e Hfuel Hch Hgen Hrate.
    rewrite handleCall_create. cbv zeta. cbn [snd Service.heap].
    set (book' := Service.withChapters argsObj
                    (map Service.initialChapter (bk_chapters argsObj))).
    assert (Hlk : (Service.heap st ++ [book']) !! length (Service.heap st) = Some book')
      by apply lookup_last.
    assert (Hch' : bk_chapters book' !! i = Some (Service.initialChapter ch)).
    { unfold book'. cbn [Service.withChapters bk_chapters].
      now rewrite list_lookup_fmap, Hch. }
    destruct (backgroundStep_run gen (Service.heap st ++ [book']) fuel
                (length (Service.heap st)) book' Hfuel Hlk i _ s Hch')
      as (evs & s' & Hrun & Htr & Hev & _).
    exists s'. split; [exact Hrun|]. rewrite Htr. f_equal.
    destruct Hev as [ch' evs content c' Hlook Hreq].
    rewrite Hch' in Hlook. injection Hlook as <-.
    inversion Hreq; subst.
    + rewrite Hgen. reflexivity.
    + rewrite Hgen in *. cbn in *. congruence.
    + lia.
Qed.

Lemma chapter_content_failure_yields_placeholder_witness :
  bk_chapters Sample.plan !! 0%nat = Some Sample.draft
  /\ ch_outline Sample.draft = Some "The sun rises."
  /\ exists s',
      Service.backgroundStep
        (Sample.script [Service.Rejected Sample.broken] (Service.Resolved None))
        (Service.heap
           (snd (Service.handleCall (Service.CreateEbook Sample.plan None)
                   Service.init)))
        3 0%nat 0%nat 0%nat Service.genInit
      = (Val tt, s')
      /\ Service.g_trace s'
         = [Service.GenerateContent
              (Service.mkChapterPrompt "novel" "Days" "modern" "Dawn" "undefined");
            Service.ChapterEdited 0
              "(Content generation failed. Outline: undefined)"].
Proof.
  split; [reflexivity|]. split; [reflexivity|].
  exact (proj2 (proj2 (chapter_content_failure_yields_placeholder
                         (Sample.script [Service.Rejected Sample.broken]
                                        (Service.Resolved None))
                         3 Sample.book Sample.draft Service.genInit))
           Sample.plan None Service.init 0%nat Sample.draft Sample.broken
           (le_n 3) eq_refl eq_refl eq_refl).
Defined.

(** * Further properties *)

(** ** GeminiService: what sendMessage throws and returns *)

Section RunFacts.
Import Service.
Variable chat : nat -> Outcome Response.

(** The calls of a response, handled one after the other. *)
Lemma forEach_handleCall_run (calls : list FunctionCall) (s : State) :
  forEach calls handleCall s
  = (Val tt,
     mkState (attempts s) (lastError s)
       (functionResponseParts s ++ flat_map Run.responseOf calls)
       (chatCalls s) (heap s ++ Run.callObjects calls)
       (trace s ++ Run.callEvents (length (heap s)) calls)).
Proof.
  revert s. induction calls as [|call calls IH]; intros [a le ps cc h tr].
  - cbn. now rewrite !app_nil_r.
  - cbn [forEach]. unfold bind at 1.
    destruct call as [argsObj id|data id|i c id|n id].
    + rewrite handleCall_create. cbv zeta.
      cbn [attempts lastError functionResponseParts chatCalls heap trace].
      rewrite IH.
      cbn [attempts lastError functionResponseParts chatCalls heap trace].
      rewrite length_app, Nat.add_1_r. cbn -[Run.initialBook].
      now rewrite <- !app_assoc.
    + unfold handleCall. run_monad. rewrite IH.
      cbn [attempts lastError functionResponseParts chatCalls heap trace].
      cbn. now rewrite <- !app_assoc.
    + unfold handleCall. run_monad. rewrite IH.
      cbn [attempts lastError functionResponseParts chatCalls heap trace].
      cbn. now rewrite <- !app_assoc.
    + unfold handleCall. run_monad. now rewrite IH.
Qed.

Lemma usable_split (resp : Response) :
  Run.usable resp = true ->
  malformedOutput resp = false /\ safetyBlock resp = false
  /\ emptyResponse resp = false.
Proof.
  unfold Run.usable. destruct (malformedOutput resp), (safetyBlock resp),
    (emptyResponse resp); cbn; intros H; try discriminate; auto.
Qed.

(** The [try] block on a response it goes on to handle. *)
Lemma tryBody_usable (message : string) (s : State) (resp : Response) :
  chat (chatCalls s) = Resolved resp ->
  Run.usable resp = true ->
  tryBody chat message s =
  let calls := callList (functionCalls resp) in
  let parts := flat_map Run.responseOf calls in
  let s1 := fun n tr =>
    mkState (attempts s) (lastError s)
      (if noCalls (functionCalls resp) then functionResponseParts s else parts)
      n (heap s ++ Run.callObjects calls)
      (trace s ++ ChatSend (finalMessage (attempts s) message)
         :: Run.callEvents (length (heap s)) calls ++ tr) in
  match parts with
  | [] => (Val (Run.plainAnswer resp), s1 (S (chatCalls s)) [])
  | _ :: _ =>
      (Val match chat (S (chatCalls s)) with
           | Resolved ack =>
               if Js.truthy (text ack)
               then Js.orElse
                      (Js.optOrElse (text resp) EmptyString +:+ Js.newline
                       +:+ Js.newline +:+ Js.interpolate (text ack))
                      "Content generated successfully!"
               else Run.plainAnswer resp
           | Rejected _ => Run.plainAnswer resp
           end,
       s1 (S (S (chatCalls s))) [ChatSendParts parts])
  end.
Proof.
  intros Hchat Hus. destruct (usable_split resp Hus) as (Hm & Hs & He).
  destruct s as [a le ps cc h tr]. cbn in Hchat.
  unfold tryBody, chatSendMessage, request. run_monad.
  rewrite Hchat, Hm, Hs, He. cbv zeta.
  destruct (functionCalls resp) as [[|call calls]|] eqn:Hcalls;
    cbn [noCalls callList].
  - cbn. rewrite !app_nil_r. reflexivity.
  - remember (call :: calls) as cs eqn:Hcs. clear Hcs.
    rewrite forEach_handleCall_run.
    cbn [attempts lastError functionResponseParts chatCalls heap trace app].
    rewrite <- app_assoc. cbn [app].
    destruct (flat_map Run.responseOf cs) as [|p ps'] eqn:Hparts.
    + rewrite app_nil_r. reflexivity.
    + unfold chatSendParts, request. run_monad.
      rewrite <- app_assoc.
      destruct (chat (S cc)) as [ack|e]; [destruct (Js.truthy (text ack))|];
        reflexivity.
  - cbn. rewrite !app_nil_r. reflexivity.
Qed.

Lemma orElse_default (a b : string) : b <> EmptyString -> Js.orElse a b <> EmptyString.
Proof. intros Hb. unfold Js.orElse. destruct a; cbn; [exact Hb | discriminate]. Qed.

Lemma plainAnswer_nonempty (resp : Response) : Run.plainAnswer resp <> EmptyString.
Proof. apply orElse_default. discriminate. Qed.

(** A response that is not usable makes the [try] block throw. *)
Lemma tryBody_unusable (message : string) (s : State) (resp : Response) :
  chat (chatCalls s) = Resolved resp ->
  Run.usable resp = false ->
  exists e, tryBody chat message s = (Exn e, sent message s)
            /\ Js.status e = None /\ Js.name e = "Error"
            /\ (Js.message e = "MALFORMED_JSON" \/ Js.message e = "SAFETY_BLOCK"
                \/ Js.message e = "EMPTY_RESPONSE").
Proof.
  intros Hchat Hus. destruct s as [a le ps cc h tr]. cbn in Hchat.
  unfold tryBody, chatSendMessage, request. run_monad. rewrite Hchat.
  unfold Run.usable in Hus.
  destruct (malformedOutput resp); [eexists; split; [reflexivity|]; cbn; auto|].
  destruct (safetyBlock resp); [eexists; split; [reflexivity|]; cbn; auto|].
  destruct (emptyResponse resp); [eexists; split; [reflexivity|]; cbn; auto|].
  discriminate.
Qed.

(** What the [try] block returns is never the empty string. *)
Lemma tryBody_val_nonempty (message : string) (s s' : State) (r : string) :
  tryBody chat message s = (Val r, s') -> r <> EmptyString.
Proof.
  destruct (chat (chatCalls s)) as [resp|e] eqn:Hchat.
  - destruct (Run.usable resp) eqn:Hus.
    + rewrite (tryBody_usable message s resp Hchat Hus). cbv zeta.
      destruct (flat_map Run.responseOf (callList (functionCalls resp))).
      * intros [= <- _]. apply plainAnswer_nonempty.
      * intros [= <- _].
        destruct (chat (S (chatCalls s))) as [ack|e];
          [destruct (Js.truthy (text ack))|];
          try apply plainAnswer_nonempty.
        apply orElse_default. discriminate.
    + destruct (tryBody_unusable message s resp Hchat Hus) as (e & -> & _).
      discriminate.
  - rewrite (tryBody_rejected chat message s e Hchat). discriminate.
Qed.

(** A pass is its [try] block when that returns, and its [catch] block on
    the error otherwise. *)
Lemma iteration_cases (message : string) (s : State) :
  (exists r s', tryBody chat message s = (Val r, s')
                /\ iteration chat message s = (Val (Return r), s'))
  \/ (exists e s1, tryBody chat message s = (Exn e, s1)
                   /\ iteration chat message s = onError e s1).
Proof.
  destruct (tryBody_run chat message s) as (r & s1 & Hrun & Hfuel & _).
  unfold iteration, tryCatch, bind. rewrite Hrun.
  destruct r as [v|e|]; [left|right|congruence].
  - exists v, s1. split; reflexivity.
  - exists e, s1. split; reflexivity.
Qed.

Lemma onError_exn (error e : Js.Error) (s s' : State) :
  onError error s = (Exn e, s') -> e = error /\ Run.authClass e = true.
Proof.
  rewrite onError_run. cbv zeta.
  unfold Run.authClass, Run.rateClass, Run.errorText, Run.lastErrorOf.
  destruct (Js.includes _ "429" || _) eqn:Hrate; [discriminate|].
  destruct (Js.includes _ "403" || _) eqn:Hauth.
  - intros [= <- _]. now rewrite Hrate, Hauth.
  - destruct (maxAttempts <=? _)%nat; discriminate.
Qed.

Lemma sendLoop_exn (fuel : nat) (message : string) (s s' : State) (e : Js.Error) :
  sendLoop chat fuel message s = (Exn e, s') -> Run.authClass e = true.
Proof.
  revert s. induction fuel as [|fuel IH]; intros s; rewrite sendLoop_unfold;
    destruct (attempts s <? maxAttempts)%nat; try discriminate.
  destruct (iteration_cases message s) as [(r & s1 & _ & ->)|(e0 & s1 & _ & ->)].
  - discriminate.
  - destruct (onError e0 s1) as [[[v| |]|e1|] s2] eqn:Herr; try discriminate.
    + apply IH.
    + intros [= <- _]. now apply onError_exn in Herr.
Qed.

Lemma sendLoop_val_nonempty (fuel : nat) (message : string) (s s' : State)
  (r : string) :
  sendLoop chat fuel message s = (Val r, s') -> r <> EmptyString.
Proof.
  assert (Hgive : forall err, giveUpMessage err <> EmptyString) by discriminate.
  revert s. induction fuel as [|fuel IH]; intros s; rewrite sendLoop_unfold;
    destruct (attempts s <? maxAttempts)%nat;
    try discriminate; try (intros [= <- _]; apply Hgive).
  destruct (iteration_cases message s) as [(r0 & s1 & Htry & ->)|(e0 & s1 & _ & ->)].
  - intros [= <- _]. eapply tryBody_val_nonempty, Htry.
  - destruct (onError e0 s1) as [[[v| |]|e1|] s2] eqn:Herr; try discriminate.
    + rewrite onError_run in Herr. cbv zeta in Herr.
      destruct (Js.includes _ "429" || _); [discriminate|].
      destruct (Js.includes _ "403" || _); [discriminate|].
      destruct (maxAttempts <=? _)%nat; discriminate.
    + apply IH.
    + intros [= <- _]. apply Hgive.
Qed.

(** A pass whose request is turned down for rate: wait, count, go on. *)
Lemma sendLoop_rejected_rate (fuel : nat) (message : string) (s : State)
  (e : Js.Error) :
  (attempts s < maxAttempts)%nat ->
  chat (chatCalls s) = Rejected e ->
  Run.rateClass e = true ->
  sendLoop chat (S fuel) message s
  = sendLoop chat fuel message
      (mkState (S (attempts s)) (Run.lastErrorOf e) (functionResponseParts s)
         (S (chatCalls s)) (heap s)
         (trace s ++ [ChatSend (finalMessage (attempts s) message);
                      Wait ((Z.of_nat (attempts s) + 1) * 2000)])).
Proof.
  intros Hlt Hchat Hrate. rewrite sendLoop_unfold.
  destruct (Nat.ltb_spec (attempts s) maxAttempts) as [_|?]; [|lia].
  unfold iteration, tryCatch, bind.
  rewrite (tryBody_rejected chat message s e Hchat), onError_run. cbv zeta.
  unfold Run.rateClass, Run.errorText, Run.lastErrorOf in Hrate. rewrite Hrate.
  cbn [sent attempts lastError functionResponseParts chatCalls heap trace].
  now rewrite <- app_assoc.
Qed.

End RunFacts.



(** X2. What sendMessage returns is never the empty string: the answer of the
    model, the fixed success text, or the text that reports the last error. *)
Theorem sendMessage_never_returns_empty_string :
  forall (chat : nat -> Service.Outcome Service.Response) (fuel : nat)
         (message : string) (s : Service.State) (r : string),
    fst (Service.sendMessage chat fuel message s) = Val r -> r <> EmptyString.
Proof.
  intros chat fuel message [a le ps cc h tr] r.
  unfold Service.sendMessage. run_monad.
  destruct (Service.sendLoop chat fuel message _) as [r0 s'] eqn:Hrun. cbn [fst].
  intros ->. eapply sendLoop_val_nonempty, Hrun.
Qed.

Lemma sendMessage_never_returns_empty_string_witness :
  "Content generated successfully!" <> EmptyString.
Proof.
  exact (sendMessage_never_returns_empty_string
           (Sample.script [Sample.planned] Sample.nothing)
           3 "Write a novel" Service.init "Content generated successfully!" eq_refl).
Defined.

(** ** GeminiService: a response with function calls *)

(** X3. When the model answers a pass with a response that is neither
    malformed, blocked nor empty, sendMessage returns in that pass without
    counting an attempt.  The callbacks run in the order of the calls, each
    create_ebook call starting its background task; one function response is
    pushed per recognised call, in the same order; and these are sent back in
    one request, which is left out when no call was recognised. *)
Theorem function_calls_are_handled_in_order :
  forall (chat : nat -> Service.Outcome Service.Response) (fuel : nat)
         (message : string) (s : Service.State) (resp : Service.Response),
    (Service.attempts s < Service.maxAttempts)%nat ->
    chat (Service.chatCalls s) = Service.Resolved resp ->
    Run.usable resp = true ->
    let calls := Service.callList (Service.functionCalls resp) in
    let parts := flat_map Run.responseOf calls in
    let run := Service.sendLoop chat (S fuel) message s in
    (exists r, fst run = Val r)
    /\ Service.attempts (snd run) = Service.attempts s
    /\ Service.heap (snd run) = Service.heap s ++ Run.callObjects calls
    /\ Service.trace (snd run)
       = Service.trace s
         ++ Service.ChatSend (Service.finalMessage (Service.attempts s) message)
         :: Run.callEvents (length (Service.heap s)) calls
         ++ match parts with
            | [] => []
            | _ :: _ => [Service.ChatSendParts parts]
            end.
Proof.
  intros chat fuel message s resp Hlt Hchat Hus. cbv zeta.
  rewrite sendLoop_unfold.
  destruct (Nat.ltb_spec (Service.attempts s) Service.maxAttempts) as [_|?]; [|lia].
  unfold Service.iteration, tryCatch, bind.
  rewrite (tryBody_usable chat message s resp Hchat Hus). cbv zeta.
  destruct (flat_map Run.responseOf (Service.callList (Service.functionCalls resp)));
    cbn [fst snd Service.attempts Service.heap Service.trace ret];
    (split; [eexists; reflexivity|]); repeat split; reflexivity.
Qed.

Lemma function_calls_are_handled_in_order_witness :
  Service.trace
    (snd (Service.sendLoop
            (Sample.script [Sample.edits] (Sample.answer "Done."))
            1 "Fix chapter two" Service.init))
  = [Service.ChatSend "Fix chapter two";
     Service.MarketAnalyzed JNull;
     Service.ChapterEdited 1 "Night falls.";
     Service.ChatSendParts
       [Service.mkFunctionResponse "analyze_market" (inl "Success") None;
        Service.mkFunctionResponse "edit_chapter" (inl "Success") (Some "call-2")]].
Proof.
  exact (proj2 (proj2 (proj2
           (function_calls_are_handled_in_order
              (Sample.script [Sample.edits] (Sample.answer "Done."))
              0 "Fix chapter two" Service.init
              (Service.mkResponse (Some "STOP") None
                 (Some [Service.AnalyzeMarket JNull None;
                        Service.OtherCall "search" None;
                        Service.EditChapter 1 "Night falls." (Some "call-2")]))
              ltac:(vm_compute; lia) eq_refl eq_refl)))).
Defined.

(** X4. A failure of the request that sends the function responses back never
    reaches the caller and starts no retry, whatever the error, an invalid
    key included: sendMessage returns what it would return without that
    request, and the attempt counter stays as it was. *)
Theorem tool_acknowledgement_failure_is_swallowed :
  forall (chat : nat -> Service.Outcome Service.Response) (fuel : nat)
         (message : string) (s : Service.State) (resp : Service.Response)
         (e : Js.Error),
    (Service.attempts s < Service.maxAttempts)%nat ->
    chat (Service.chatCalls s) = Service.Resolved resp ->
    Run.usable resp = true ->
    chat (S (Service.chatCalls s)) = Service.Rejected e ->
    let run := Service.sendLoop chat (S fuel) message s in
    fst run = Val (Run.plainAnswer resp)
    /\ Service.attempts (snd run) = Service.attempts s
    /\ Service.lastError (snd run) = Service.lastError s
    /\ Service.sends (Service.trace (snd run)) = S (Service.sends (Service.trace s))
    /\ Run.totalWait (Service.trace (snd run)) = Run.totalWait (Service.trace s).
Proof.
  intros chat fuel message s resp e Hlt Hchat Hus Hack. cbv zeta.
  rewrite sendLoop_unfold.
  destruct (Nat.ltb_spec (Service.attempts s) Service.maxAttempts) as [_|?]; [|lia].
  unfold Service.iteration, tryCatch, bind.
  rewrite (tryBody_usable chat message s resp Hchat Hus). cbv zeta. rewrite Hack.
  assert (Hsends : forall r calls, Service.sends (Run.callEvents r calls) = 0%nat).
  { intros r calls. revert r.
    induction calls as [|[a i|d i|k c i|n i] calls IH]; intros r; cbn; auto. }
  assert (Hwait : forall r calls, Run.totalWait (Run.callEvents r calls) = 0).
  { intros r calls. revert r.
    induction calls as [|[a i|d i|k c i|n i] calls IH]; intros r; cbn; auto. }
  assert (Hw : forall l1 l2, Run.totalWait (l1 ++ l2)
                             = Run.totalWait l1 + Run.totalWait l2).
  { induction l1 as [|[] l1 IH]; intros l2; cbn; rewrite ?IH; lia. }
  destruct (flat_map Run.responseOf (Service.callList (Service.functionCalls resp)))
    as [|p ps];
    cbn [fst snd Service.attempts Service.lastError Service.trace ret];
    (split; [reflexivity|]); (split; [reflexivity|]); (split; [reflexivity|]);
    rewrite sends_app, Hw;
    change (Service.ChatSend ?m :: ?l) with ([Service.ChatSend m] ++ l);
    rewrite !sends_app, !Hw, Hsends, Hwait; cbn; split; lia.
Qed.

Lemma tool_acknowledgement_failure_is_swallowed_witness :
  fst (Service.sendLoop
         (Sample.script [Sample.planned; Service.Rejected Sample.forbidden]
                        (Sample.answer "Done."))
         1 "Write a novel" Service.init)
  = Val "Content generated successfully!".
Proof.
  exact (proj1
           (tool_acknowledgement_failure_is_swallowed
              (Sample.script [Sample.planned; Service.Rejected Sample.forbidden]
                             (Sample.answer "Done."))
              0 "Write a novel" Service.init
              (Service.mkResponse (Some "STOP") None
                 (Some [Service.CreateEbook Sample.plan (Some "call-1")]))
              Sample.forbidden
              ltac:(vm_compute; lia) eq_refl eq_refl eq_refl)).
Defined.

(** ** GeminiService: running out of attempts *)

(** X5. Three requests in a row turned down for rate: sendMessage waits 2000,
    4000 and 6000 ms, the last wait coming after its last request, then
    returns the text that reports the last error.  It has sent the message
    three times, the second and third time with the instruction appended. *)
Theorem rate_limit_exhaustion_waits_after_last_attempt :
  forall (chat : nat -> Service.Outcome Service.Response) (fuel : nat)
         (message : string) (s : Service.State) (e0 e1 e2 : Js.Error),
    chat (Service.chatCalls s) = Service.Rejected e0 ->
    chat (S (Service.chatCalls s)) = Service.Rejected e1 ->
    chat (S (S (Service.chatCalls s))) = Service.Rejected e2 ->
    Run.rateClass e0 = true -> Run.rateClass e1 = true -> Run.rateClass e2 = true ->
    Service.sendMessage chat (S (S (S fuel))) message s
    = (Val (Service.giveUpMessage (Run.lastErrorOf e2)),
       Service.mkState 3 (Run.lastErrorOf e2) (Service.functionResponseParts s)
         (S (S (S (Service.chatCalls s)))) (Service.heap s)
         (Service.trace s
          ++ [Service.ChatSend message; Service.Wait 2000;
              Service.ChatSend (message +:+ Service.retrySuffix); Service.Wait 4000;
              Service.ChatSend (message +:+ Service.retrySuffix); Service.Wait 6000])).
Proof.
  intros chat fuel message [a le ps cc h tr] e0 e1 e2 H0 H1 H2 R0 R1 R2.
  cbn [Service.chatCalls Service.functionResponseParts Service.heap Service.trace] in *.
  unfold Service.sendMessage. run_monad.
  rewrite (sendLoop_rejected_rate chat _ message _ e0) by
    (try exact H0; try exact R0; cbn; unfold Service.maxAttempts; lia).
  cbn [Service.attempts Service.lastError Service.functionResponseParts
       Service.chatCalls Service.heap Service.trace].
  rewrite (sendLoop_rejected_rate chat _ message _ e1) by
    (try exact H1; try exact R1; cbn; unfold Service.maxAttempts; lia).
  cbn [Service.attempts Service.lastError Service.functionResponseParts
       Service.chatCalls Service.heap Service.trace].
  rewrite (sendLoop_rejected_rate chat _ message _ e2) by
    (try exact H2; try exact R2; cbn; unfold Service.maxAttempts; lia).
  cbn [Service.attempts Service.lastError Service.functionResponseParts
       Service.chatCalls Service.heap Service.trace].
  rewrite sendLoop_unfold. cbn [Service.attempts Service.lastError].
  change (3 <? Service.maxAttempts)%nat with false. cbv iota.
  rewrite <- !app_assoc. reflexivity.
Qed.


Lemma rate_limit_exhaustion_waits_after_last_attempt_witness :
  Run.totalWait
    (Service.trace
       (snd (Service.sendMessage (Sample.script [] (Service.Rejected Sample.tooMany))
               3 "Write a novel" Service.init))) = 12000.
Proof.
  rewrite (rate_limit_exhaustion_waits_after_last_attempt
             (Sample.script [] (Service.Rejected Sample.tooMany))
             0 "Write a novel" Service.init
             Sample.tooMany Sample.tooMany Sample.tooMany
             eq_refl eq_refl eq_refl eq_refl eq_refl eq_refl).
  reflexivity.
Defined.


(** X7. Three generation requests in a row turned down for rate:
    generateChapterContent waits 2000, 4000 and 8000 ms, the last wait
    coming after its last request, and returns the placeholder for
    exhausted retries. *)
Theorem generation_exhaustion_waits_after_last_request :
  forall (gen : nat -> Service.Outcome (option string)) (fuel : nat)
         (book : EBook) (chapter : Chapter) (s : Service.GenState),
    Service.rateLimited (gen (Service.genCalls s)) = true ->
    Service.rateLimited (gen (S (Service.genCalls s))) = true ->
    Service.rateLimited (gen (S (S (Service.genCalls s)))) = true ->
    let p := Service.GenerateContent (Service.chapterPrompt book chapter) in
    Service.generateChapterContent gen (S (S (S fuel))) book chapter s
    = (Val (Service.failedAfterRetriesPlaceholder (ch_outline chapter)),
       Service.mkGenState 3 (S (S (S (Service.genCalls s))))
         (Service.g_trace s
          ++ [p; Service.Wait 2000; p; Service.Wait 4000; p; Service.Wait 8000])).
Proof.
  intros gen fuel book chapter [a c t] H0 H1 H2. cbv zeta.
  cbn [Service.genCalls Service.g_trace] in *.
  unfold Service.generateChapterContent, bind, Service.g_setAttempts, modify.
  cbn [Service.genCalls Service.g_trace Service.g_attempts].
  assert (Hstep : forall f n k tr,
            (n < 3)%nat ->
            Service.rateLimited (gen k) = true ->
            Service.generateLoop gen (S f) book chapter (Service.mkGenState n k tr)
            = Service.generateLoop gen f book chapter
                (Service.mkGenState (S n) (S k)
                   (tr ++ [Service.GenerateContent (Service.chapterPrompt book chapter);
                           Service.Wait (2 ^ Z.of_nat n * 2000)]))).
  { intros f n k tr Hn Hk. rewrite generateLoop_unfold.
    cbn [Service.g_attempts].
    destruct (Nat.ltb_spec n 3) as [_|?]; [|lia].
    rewrite generateIteration_run. cbn [Service.genCalls Service.g_attempts Service.g_trace].
    destruct (gen k) as [x|e]; cbn in Hk; [discriminate|]. rewrite Hk.
    now rewrite <- app_assoc. }
  rewrite !Hstep by (try assumption; lia).
  rewrite generateLoop_unfold. cbn [Service.g_attempts Nat.ltb Nat.leb].
  rewrite <- !app_assoc. reflexivity.
Qed.

Lemma generation_exhaustion_waits_after_last_request_witness :
  Run.totalWait
    (Service.g_trace
       (snd (Service.generateChapterContent
               (Sample.script [] (Service.Rejected Sample.busy))
               3 Sample.book Sample.draft Service.genInit))) = 14000.
Proof.
  rewrite (generation_exhaustion_waits_after_last_request
             (Sample.script [] (Service.Rejected Sample.busy))
             0 Sample.book Sample.draft Service.genInit eq_refl eq_refl eq_refl).
  reflexivity.
Defined.

(** ** GeminiService.generateImage *)

Lemma firstImage_run (parts : list ServiceImage.Part) (otherwise : M unit string) :
  (exists i part d,
      parts !! i = Some part
      /\ ServiceImage.inlineData part = Some d
      /\ ServiceImage.carriesData part = true
      /\ (forall j p, (j < i)%nat -> parts !! j = Some p ->
          ServiceImage.carriesData p = false)
      /\ ServiceImage.firstImage parts otherwise tt = (Val (ServiceImage.dataUri d), tt))
  \/ (Forall (fun p => ServiceImage.carriesData p = false) parts
      /\ ServiceImage.firstImage parts otherwise tt = otherwise tt).
Proof.
  induction parts as [|part parts IH].
  - right. split; [constructor | reflexivity].
  - cbn [ServiceImage.firstImage].
    destruct (ServiceImage.carriesData part) eqn:Hc.
    + left. unfold ServiceImage.carriesData in Hc.
      destruct (ServiceImage.inlineData part) as [d|] eqn:Hd; [|discriminate].
      exists 0%nat, part, d. rewrite Hc.
      repeat split; try reflexivity; try assumption.
      * unfold ServiceImage.carriesData. now rewrite Hd.
      * intros j p Hj. lia.
    + assert (Hskip : match ServiceImage.inlineData part with
                      | Some d =>
                          if Js.truthy (ServiceImage.data d)
                          then ret (ServiceImage.dataUri d)
                          else ServiceImage.firstImage parts otherwise
                      | None => ServiceImage.firstImage parts otherwise
                      end = ServiceImage.firstImage parts otherwise).
      { unfold ServiceImage.carriesData in Hc.
        destruct (ServiceImage.inlineData part) as [d|]; [now rewrite Hc | reflexivity]. }
      rewrite Hskip.
      destruct IH as [(i & p & d & Hlk & Hd & Hcd & Hbefore & Hrun)|[Hall Hrun]].
      * left. exists (S i), p, d. repeat split; try assumption.
        intros [|j] q Hj Hq; cbn in Hq.
        -- now injection Hq as <-.
        -- eapply Hbefore; [|exact Hq]. lia.
      * right. split; [now constructor | exact Hrun].
Qed.

Lemma generateImage_total
  (outcome : Service.Outcome (option (list ServiceImage.Part))) :
  fst (ServiceImage.generateImage outcome tt) <> Fuel.
Proof.
  destruct outcome as [[parts|]|e]; unfold ServiceImage.generateImage, tryCatch,
    bind, ServiceImage.await, ret, throw; cbn [fst]; try discriminate.
  destruct (firstImage_run parts (fun s => (Exn ServiceImage.noImageData, s)))
    as [(i & part & d & _ & _ & _ & _ & Hrun)|[_ Hrun]];
    rewrite Hrun; discriminate.
Qed.

(** X8. generateImage returns the data URI of the first part of the response
    that carries image data, skipping the parts before it; it throws
    'No image data found in response' when the response has no parts or none
    carries data; and it rethrows the error of a failed request as it is. *)
Theorem generateImage_returns_first_image :
  forall (outcome : Service.Outcome (option (list ServiceImage.Part))),
    match fst (ServiceImage.generateImage outcome tt) with
    | Val uri =>
        exists parts i part d,
          outcome = Service.Resolved (Some parts)
          /\ parts !! i = Some part
          /\ ServiceImage.inlineData part = Some d
          /\ Js.truthy (ServiceImage.data d) = true
          /\ (forall j p, (j < i)%nat -> parts !! j = Some p ->
              ServiceImage.carriesData p = false)
          /\ uri = "data:" +:+ Js.interpolate (ServiceImage.mimeType d)
                   +:+ ";base64," +:+ Js.interpolate (ServiceImage.data d)
    | Exn e =>
        outcome = Service.Rejected e
        \/ (e = Js.newError "No image data found in response"
            /\ (outcome = Service.Resolved None
                \/ exists parts,
                    outcome = Service.Resolved (Some parts)
                    /\ Forall (fun p => ServiceImage.carriesData p = false) parts))
    | Fuel => False
    end.
Proof.
  intros [[parts|]|e]; unfold ServiceImage.generateImage, tryCatch, bind,
    ServiceImage.await, ret, throw; cbn [fst].
  - destruct (firstImage_run parts (fun s => (Exn ServiceImage.noImageData, s)))
      as [(i & part & d & Hlk & Hd & Hc & Hbefore & Hrun)|[Hall Hrun]];
      rewrite Hrun; cbn [fst].
    + exists parts, i, part, d. repeat split; try assumption.
      unfold ServiceImage.carriesData in Hc. now rewrite Hd in Hc.
    + right. split; [reflexivity|]. right. now exists parts.
  - right. split; [reflexivity|]. now left.
  - now left.
Qed.

Lemma generateImage_returns_first_image_witness :
  exists parts i part d,
    Service.Resolved (Some Sample.imageParts) = Service.Resolved (Some parts)
    /\ parts !! i = Some part
    /\ ServiceImage.inlineData part = Some d
    /\ Js.truthy (ServiceImage.data d) = true
    /\ (forall j p, (j < i)%nat -> parts !! j = Some p ->
        ServiceImage.carriesData p = false)
    /\ "data:image/png;base64,iVBORw0KGgo="
       = "data:" +:+ Js.interpolate (ServiceImage.mimeType d)
         +:+ ";base64," +:+ Js.interpolate (ServiceImage.data d).
Proof.
  exact (generateImage_returns_first_image
           (Service.Resolved (Some Sample.imageParts))).
Defined.

(** ** App: chapter images *)

Section ImageFacts.
Import App Shell.

Lemma setImage_Some (i : Z) (u : string) (b : EBook) :
  setImage i u (Some b)
  = Some (mkEBook (bk_title b) (bk_author b) (bk_description b) (bk_theme b)
            (bk_format b)
            (match at_ (bk_chapters b) i with
             | Some ch => <[Z.to_nat i := withImageUrl ch u]> (bk_chapters b)
             | None => bk_chapters b
             end)).
Proof. reflexivity. Qed.

Lemma editChapter_Some (i : Z) (c : string) (b : EBook) :
  editChapter i c (Some b)
  = Some (mkEBook (bk_title b) (bk_author b) (bk_description b) (bk_theme b)
            (bk_format b)
            (match at_ (bk_chapters b) i with
             | Some ch => <[Z.to_nat i := withContent ch c]> (bk_chapters b)
             | None => bk_chapters b
             end)).
Proof. reflexivity. Qed.

(** Reading an array after one of its items was replaced. *)
Lemma at_insert {A} (l : list A) (i j : Z) (x y : A) :
  at_ l i = Some y ->
  at_ (<[Z.to_nat i := x]> l) j = if (j =? i)%Z then Some x else at_ l j.
Proof.
  intros Hi. apply at_Some in Hi as [Hi0 Hlk].
  unfold at_. destruct (Z.ltb_spec j 0).
  - destruct (Z.eqb_spec j i); [lia | reflexivity].
  - destruct (Z.eqb_spec j i) as [->|Hne].
    + apply list_lookup_insert_eq. now apply lookup_lt_Some in Hlk.
    + apply list_lookup_insert_ne. lia.
Qed.
End ImageFacts.

(** X9. Setting the image of a chapter and editing the content of a chapter can
    be done in either order, on the same chapter or on different ones: the
    book is the same.  So a content that arrives from the background task
    keeps an image generated meanwhile, and the other way round. *)
Theorem image_and_content_updates_commute :
  forall (i j : Z) (content imageUrl : string) (prev : option EBook),
    App.editChapter i content (Shell.setImage j imageUrl prev)
    = Shell.setImage j imageUrl (App.editChapter i content prev).
Proof.
  intros i j c u [b|]; [|reflexivity].
  rewrite (setImage_Some j u b), (editChapter_Some i c b).
  rewrite setImage_Some, editChapter_Some.
  cbn [bk_title bk_author bk_description bk_theme bk_format bk_chapters].
  f_equal. f_equal.
  destruct (App.at_ (bk_chapters b) j) as [chj|] eqn:Hj;
    destruct (App.at_ (bk_chapters b) i) as [chi|] eqn:Hi.
  - rewrite (at_insert _ j i _ chj Hj), (at_insert _ i j _ chi Hi).
    destruct (Z.eqb_spec i j) as [->|Hne].
    + rewrite Z.eqb_refl. rewrite Hi in Hj. injection Hj as ->.
      rewrite !list_insert_insert_eq. reflexivity.
    + destruct (Z.eqb_spec j i) as [->|_]; [congruence|].
      rewrite Hi, Hj. apply at_Some in Hi as [Hi0 _]. apply at_Some in Hj as [Hj0 _].
      apply list_insert_insert_ne. lia.
  - rewrite ?Hi, ?Hj. apply at_None in Hi.
    assert (App.at_ (<[Z.to_nat j := Shell.withImageUrl chj u]> (bk_chapters b)) i = None)
      as ->; [|reflexivity].
    apply at_None. rewrite length_insert. exact Hi.
  - rewrite ?Hi, ?Hj. apply at_None in Hj.
    assert (App.at_ (<[Z.to_nat i := App.withContent chi c]> (bk_chapters b)) j = None)
      as ->; [|reflexivity].
    apply at_None. rewrite length_insert. exact Hj.
  - now rewrite ?Hi, ?Hj.
Qed.

(** X10. Two content edits of one chapter: the later one wins.  Content edits of
    two different chapters can be done in either order. *)
Theorem content_edits_last_write_wins :
  forall (i j : Z) (first second : string) (prev : option EBook),
    App.editChapter i second (App.editChapter i first prev)
    = App.editChapter i second prev
    /\ (i <> j ->
        App.editChapter i first (App.editChapter j second prev)
        = App.editChapter j second (App.editChapter i first prev)).
Proof.
  intros i j c1 c2 [b|]; [|split; reflexivity].
  split.
  - rewrite (editChapter_Some i c1 b), editChapter_Some, editChapter_Some.
    cbn [bk_title bk_author bk_description bk_theme bk_format bk_chapters].
    f_equal. f_equal.
    destruct (App.at_ (bk_chapters b) i) as [ch|] eqn:Hi.
    + rewrite (at_insert _ i i _ ch Hi), Z.eqb_refl.
      now rewrite list_insert_insert_eq.
    + now rewrite Hi.
  - intros Hne.
    rewrite (editChapter_Some j c2 b), (editChapter_Some i c1 b).
    rewrite !editChapter_Some.
    cbn [bk_title bk_author bk_description bk_theme bk_format bk_chapters].
    f_equal. f_equal.
    destruct (App.at_ (bk_chapters b) j) as [chj|] eqn:Hj;
      destruct (App.at_ (bk_chapters b) i) as [chi|] eqn:Hi.
    + rewrite (at_insert _ j i _ chj Hj), (at_insert _ i j _ chi Hi).
      destruct (Z.eqb_spec i j) as [?|_]; [congruence|].
      destruct (Z.eqb_spec j i) as [?|_]; [congruence|].
      rewrite Hi, Hj. apply at_Some in Hi as [Hi0 _]. apply at_Some in Hj as [Hj0 _].
      apply list_insert_insert_ne. lia.
    + rewrite ?Hi, ?Hj. apply at_None in Hi.
      assert (App.at_ (<[Z.to_nat j := App.withContent chj c2]> (bk_chapters b)) i
              = None) as ->; [|reflexivity].
      apply at_None. rewrite length_insert. exact Hi.
    + rewrite ?Hi, ?Hj. apply at_None in Hj.
      assert (App.at_ (<[Z.to_nat i := App.withContent chi c1]> (bk_chapters b)) j
              = None) as ->; [|reflexivity].
      apply at_None. rewrite length_insert. exact Hj.
    + now rewrite ?Hi, ?Hj.
Qed.

Lemma content_edits_last_write_wins_witness :
  App.editChapter 0 "Morning." (App.editChapter 1 "Night." (Some Sample.book))
  = App.editChapter 1 "Night." (App.editChapter 0 "Morning." (Some Sample.book)).
Proof.
  apply (proj2 (content_edits_last_write_wins 0 1 "Morning." "Night."
                  (Some Sample.book))).
  lia.
Defined.

(** X11. handleGenerateImage touches nothing but the book.  When the service is
    missing or the image request fails it throws and leaves the book as it
    was; when an image comes back it returns its URL and sets it as the
    image of chapter [chapterIndex] only: every other chapter, and the title,
    image keyword, content and outline of that chapter, stay as they were,
    and an index out of bounds changes nothing. *)
Theorem generated_image_changes_only_image_url :
  forall (service : bool)
         (outcome : Service.Outcome (option (list ServiceImage.Part)))
         (chapterIndex : Z) (s : App.State),
    let r := fst (Shell.handleGenerateImage service outcome chapterIndex s) in
    let s' := snd (Shell.handleGenerateImage service outcome chapterIndex s) in
    App.messages s' = App.messages s
    /\ App.marketData s' = App.marketData s
    /\ App.savedProjects s' = App.savedProjects s
    /\ App.currentMode s' = App.currentMode s
    /\ r <> Fuel
    /\ (forall e, r = Exn e -> s' = s)
    /\ (service = false -> r = Exn (Js.newError "AI Service not ready"))
    /\ (forall imageUrl, r = Val imageUrl ->
        fst (ServiceImage.generateImage outcome tt) = Val imageUrl
        /\ (App.generatedBook s = None -> App.generatedBook s' = None)
        /\ forall book, App.generatedBook s = Some book ->
           exists book',
             App.generatedBook s' = Some book'
             /\ bk_title book' = bk_title book
             /\ bk_author book' = bk_author book
             /\ bk_description book' = bk_description book
             /\ bk_theme book' = bk_theme book
             /\ bk_format book' = bk_format book
             /\ length (bk_chapters book') = length (bk_chapters book)
             /\ (forall j : Z, j <> chapterIndex ->
                 App.at_ (bk_chapters book') j = App.at_ (bk_chapters book) j)
             /\ (forall ch, App.at_ (bk_chapters book) chapterIndex = Some ch ->
                 App.at_ (bk_chapters book') chapterIndex
                 = Some (mkChapter (ch_title ch) (ch_outline ch) (ch_imageKeyword ch)
                           (ch_content ch) (Some imageUrl)))
             /\ (App.at_ (bk_chapters book) chapterIndex = None -> book' = book)).
Proof.
  intros service outcome i [ms gb md sps mode]. cbv zeta.
  unfold Shell.handleGenerateImage.
  destruct service; cbn [negb].
  2:{ cbn. repeat split; try reflexivity; try discriminate. }
  pose proof (generateImage_total outcome) as Hgen.
  destruct (fst (ServiceImage.generateImage outcome tt)) as [url|e|]; [| |congruence].
  2:{ cbn. repeat split; try reflexivity; try discriminate. }
  cbn [fst snd App.setGeneratedBook App.messages App.generatedBook App.marketData
       App.savedProjects App.currentMode].
  repeat (split; [first [reflexivity | discriminate]|]).
  intros url' [= <-]. split; [reflexivity|]. split; [now intros ->|].
  intros book ->. rewrite setImage_Some. eexists. split; [reflexivity|].
  cbn [bk_title bk_author bk_description bk_theme bk_format bk_chapters].
  repeat (split; [reflexivity|]).
  destruct (App.at_ (bk_chapters book) i) as [ch|] eqn:Hi.
  - split; [apply length_insert|]. split.
    + intros j Hj. rewrite (at_insert _ i j _ ch Hi).
      destruct (Z.eqb_spec j i); [contradiction | reflexivity].
    + split; [|discriminate]. intros ch0 [= <-].
      rewrite (at_insert _ i i _ ch Hi), Z.eqb_refl. reflexivity.
  - split; [reflexivity|]. split; [reflexivity|]. split; [discriminate|].
    intros _. now destruct book.
Qed.

Lemma generated_image_changes_only_image_url_witness :
  App.generatedBook
    (snd (Shell.handleGenerateImage true (Service.Rejected Sample.busy) 0
            Sample.appState))
  = Some Sample.book.
Proof.
  destruct (generated_image_changes_only_image_url true (Service.Rejected Sample.busy)
              0 Sample.appState) as (_ & _ & _ & _ & _ & Hexn & _).
  rewrite (Hexn Sample.busy eq_refl). reflexivity.
Defined.

(** ** App: the project library *)

(** X12. onDeleteProject removes every saved project with the given id and keeps
    the others in their order; nothing else of the state changes, and an id
    that no project has changes nothing at all. *)
Theorem delete_removes_exactly_the_id :
  forall (id : string) (s : App.State),
    let s' := Shell.onDeleteProject id s in
    Forall (fun p => sp_id p <> id) (App.savedProjects s')
    /\ (forall p, In p (App.savedProjects s) -> sp_id p <> id ->
        In p (App.savedProjects s'))
    /\ sublist (App.savedProjects s') (App.savedProjects s)
    /\ App.messages s' = App.messages s
    /\ App.generatedBook s' = App.generatedBook s
    /\ App.marketData s' = App.marketData s
    /\ App.currentMode s' = App.currentMode s
    /\ (Forall (fun p => sp_id p <> id) (App.savedProjects s) -> s' = s).
Proof.
  intros id [ms gb md sps mode]. cbv zeta. unfold Shell.onDeleteProject.
  cbn [App.setSavedProjects App.savedProjects App.messages App.generatedBook
       App.marketData App.currentMode].
  assert (Hkeep : forall p, negb (String.eqb (sp_id p) id) = true <-> sp_id p <> id).
  { intros p. destruct (String.eqb_spec (sp_id p) id); cbn; split; congruence. }
  split.
  { apply List.Forall_forall. intros p Hp. apply List.filter_In in Hp as [_ Hp].
    now apply Hkeep. }
  split.
  { intros p Hp Hne. apply List.filter_In. split; [exact Hp | now apply Hkeep]. }
  split.
  { induction sps as [|p sps IH]; cbn [List.filter]; [constructor|].
    destruct (negb (String.eqb (sp_id p) id)); now constructor. }
  repeat (split; [reflexivity|]).
  intros Hall. unfold App.setSavedProjects.
  cbn [App.savedProjects App.messages App.generatedBook App.marketData
       App.currentMode].
  f_equal.
  induction Hall as [|p sps Hp Hall IH]; cbn [List.filter]; [reflexivity|].
  apply Hkeep in Hp. rewrite Hp. now f_equal.
Qed.

Lemma delete_removes_exactly_the_id_witness :
  Shell.onDeleteProject "none" Sample.appState = Sample.appState.
Proof.
  apply (delete_removes_exactly_the_id "none" Sample.appState). constructor.
Defined.

(** X13. The id of a saved project is the clock reading of the save.  Deleting
    the project just saved gives back the list of projects as it was before
    the save when no older project has that id; and two projects saved at
    the same clock reading share their id and are deleted together. *)
Theorem save_then_delete :
  forall (now : Z) (s : App.State) (book : EBook),
    App.generatedBook s = Some book ->
    let saved := App.handleSaveProject now s in
    (exists p, App.savedProjects saved = p :: App.savedProjects s
               /\ sp_id p = pretty now /\ sp_createdAt p = now
               /\ sp_name p = bk_title book)
    /\ (Forall (fun p => sp_id p <> pretty now) (App.savedProjects s) ->
        App.savedProjects (Shell.onDeleteProject (pretty now) saved)
        = App.savedProjects s)
    /\ App.savedProjects
         (Shell.onDeleteProject (pretty now) (App.handleSaveProject now saved))
       = App.savedProjects (Shell.onDeleteProject (pretty now) s).
Proof.
  intros now [ms gb md sps mode] book Hb. cbn in Hb. subst gb. cbv zeta.
  unfold App.handleSaveProject, Shell.onDeleteProject.
  cbn [App.generatedBook App.setSavedProjects App.setMessages App.savedProjects
       App.messages App.marketData App.currentMode].
  split; [eexists; repeat split|].
  cbn [List.filter sp_id]. rewrite String.eqb_refl. cbn [negb].
  split; [|reflexivity].
  intros Hall. induction Hall as [|p sps Hp Hall IH]; cbn [List.filter];
    [reflexivity|].
  destruct (String.eqb_spec (sp_id p) (pretty now)); [contradiction|].
  cbn [negb]. now f_equal.
Qed.

Lemma save_then_delete_witness :
  App.savedProjects
    (Shell.onDeleteProject (pretty 42)
       (App.handleSaveProject 42 Sample.appState)) = [].
Proof.
  apply (proj1 (proj2 (save_then_delete 42 Sample.appState Sample.book eq_refl))).
  constructor.
Defined.

(** X14. What a reload finds is stable: serializing and parsing it again gives
    the same list.  The first reload keeps the number of projects, their
    ids, names, creation times, books and market data. *)
Theorem reloaded_projects_are_stable :
  forall (projects : list SavedProject),
  exists stored,
    Persist.parse (Persist.stringify projects) = Some stored
    /\ Persist.parse (Persist.stringify stored) = Some stored
    /\ length stored = length projects
    /\ map sp_id stored = map sp_id projects
    /\ map sp_name stored = map sp_name projects
    /\ map sp_createdAt stored = map sp_createdAt projects
    /\ map sp_book stored = map sp_book projects
    /\ map sp_marketData stored = map sp_marketData projects.
Proof.
  intros projects. exists (map Persist.storedProject projects).
  split; [apply parse_stringify|]. split.
  - rewrite parse_stringify. f_equal. rewrite List.map_map.
    apply List.map_ext. intros [i n b ms md t]. unfold Persist.storedProject.
    cbn [sp_id sp_name sp_book sp_messages sp_marketData sp_createdAt].
    f_equal. rewrite List.map_map. apply List.map_ext.
    intros [mi mt snd [ms'|iso] th]; reflexivity.
  - split; [apply length_map|].
    repeat split; rewrite List.map_map; apply List.map_ext; now intros [].
Qed.

(** ** App: sending a message *)

Section SendFacts.

Lemma toLowerCase_app (a b : string) :
  Js.toLowerCase (a +:+ b) = Js.toLowerCase a +:+ Js.toLowerCase b.
Proof.
  induction a as [|c a IH]; [reflexivity|].
  change (String (Js.lowerAscii c) (Js.toLowerCase (a +:+ b))
          = String (Js.lowerAscii c) (Js.toLowerCase a +:+ Js.toLowerCase b)).
  now rewrite IH.
Qed.

Lemma includes_app_r (a b p : string) :
  Js.includes b p = true -> Js.includes (a +:+ b) p = true.
Proof.
  intros Hb. induction a as [|c a IH]; [exact Hb|].
  change (String.prefix p (String c (a +:+ b)) || Js.includes (a +:+ b) p = true).
  rewrite IH. apply orb_true_r.
Qed.

(** The service reads [error.message || error.toString()], the shell
    [error.toString()]: what the first holds, the second holds too. *)
Lemma includes_toString (e : Js.Error) (p : string) :
  Js.includes (Run.errorText e) p = true ->
  Js.includes (Js.toLowerCase (Js.toString e)) p = true.
Proof.
  unfold Run.errorText, Run.lastErrorOf, Js.orElse, Js.toString.
  destruct (Js.isEmpty (Js.message e)) eqn:Hm; [trivial|].
  destruct (Js.isEmpty (Js.name e)); [trivial|].
  intros H. rewrite !toLowerCase_app. now apply includes_app_r, includes_app_r.
Qed.

Lemma describeError_key (e : Js.Error) :
  Run.authClass e = true ->
  Shell.describeError e
  = ("Invalid API Key. Please click 'API Configuration' to update it.", true).
Proof.
  unfold Run.authClass. intros [_ H]%andb_prop.
  unfold Shell.describeError. cbv zeta.
  apply orb_prop in H as [H|H]; apply includes_toString in H; rewrite H;
    [reflexivity|]. now rewrite orb_true_r.
Qed.

Lemma sendMessage_run (chat : nat -> Service.Outcome Service.Response)
  (fuel : nat) (message : string) (s : Service.State) :
  exists r s' evs,
    Service.sendMessage chat fuel message s = (r, s')
    /\ Service.trace s' = Service.trace s ++ evs
    /\ ((3 <= fuel)%nat -> r <> Fuel)
    /\ (forall e, r = Exn e -> Run.authClass e = true)
    /\ (forall v, r = Val v -> v <> EmptyString).
Proof.
  destruct s as [a le ps cc h tr].
  unfold Service.sendMessage. run_monad.
  destruct (sendLoop_run chat fuel message (Service.mkState 0 EmptyString ps cc h tr)
              ltac:(cbn; unfold Service.maxAttempts; lia))
    as (r & s' & evs & Hrun & Htr & _ & Hfuel).
  exists r, s', evs. split; [exact Hrun|]. split; [exact Htr|].
  split; [intros Hf; apply Hfuel; cbn; unfold Service.maxAttempts; lia|].
  split.
  - intros e ->. eapply sendLoop_exn, Hrun.
  - intros v ->. eapply sendLoop_val_nonempty, Hrun.
Qed.

Lemma callback_messages (clock : nat -> Z) (ev : Service.Event)
  (acc : App.State * bool * nat) :
  exists mid,
    App.messages (fst (fst (Shell.callback clock acc ev)))
    = App.messages (fst (fst acc)) ++ mid
    /\ Forall (fun m => msg_sender m = AI) mid.
Proof.
  destruct acc as [[[ms gb md sps mode] taken] k].
  destruct ev; cbn [Shell.callback fst];
    try (exists []; rewrite app_nil_r; split; [reflexivity | constructor]);
    eexists [_]; (split; [reflexivity | repeat constructor]).
Qed.

Lemma runCallbacks_messages (clock : nat -> Z) (evs : list Service.Event)
  (acc : App.State * bool * nat) :
  exists mid,
    App.messages (fst (fst (Shell.runCallbacks clock evs acc)))
    = App.messages (fst (fst acc)) ++ mid
    /\ Forall (fun m => msg_sender m = AI) mid.
Proof.
  unfold Shell.runCallbacks. revert acc.
  induction evs as [|ev evs IH]; intros acc; cbn [fold_left].
  - exists []. rewrite app_nil_r. split; [reflexivity | constructor].
  - destruct (IH (Shell.callback clock acc ev)) as (mid2 & -> & H2).
    destruct (callback_messages clock ev acc) as (mid1 & -> & H1).
    exists (mid1 ++ mid2). rewrite app_assoc. split; [reflexivity|].
    now apply Forall_app.
Qed.

End SendFacts.

Lemma handleSendMessage_run :
  forall (clock : nat -> Z) (chat : nat -> Service.Outcome Service.Response)
         (fuel : nat) (text : string) (s : Shell.State) (key : string)
         (svc : Service.State),
    Js.isEmpty (Js.trim text) = false ->
    Js.isEmpty (Shell.apiKey s) = false ->
    Shell.service s = Some (key, svc) ->
    (3 <= fuel)%nat ->
    exists s' mid final,
      Shell.handleSendMessage clock chat fuel text s = Some s'
      /\ App.messages (Shell.app s')
         = App.messages (Shell.app s)
           ++ mkMessage (pretty (clock O)) text USER (DateObj (clock O)) None
              :: mid ++ [final]
      /\ Forall (fun m => msg_sender m = AI) (mid ++ [final])
      /\ Shell.isLoading s' = false
      /\ Shell.inputValue s' = EmptyString
      /\ Shell.apiKey s' = Shell.apiKey s
      /\ Shell.storedKey s' = Shell.storedKey s
      /\ Shell.service s'
         = Some (key, snd (Service.sendMessage chat fuel text svc))
      /\ match fst (Service.sendMessage chat fuel text svc) with
         | Val response =>
             msg_text final = response
             /\ Shell.isKeyModalOpen s' = Shell.isKeyModalOpen s
         | Exn _ =>
             msg_text final
             = "**System Error:** Invalid API Key. Please click 'API Configuration' to update it."
             /\ Shell.isKeyModalOpen s' = true
         | Fuel => False
         end.
Proof.
  intros clock chat fuel text [a k o sv st iv il] key svc Htext Hkey Hsvc Hfuel.
  cbn [Shell.apiKey Shell.service Shell.app Shell.isKeyModalOpen Shell.storedKey]
    in *. subst sv.
  unfold Shell.handleSendMessage. rewrite Htext.
  cbn [Shell.apiKey Shell.service Shell.app Shell.isKeyModalOpen Shell.storedKey
       Shell.inputValue Shell.isLoading].
  rewrite Hkey.
  destruct (sendMessage_run chat fuel text svc)
    as (r & svc' & evs & Hrun & Htr & Hnofuel & Hexn & Hval).
  rewrite Hrun, Htr, drop_app_length. cbn [fst snd].
  destruct (runCallbacks_messages clock evs
              (App.setMessages
                 (fun prev =>
                    prev ++ [mkMessage (pretty (clock O)) text USER
                               (DateObj (clock O)) None]) a, false, 1%nat))
    as (mid & Hmid & HAI).
  destruct (Shell.runCallbacks clock evs _) as [[a' taken] n].
  cbn [fst App.setMessages App.messages] in Hmid.
  destruct r as [v|e|]; [| |now specialize (Hnofuel Hfuel)].
  - specialize (Hval v eq_refl).
    assert (Hv : Js.isEmpty v = false) by now destruct v.
    rewrite Hv. cbn [andb].
    eexists _, mid, _. split; [reflexivity|].
    cbn [Shell.app Shell.withApp Shell.isLoading Shell.inputValue Shell.apiKey
         Shell.storedKey Shell.service Shell.isKeyModalOpen App.setMessages
         App.messages].
    rewrite Hmid, <- !app_assoc. cbn [app].
    split; [reflexivity|].
    split; [apply Forall_app; split; [exact HAI | repeat constructor]|].
    repeat split; reflexivity.
  - specialize (Hexn e eq_refl).
    unfold Shell.onSendError. rewrite (describeError_key e Hexn).
    eexists _, mid, _. split; [reflexivity|].
    cbn [Shell.app Shell.withApp Shell.isLoading Shell.inputValue Shell.apiKey
         Shell.storedKey Shell.service Shell.isKeyModalOpen App.setMessages
         App.messages Shell.setIsKeyModalOpen].
    rewrite Hmid, <- !app_assoc. cbn [app].
    split; [reflexivity|].
    split; [apply Forall_app; split; [exact HAI | repeat constructor]|].
    repeat split; reflexivity.
Qed.

Lemma trim_nonblank (c : ascii) (s : string) :
  (forall r, Js.whiteSpaceWidth (String c r) = 0%nat) ->
  Js.isEmpty (Js.trim (String c s)) = false.
Proof.
  intros Hc. unfold Js.trim.
  assert (Hstart : Js.trimStart (String c s) = String c s).
  { cbn [Js.trimStart]. now rewrite Hc. }
  rewrite Hstart. cbn [Js.trimEnd Js.allWhiteSpace]. now rewrite Hc.
Qed.

Lemma letter_A_is_no_white_space (r : string) :
  Js.whiteSpaceWidth (String "A" r) = 0%nat.
Proof. destruct r as [|c2 [|c3 r]]; reflexivity. Qed.




(** X16. A blank text, or a missing key, stops handleSendMessage before anything
    is sent: no message is added, the service object, the input line and the
    loading flag stay as they were.  A blank text changes nothing at all; a
    missing key with a non-blank text opens the key dialog. *)
Theorem blank_text_or_missing_key_sends_nothing :
  forall (clock : nat -> Z) (chat : nat -> Service.Outcome Service.Response)
         (fuel : nat) (text : string) (s : Shell.State),
    Js.isEmpty (Js.trim text) = true \/ Js.isEmpty (Shell.apiKey s) = true ->
    exists s',
      Shell.handleSendMessage clock chat fuel text s = Some s'
      /\ Shell.app s' = Shell.app s
      /\ Shell.service s' = Shell.service s
      /\ Shell.inputValue s' = Shell.inputValue s
      /\ Shell.isLoading s' = Shell.isLoading s
      /\ Shell.apiKey s' = Shell.apiKey s
      /\ (Js.isEmpty (Js.trim text) = true -> s' = s)
      /\ (Js.isEmpty (Js.trim text) = false -> Shell.isKeyModalOpen s' = true).
Proof.
  intros clock chat fuel text s H. unfold Shell.handleSendMessage.
  destruct (Js.isEmpty (Js.trim text)) eqn:Htext.
  - exists s. repeat split; try reflexivity. discriminate.
  - destruct H as [H|H]; [discriminate|]. rewrite H.
    exists (Shell.setIsKeyModalOpen true s).
    repeat split; try reflexivity. discriminate.
Qed.

Lemma blank_text_or_missing_key_sends_nothing_witness :
  Shell.handleSendMessage Sample.clock (Sample.script [] (Sample.answer "Done."))
    3 (Sample.nbsp +:+ "  ") Sample.shell = Some Sample.shell.
Proof.
  destruct (blank_text_or_missing_key_sends_nothing Sample.clock
              (Sample.script [] (Sample.answer "Done.")) 3
              (Sample.nbsp +:+ "  ") Sample.shell (or_introl eq_refl))
    as (s' & Hrun & _ & _ & _ & _ & _ & Hsame & _).
  rewrite Hrun, (Hsame eq_refl). reflexivity.
Defined.

(** X17. The prompts the shell builds itself always pass the blank-text guard:
    with a key and a service object, handleAnalyzeTopic sends
    'Analyze the market for: ' followed by the topic whatever the topic is,
    also a blank one, and handleTemplateClick sends the prompt of the
    template; the guard on the topic is the one of handleSearch, which
    leaves the topic line and the shell alone when the topic is blank. *)
Theorem built_prompts_are_always_sent :
  forall (clock : nat -> Z) (chat : nat -> Service.Outcome Service.Response)
         (fuel : nat) (s : Shell.State) (key : string) (svc : Service.State),
    Js.isEmpty (Shell.apiKey s) = false ->
    Shell.service s = Some (key, svc) ->
    (3 <= fuel)%nat ->
    (forall topic, exists s' rest,
        Shell.handleAnalyzeTopic clock chat fuel topic s = Some s'
        /\ App.messages (Shell.app s')
           = App.messages (Shell.app s)
             ++ mkMessage (pretty (clock O)) ("Analyze the market for: " +:+ topic)
                  USER (DateObj (clock O)) None :: rest)
    /\ (forall type, exists s' rest,
        Shell.handleTemplateClick clock chat fuel type s = Some s'
        /\ App.messages (Shell.app s')
           = App.messages (Shell.app s)
             ++ mkMessage (pretty (clock O)) (Shell.templatePrompt type)
                  USER (DateObj (clock O)) None :: rest)
    /\ (forall topicInput, Js.isEmpty (Js.trim topicInput) = true ->
        Shell.handleSearch clock chat fuel topicInput s = Some (topicInput, s)).
Proof.
  intros clock chat fuel s key svc Hkey Hsvc Hfuel. split; [|split].
  - intros topic. unfold Shell.handleAnalyzeTopic.
    destruct (handleSendMessage_run clock chat fuel
                ("Analyze the market for: " +:+ topic)
                (Shell.withApp (App.setCurrentMode ModeChat (Shell.app s)) s)
                key svc
                (trim_nonblank "A" ("nalyze the market for: " +:+ topic)
                   letter_A_is_no_white_space)
                Hkey Hsvc Hfuel)
      as (s' & mid & final & Hrun & Hms & _).
    exists s', (mid ++ [final]). split; [exact Hrun | exact Hms].
  - intros type. unfold Shell.handleTemplateClick.
    destruct (handleSendMessage_run clock chat fuel (Shell.templatePrompt type)
                s key svc ltac:(now destruct type) Hkey Hsvc Hfuel)
      as (s' & mid & final & Hrun & Hms & _).
    exists s', (mid ++ [final]). split; [exact Hrun | exact Hms].
  - intros topicInput Hblank. unfold Shell.handleSearch. now rewrite Hblank.
Qed.

Lemma built_prompts_are_always_sent_witness :
  exists s' rest,
    Shell.handleAnalyzeTopic Sample.clock
      (Sample.script [] (Sample.answer "Done.")) 3 " " Sample.shell = Some s'
    /\ App.messages (Shell.app s')
       = App.messages (Shell.app Sample.shell)
         ++ mkMessage (pretty (Sample.clock O)) ("Analyze the market for: " +:+ " ")
              USER (DateObj (Sample.clock O)) None :: rest.
Proof.
  exact (proj1 (built_prompts_are_always_sent Sample.clock
                  (Sample.script [] (Sample.answer "Done.")) 3 Sample.shell
                  "AIza-sample" Service.init eq_refl eq_refl ltac:(lia)) " ").
Defined.

(** ** App: the key *)

(** X18. When the two statements of the key effect run through, a key that
    is set is also the stored key and the key the service object was built
    with: this holds when the application is mounted and is kept by saving a
    key in the dialog and by sending a message.  When the construction of
    the service object throws, a new key is set while the service object and
    the stored key stay as they were, and a mount leaves no service object;
    when the writing to the storage throws, the service object is the new
    one and the stored key stays as it was. *)
Theorem key_is_stored_and_served :
  forall (a : App.State) (stored : option string) (env : string),
    Shell.keyServed (Shell.mount Shell.Done a stored env)
    /\ (forall key s,
        Shell.keyServed s -> Shell.keyServed (Shell.onSave Shell.Done key s))
    /\ (forall clock chat fuel text s s',
        Shell.keyServed s ->
        Shell.handleSendMessage clock chat fuel text s = Some s' ->
        Shell.keyServed s')
    /\ Shell.service (Shell.mount Shell.NoService a stored env) = None
    /\ Shell.storedKey (Shell.mount Shell.NoService a stored env) = stored
    /\ Shell.storedKey (Shell.mount Shell.NotStored a stored env) = stored
    /\ (forall key s,
        Js.isEmpty key = false -> key <> Shell.apiKey s ->
        Shell.apiKey (Shell.onSave Shell.NoService key s) = key
        /\ Shell.service (Shell.onSave Shell.NoService key s) = Shell.service s
        /\ Shell.storedKey (Shell.onSave Shell.NoService key s) = Shell.storedKey s)
    /\ (forall key s,
        Js.isEmpty key = false -> key <> Shell.apiKey s ->
        Shell.apiKey (Shell.onSave Shell.NotStored key s) = key
        /\ Shell.service (Shell.onSave Shell.NotStored key s)
           = Some (key, Service.init)
        /\ Shell.storedKey (Shell.onSave Shell.NotStored key s) = Shell.storedKey s).
Proof.
  intros a stored env. split; [|split; [|split]].
  - unfold Shell.keyServed, Shell.mount, Shell.keyEffect.
    cbn [Shell.apiKey]. destruct (Js.isEmpty (Js.optOrElse stored env)) eqn:He;
      cbn [negb Shell.setIsKeyModalOpen Shell.apiKey Shell.storedKey Shell.service].
    + congruence.
    + intros _. split; [reflexivity | eauto].
  - intros key [a0 k o sv st iv il] Hs. unfold Shell.keyServed, Shell.onSave in *.
    cbn [Shell.apiKey Shell.storedKey Shell.service Shell.app Shell.inputValue
         Shell.isLoading Shell.isKeyModalOpen] in *.
    destruct (String.eqb_spec key k) as [->|Hne].
    + exact Hs.
    + unfold Shell.keyEffect. cbn [Shell.apiKey].
      destruct (Js.isEmpty key) eqn:He;
        cbn [negb Shell.setIsKeyModalOpen Shell.apiKey Shell.storedKey Shell.service].
      * congruence.
      * intros _. split; [reflexivity | eauto].
  - intros clock chat fuel text [a0 k o sv st iv il] s' Hs.
    unfold Shell.keyServed, Shell.handleSendMessage in *.
    cbn [Shell.apiKey Shell.storedKey Shell.service Shell.app Shell.inputValue
         Shell.isLoading Shell.isKeyModalOpen] in *.
    destruct (Js.isEmpty (Js.trim text)); [now intros [= <-]|].
    destruct (Js.isEmpty k) eqn:Hk; [intros [= <-]; cbn; congruence|].
    destruct (Hs eq_refl) as (-> & svc & ->).
    destruct (Service.sendMessage chat fuel text svc) as [r svc'].
    destruct (Shell.runCallbacks _ _ _) as [[a' taken] n].
    unfold Shell.onSendError.
    destruct r as [v|e|]; [| |discriminate].
    + destruct (Js.isEmpty v && negb taken)%bool;
        [destruct (Shell.describeError _) as [txt []]|destruct (Js.isEmpty v)];
        intros [= <-]; cbn; eauto.
    + destruct (Shell.describeError _) as [txt []]; intros [= <-]; cbn; eauto.
  - unfold Shell.mount, Shell.keyEffect. cbn [Shell.apiKey].
    split; [|split; [|split; [|split]]].
    + destruct (Js.isEmpty (Js.optOrElse stored env)); reflexivity.
    + destruct (Js.isEmpty (Js.optOrElse stored env)); reflexivity.
    + destruct (Js.isEmpty (Js.optOrElse stored env)); reflexivity.
    + intros key [a0 k o sv st iv il] Hkey Hne. unfold Shell.onSave.
      cbn [Shell.apiKey Shell.storedKey Shell.service Shell.app Shell.inputValue
           Shell.isLoading Shell.isKeyModalOpen].
      destruct (String.eqb_spec key k); [contradiction|].
      unfold Shell.keyEffect. cbn [Shell.apiKey]. rewrite Hkey.
      cbn. repeat split; reflexivity.
    + intros key [a0 k o sv st iv il] Hkey Hne. unfold Shell.onSave.
      cbn [Shell.apiKey Shell.storedKey Shell.service Shell.app Shell.inputValue
           Shell.isLoading Shell.isKeyModalOpen].
      destruct (String.eqb_spec key k); [contradiction|].
      unfold Shell.keyEffect. cbn [Shell.apiKey]. rewrite Hkey.
      cbn. repeat split; reflexivity.
Qed.

Lemma key_is_stored_and_served_witness :
  Shell.keyServed (Shell.onSave Shell.Done "AIza-other" Sample.shell)
  /\ Shell.service (Shell.onSave Shell.NoService "AIza-other" Sample.shell)
     = Some ("AIza-sample", Service.init).
Proof.
  split.
  - apply (key_is_stored_and_served Sample.appState (Some "AIza-sample") EmptyString).
    apply (key_is_stored_and_served Sample.appState (Some "AIza-sample") EmptyString).
  - destruct (key_is_stored_and_served Sample.appState (Some "AIza-sample")
                EmptyString) as (_ & _ & _ & _ & _ & _ & Hno & _).
    destruct (Hno "AIza-other" Sample.shell eq_refl) as (_ & Hsvc & _);
      [discriminate|].
    rewrite Hsvc. reflexivity.
Defined.

(** X19. Removing the key in the dialog empties the key and opens the dialog,
    but the stored key and the service object stay: mounting the
    application again brings the removed key back, with the dialog shut.
    This is so however the try block of the key effect ends. *)
Theorem removed_key_stays_in_storage :
  forall (o o' : Shell.EffectOutcome) (s : Shell.State) (a : App.State)
         (env : string),
    Js.isEmpty (Shell.apiKey s) = false ->
    Shell.storedKey s = Some (Shell.apiKey s) ->
    let s' := Shell.handleClear o s in
    Shell.apiKey s' = EmptyString
    /\ Shell.isKeyModalOpen s' = true
    /\ Shell.storedKey s' = Some (Shell.apiKey s)
    /\ Shell.service s' = Shell.service s
    /\ Shell.app s' = Shell.app s
    /\ Shell.apiKey (Shell.mount o' a (Shell.storedKey s') env) = Shell.apiKey s
    /\ Shell.isKeyModalOpen (Shell.mount o' a (Shell.storedKey s') env) = false.
Proof.
  intros o o' [a0 k op sv st iv il] a env Hk Hst. cbv zeta.
  cbn [Shell.apiKey Shell.storedKey] in *. subst st.
  unfold Shell.handleClear, Shell.onSave. cbn [Shell.apiKey].
  destruct (String.eqb_spec EmptyString k) as [<-|_]; [discriminate|].
  unfold Shell.mount, Shell.keyEffect, Js.optOrElse, Js.orElse.
  cbn [Shell.apiKey Js.isEmpty negb Shell.setIsKeyModalOpen Shell.storedKey
       Shell.service Shell.isKeyModalOpen Shell.app Shell.inputValue Shell.isLoading].
  repeat split; try reflexivity; rewrite !Hk; destruct o'; reflexivity.
Qed.

Lemma removed_key_stays_in_storage_witness :
  Shell.apiKey
    (Shell.mount Shell.Done Sample.appState
       (Shell.storedKey (Shell.handleClear Shell.Done Sample.shell)) EmptyString)
  = "AIza-sample".
Proof.
  exact (proj1 (proj2 (proj2 (proj2 (proj2 (proj2
           (removed_key_stays_in_storage Shell.Done Shell.Done Sample.shell
              Sample.appState EmptyString eq_refl eq_refl))))))).
Defined.

(** ** EBookReader: the index and the book under it *)

Section ReaderViewFacts.

Lemma editChapter_titles (i : Z) (c : string) (b b' : EBook) :
  App.editChapter i c (Some b) = Some b' ->
  map ch_title (bk_chapters b') = map ch_title (bk_chapters b).
Proof.
  cbn [App.editChapter]. intros [= <-]. cbn [bk_chapters].
  destruct (App.at_ (bk_chapters b) i) as [ch|] eqn:Hi; [|reflexivity].
  apply at_Some in Hi as [_ Hi].
  change (map ch_title ?l) with (ch_title <$> l).
  rewrite list_fmap_insert. cbn [App.withContent ch_title].
  apply list_insert_id. now rewrite list_lookup_fmap, Hi.
Qed.

Lemma setImage_titles (i : Z) (u : string) (b b' : EBook) :
  Shell.setImage i u (Some b) = Some b' ->
  map ch_title (bk_chapters b') = map ch_title (bk_chapters b).
Proof.
  cbn [Shell.setImage]. intros [= <-]. cbn [bk_chapters].
  destruct (App.at_ (bk_chapters b) i) as [ch|] eqn:Hi; [|reflexivity].
  apply at_Some in Hi as [_ Hi].
  change (map ch_title ?l) with (ch_title <$> l).
  rewrite list_fmap_insert. cbn [Shell.withImageUrl ch_title].
  apply list_insert_id. now rewrite list_lookup_fmap, Hi.
Qed.

Lemma update_Some (f : option EBook -> option EBook) (s s' : ReaderView.State) :
  ReaderView.update f s = Some s' ->
  exists b', f (Some (ReaderView.book s)) = Some b'
             /\ s' = ReaderView.mkState b' (ReaderView.currentChapter s).
Proof.
  unfold ReaderView.update. destruct (f _) as [b'|]; cbn; [|discriminate].
  intros [= <-]. eauto.
Qed.

Lemma step_readerInv (b : EBook) (s s' : ReaderView.State) (a : ReaderView.Action) :
  ReaderView.inv b s -> ReaderView.step s a = Some s' -> ReaderView.inv b s'.
Proof.
  destruct s as [bk cc]. unfold ReaderView.inv.
  cbn [ReaderView.book ReaderView.currentChapter]. intros [Hr Ht].
  destruct a as [| | |idx|i c|i u]; cbn [ReaderView.step ReaderView.book
    ReaderView.currentChapter].
  - intros [= <-]. cbn [ReaderView.book ReaderView.currentChapter].
    split; [|exact Ht]. unfold EBookReader.nextChapter.
    destruct (Z.ltb_spec cc (Z.of_nat (length (bk_chapters bk)) - 1)); lia.
  - intros [= <-]. cbn [ReaderView.book ReaderView.currentChapter].
    split; [|exact Ht]. unfold EBookReader.prevChapter.
    destruct (Z.gtb_spec cc (-1)); lia.
  - intros [= <-]. cbn [ReaderView.book ReaderView.currentChapter].
    split; [lia | exact Ht].
  - destruct (bk_chapters bk !! idx) as [ch|] eqn:Hidx; [|discriminate].
    cbn. intros [= <-]. cbn [ReaderView.book ReaderView.currentChapter].
    split; [|exact Ht]. apply lookup_lt_Some in Hidx. lia.
  - intros (b' & He & ->)%update_Some.
    cbn [ReaderView.book ReaderView.currentChapter] in *.
    pose proof (editChapter_titles i c bk b' He) as Ht'.
    split; [|now rewrite Ht'].
    rewrite <- (length_map ch_title (bk_chapters b')), Ht', length_map. exact Hr.
  - intros (b' & He & ->)%update_Some.
    cbn [ReaderView.book ReaderView.currentChapter] in *.
    pose proof (setImage_titles i u bk b' He) as Ht'.
    split; [|now rewrite Ht'].
    rewrite <- (length_map ch_title (bk_chapters b')), Ht', length_map. exact Hr.
Qed.

Lemma run_readerInv (b : EBook) (acts : list ReaderView.Action)
  (s s' : ReaderView.State) :
  ReaderView.inv b s -> ReaderView.run acts s = Some s' -> ReaderView.inv b s'.
Proof.
  revert s. induction acts as [|a acts IH]; intros s Hs; cbn [ReaderView.run].
  - now intros [= <-].
  - destruct (ReaderView.step s a) as [s1|] eqn:Hstep; [|discriminate].
    cbn. apply IH. eapply step_readerInv; eassumption.
Qed.

End ReaderViewFacts.

(** X20. Whatever the reader is asked to do after it is mounted (next, previous,
    the buttons of the sidebar) and whatever content or image the shell
    writes into the book meanwhile, the index stays between -1 and the last
    chapter of the book as it is then, the book keeps its number of chapters
    and their titles, and off the cover the chapter the page reads exists. *)
Theorem reader_always_shows_an_existing_chapter :
  forall (b : EBook) (acts : list ReaderView.Action) (s : ReaderView.State),
    ReaderView.run acts (ReaderView.mount b) = Some s ->
    -1 <= ReaderView.currentChapter s
       <= Z.of_nat (length (bk_chapters (ReaderView.book s))) - 1
    /\ length (bk_chapters (ReaderView.book s)) = length (bk_chapters b)
    /\ map ch_title (bk_chapters (ReaderView.book s)) = map ch_title (bk_chapters b)
    /\ (ReaderView.currentChapter s = -1
        \/ exists ch, ReaderView.shown s = Some ch).
Proof.
  intros b acts s Hrun.
  assert (Hinv : ReaderView.inv b s).
  { eapply run_readerInv; [|exact Hrun]. unfold ReaderView.inv, ReaderView.mount.
    cbn [ReaderView.book ReaderView.currentChapter].
    unfold EBookReader.initialChapter. split; [lia | reflexivity]. }
  destruct Hinv as [Hr Ht]. split; [exact Hr|]. split.
  { rewrite <- (length_map ch_title), Ht. apply length_map. }
  split; [exact Ht|].
  destruct (Z.eq_dec (ReaderView.currentChapter s) (-1)) as [?|Hne]; [now left|].
  right. unfold ReaderView.shown, App.at_.
  destruct (Z.ltb_spec (ReaderView.currentChapter s) 0); [lia|].
  apply lookup_lt_is_Some. lia.
Qed.

Lemma reader_always_shows_an_existing_chapter_witness :
  ReaderView.currentChapter
    (ReaderView.mkState
       (mkEBook (bk_title Sample.book) (bk_author Sample.book)
          (bk_description Sample.book) (bk_theme Sample.book)
          (bk_format Sample.book)
          (<[1%nat := App.withContent Sample.chapterTwo "Night."]>
             (bk_chapters Sample.book))) 1) = -1
  \/ exists ch,
      ReaderView.shown
        (ReaderView.mkState
           (mkEBook (bk_title Sample.book) (bk_author Sample.book)
              (bk_description Sample.book) (bk_theme Sample.book)
              (bk_format Sample.book)
              (<[1%nat := App.withContent Sample.chapterTwo "Night."]>
                 (bk_chapters Sample.book))) 1) = Some ch.
Proof.
  apply (reader_always_shows_an_existing_chapter Sample.book
           [ReaderView.ShowChapter 1; ReaderView.ChapterEdited 1 "Night."]
           _ eq_refl).
Defined.

(** X21. On an index in range, each footer button is disabled exactly when its
    handler would leave the index as it is, and the two handlers undo each
    other wherever the first one moves. *)
Theorem footer_buttons_are_disabled_exactly_when_idle :
  forall (s : ReaderView.State),
    -1 <= ReaderView.currentChapter s
       <= Z.of_nat (length (bk_chapters (ReaderView.book s))) - 1 ->
    (ReaderView.prevDisabled s = true
     <-> ReaderView.step s ReaderView.PrevChapter = Some s)
    /\ (ReaderView.nextDisabled s = true
        <-> ReaderView.step s ReaderView.NextChapter = Some s)
    /\ (ReaderView.nextDisabled s = false ->
        EBookReader.prevChapter
          (EBookReader.nextChapter (ReaderView.book s) (ReaderView.currentChapter s))
        = ReaderView.currentChapter s)
    /\ (ReaderView.prevDisabled s = false ->
        EBookReader.nextChapter (ReaderView.book s)
          (EBookReader.prevChapter (ReaderView.currentChapter s))
        = ReaderView.currentChapter s).
Proof.
  intros [bk cc]. cbn [ReaderView.book ReaderView.currentChapter]. intros Hr.
  unfold ReaderView.prevDisabled, ReaderView.nextDisabled.
  cbn [ReaderView.step ReaderView.book ReaderView.currentChapter].
  unfold EBookReader.prevChapter, EBookReader.nextChapter.
  set (n := Z.of_nat (length (bk_chapters bk))) in *.
  split; [|split; [|split]].
  - destruct (Z.eqb_spec cc (-1)), (Z.gtb_spec cc (-1)); split; intros Hx;
      try reflexivity; try discriminate; try lia.
    injection Hx as Hx. lia.
  - destruct (Z.eqb_spec cc (n - 1)), (Z.ltb_spec cc (n - 1)); split; intros Hx;
      try reflexivity; try discriminate; try lia.
    injection Hx as Hx. lia.
  - destruct (Z.eqb_spec cc (n - 1)); [discriminate|]. intros _.
    destruct (Z.ltb_spec cc (n - 1)); [|lia].
    destruct (Z.gtb_spec (cc + 1) (-1)); lia.
  - destruct (Z.eqb_spec cc (-1)); [discriminate|]. intros _.
    destruct (Z.gtb_spec cc (-1)); [|lia].
    destruct (Z.ltb_spec (cc - 1) (n - 1)); lia.
Qed.

Lemma footer_buttons_are_disabled_exactly_when_idle_witness :
  ReaderView.prevDisabled (ReaderView.mount Sample.book) = true
  <-> ReaderView.step (ReaderView.mount Sample.book) ReaderView.PrevChapter
      = Some (ReaderView.mount Sample.book).
Proof.
  apply (footer_buttons_are_disabled_exactly_when_idle (ReaderView.mount Sample.book)).
  vm_compute. split; discriminate.
Defined.

(** ** EBookReader.downloadPDF *)

Section PdfFacts.
Import QArith Lqa.

Variables pageWidth pageHeight : Q.
Variable splitTextToSize : string -> Q -> list string.

Lemma texts_app (a b : list Pdf.Op) : Pdf.texts (a ++ b) = Pdf.texts a ++ Pdf.texts b.
Proof.
  induction a as [|[] a IH]; cbn [Pdf.texts app]; now rewrite ?IH.
Qed.

Lemma heights_app (a b : list Pdf.Op) :
  Pdf.heights (a ++ b) = Pdf.heights a ++ Pdf.heights b.
Proof.
  induction a as [|[] a IH]; cbn [Pdf.heights app]; now rewrite ?IH.
Qed.

Lemma pages_app (a b : list Pdf.Op) :
  Service.count Pdf.isAddPage (a ++ b)
  = (Service.count Pdf.isAddPage a + Service.count Pdf.isAddPage b)%nat.
Proof. apply count_app. Qed.

(** *** The texts *)

Lemma drawLine_texts (acc : list Pdf.Op * Q) (line : string) :
  Pdf.texts (fst (Pdf.drawLine pageHeight acc line))
  = Pdf.texts (fst acc) ++ [line].
Proof.
  destruct acc as [ops y]. unfold Pdf.drawLine.
  destruct (negb _); cbn [fst]; rewrite !texts_app; cbn [Pdf.texts];
    now rewrite ?app_nil_r.
Qed.

Lemma drawLines_texts (lines : list string) (acc : list Pdf.Op * Q) :
  Pdf.texts (fst (fold_left (Pdf.drawLine pageHeight) lines acc))
  = Pdf.texts (fst acc) ++ lines.
Proof.
  revert acc. induction lines as [|l lines IH]; intros acc; cbn [fold_left].
  - now rewrite app_nil_r.
  - rewrite IH, drawLine_texts, <- app_assoc. reflexivity.
Qed.

Lemma drawParagraph_texts (acc : list Pdf.Op * Q) (para : string) :
  Pdf.texts (fst (Pdf.drawParagraph pageWidth pageHeight splitTextToSize acc para))
  = Pdf.texts (fst acc)
    ++ Pdf.paragraphLines splitTextToSize (Pdf.maxLineWidth pageWidth) para.
Proof.
  unfold Pdf.drawParagraph, Pdf.paragraphLines.
  destruct (Js.isEmpty (Js.trim para)); cbn [fst]; [now rewrite app_nil_r|].
  pose proof (drawLines_texts
                (splitTextToSize para (Pdf.maxLineWidth pageWidth)) acc) as H.
  destruct (fold_left _ _ acc) as [ops y]. exact H.
Qed.

Lemma drawParagraphs_texts (paras : list string) (acc : list Pdf.Op * Q) :
  Pdf.texts
    (fst (fold_left (Pdf.drawParagraph pageWidth pageHeight splitTextToSize)
            paras acc))
  = Pdf.texts (fst acc)
    ++ flat_map (Pdf.paragraphLines splitTextToSize (Pdf.maxLineWidth pageWidth))
         paras.
Proof.
  revert acc. induction paras as [|p paras IH]; intros acc;
    cbn [fold_left flat_map].
  - now rewrite app_nil_r.
  - rewrite IH, drawParagraph_texts, <- app_assoc. reflexivity.
Qed.

Lemma drawChapter_texts (ops ops' : list Pdf.Op) (index : nat) (chapter : Chapter) :
  Pdf.drawChapter pageWidth pageHeight splitTextToSize ops index chapter = Some ops' ->
  Pdf.texts ops'
  = Pdf.texts ops
    ++ Pdf.chapterTexts splitTextToSize (Pdf.maxLineWidth pageWidth) index chapter.
Proof.
  unfold Pdf.drawChapter, Pdf.chapterTexts.
  destruct (ch_content chapter) as [content|]; cbn [mbind option_bind default];
    [|discriminate].
  intros [= <-]. rewrite drawParagraphs_texts. cbn [fst].
  rewrite texts_app. cbn [Pdf.texts]. now rewrite <- app_assoc.
Qed.

Lemma drawChapters_texts (chapters : list Chapter) (ops ops' : list Pdf.Op)
  (index : nat) :
  Pdf.drawChapters pageWidth pageHeight splitTextToSize ops index chapters
  = Some ops' ->
  Pdf.texts ops'
  = Pdf.texts ops
    ++ concat (imap (fun i =>
                       Pdf.chapterTexts splitTextToSize (Pdf.maxLineWidth pageWidth)
                         (index + i))
                 chapters).
Proof.
  revert ops index. induction chapters as [|ch chapters IH]; intros ops index;
    cbn [Pdf.drawChapters].
  - intros [= <-]. now rewrite app_nil_r.
  - destruct (Pdf.drawChapter _ _ _ ops index ch) as [ops1|] eqn:H1;
      cbn [mbind option_bind]; [|discriminate].
    intros H2. apply IH in H2. apply drawChapter_texts in H1.
    rewrite H2, H1, <- app_assoc. f_equal.
    rewrite imap_cons. cbn [concat]. rewrite Nat.add_0_r. f_equal. f_equal.
    apply imap_ext. intros i x _. cbn. f_equal. lia.
Qed.

(** *** The pages *)

Lemma drawLine_pages (acc : list Pdf.Op * Q) (line : string) :
  (Service.count Pdf.isAddPage (fst acc)
   <= Service.count Pdf.isAddPage (fst (Pdf.drawLine pageHeight acc line)))%nat.
Proof.
  destruct acc as [ops y]. unfold Pdf.drawLine.
  destruct (negb _); cbn [fst]; rewrite !pages_app; cbn; lia.
Qed.

Lemma drawLines_pages (lines : list string) (acc : list Pdf.Op * Q) :
  (Service.count Pdf.isAddPage (fst acc)
   <= Service.count Pdf.isAddPage
        (fst (fold_left (Pdf.drawLine pageHeight) lines acc)))%nat.
Proof.
  revert acc. induction lines as [|l lines IH]; intros acc; cbn [fold_left].
  - lia.
  - etransitivity; [apply (drawLine_pages acc l) | apply IH].
Qed.

Lemma drawParagraphs_pages (paras : list string) (acc : list Pdf.Op * Q) :
  (Service.count Pdf.isAddPage (fst acc)
   <= Service.count Pdf.isAddPage
        (fst (fold_left (Pdf.drawParagraph pageWidth pageHeight splitTextToSize)
                paras acc)))%nat.
Proof.
  revert acc. induction paras as [|p paras IH]; intros acc; cbn [fold_left].
  - lia.
  - etransitivity; [|apply IH]. unfold Pdf.drawParagraph.
    destruct (Js.isEmpty (Js.trim p)); cbn [fst]; [lia|].
    pose proof (drawLines_pages
                  (splitTextToSize p (Pdf.maxLineWidth pageWidth)) acc) as H.
    destruct (fold_left _ _ acc) as [ops y]. exact H.
Qed.

Lemma drawChapters_pages (chapters : list Chapter) (ops ops' : list Pdf.Op)
  (index : nat) :
  Pdf.drawChapters pageWidth pageHeight splitTextToSize ops index chapters
  = Some ops' ->
  (Service.count Pdf.isAddPage ops + length chapters
   <= Service.count Pdf.isAddPage ops')%nat.
Proof.
  revert ops index. induction chapters as [|ch chapters IH]; intros ops index;
    cbn [Pdf.drawChapters length].
  - intros [= <-]. lia.
  - unfold Pdf.drawChapter at 1.
    destruct (ch_content ch) as [content|]; cbn [mbind option_bind];
      [|discriminate].
    intros H2. apply IH in H2.
    pose proof (drawParagraphs_pages (Pdf.paragraphs content)
                  (ops ++ [Pdf.AddPage;
                           Pdf.Text (Pdf.heading index ch) Pdf.margin
                             (Pdf.margin + 10)], Pdf.margin + 30)) as H1.
    cbn [fst] in H1. rewrite pages_app in H1. cbn in H1. lia.
Qed.

(** *** The heights *)

Hypothesis tall : 60 <= pageHeight.

Lemma half_line : Pdf.lineHeight / 2 = 7 # 2.
Proof. reflexivity. Qed.

Lemma drawLine_placed (acc : list Pdf.Op * Q) (line : string) :
  Pdf.placed pageHeight acc -> Pdf.placed pageHeight (Pdf.drawLine pageHeight acc line).
Proof.
  destruct acc as [ops y]. unfold Pdf.placed, Pdf.withinMargins, Pdf.drawLine.
  cbn [fst snd].
  intros [Hall Hy].
  destruct (Qle_bool y (pageHeight - Pdf.margin)) eqn:Hle; cbn [negb fst snd].
  - apply Qle_bool_iff in Hle. rewrite heights_app. cbn [Pdf.heights].
    split; [apply Forall_app; split; [exact Hall|]|].
    + repeat constructor; assumption.
    + unfold Pdf.margin, Pdf.lineHeight in *. lra.
  - rewrite !heights_app. cbn [Pdf.heights]. rewrite app_nil_r.
    split; [apply Forall_app; split; [exact Hall|]|].
    + repeat constructor; unfold Pdf.margin in *; lra.
    + unfold Pdf.margin, Pdf.lineHeight in *. lra.
Qed.

Lemma drawLines_placed (lines : list string) (acc : list Pdf.Op * Q) :
  Pdf.placed pageHeight acc -> Pdf.placed pageHeight (fold_left (Pdf.drawLine pageHeight) lines acc).
Proof.
  revert acc. induction lines as [|l lines IH]; intros acc H; cbn [fold_left].
  - exact H.
  - now apply IH, drawLine_placed.
Qed.

Lemma drawParagraphs_placed (paras : list string) (acc : list Pdf.Op * Q) :
  Pdf.placed pageHeight acc ->
  Pdf.placed pageHeight (fold_left (Pdf.drawParagraph pageWidth pageHeight splitTextToSize)
            paras acc).
Proof.
  revert acc. induction paras as [|p paras IH]; intros acc H; cbn [fold_left].
  - exact H.
  - apply IH. unfold Pdf.drawParagraph.
    destruct (Js.isEmpty (Js.trim p)).
    + destruct acc as [ops y]. destruct H as [Hall Hy]. split; [exact Hall|].
      cbn [snd] in *. rewrite half_line. unfold Pdf.margin in *. lra.
    + pose proof (drawLines_placed
                    (splitTextToSize p (Pdf.maxLineWidth pageWidth)) acc H)
        as [Hall Hy].
      destruct (fold_left _ _ acc) as [ops y]. cbn [fst snd] in *.
      split; [exact Hall|]. cbn [snd]. rewrite half_line.
      unfold Pdf.margin in *. lra.
Qed.

Lemma drawChapters_placed (chapters : list Chapter) (ops ops' : list Pdf.Op)
  (index : nat) :
  Forall (Pdf.withinMargins pageHeight) (Pdf.heights ops) ->
  Pdf.drawChapters pageWidth pageHeight splitTextToSize ops index chapters
  = Some ops' ->
  Forall (Pdf.withinMargins pageHeight) (Pdf.heights ops').
Proof.
  revert ops index. induction chapters as [|ch chapters IH]; intros ops index Hops;
    cbn [Pdf.drawChapters].
  - now intros [= <-].
  - unfold Pdf.drawChapter at 1.
    destruct (ch_content ch) as [content|]; cbn [mbind option_bind];
      [|discriminate].
    apply IH. apply drawParagraphs_placed. split; cbn [fst snd].
    + rewrite heights_app. apply Forall_app. split; [exact Hops|].
      cbn [Pdf.heights]. repeat constructor; unfold Pdf.margin in *; lra.
    + cbn [snd]. unfold Pdf.margin. lra.
Qed.

End PdfFacts.

Section PdfDocument.
Import QArith.


Lemma chars_app (a b : string) : Pdf.chars (a +:+ b) = Pdf.chars a ++ Pdf.chars b.
Proof.
  induction a as [|c a IH]; [reflexivity|].
  change (c :: Pdf.chars (a +:+ b) = c :: (Pdf.chars a ++ Pdf.chars b)).
  now rewrite IH.
Qed.

Lemma asciiWhiteSpace_low (c : ascii) :
  Js.asciiWhiteSpace c = true -> (nat_of_ascii c < 128)%nat.
Proof.
  unfold Js.asciiWhiteSpace. cbv zeta.
  intros [[H1 H2]%andb_prop|H]%orb_prop.
  - apply Nat.leb_le in H2. lia.
  - apply Nat.eqb_eq in H. lia.
Qed.













(** X22. The document that is saved holds the title, the author line and then,
    chapter by chapter, the heading and every line of every paragraph that
    is not blank, in the order of the book: no line is dropped or moved by
    the page breaks.  At least one page is added for every chapter, and the
    last operation saves the file under the name made from the title. *)
Theorem pdf_keeps_every_line_in_order :
  forall (pageWidth pageHeight : Q) (splitTextToSize : string -> Q -> list string)
         (coverData : string) (imageOk : bool) (book : EBook) (ops : list Pdf.Op),
    Pdf.downloadPDF pageWidth pageHeight splitTextToSize coverData imageOk book
    = Pdf.Saved ops ->
    Pdf.texts ops
    = bk_title book :: ("By " +:+ bk_author book)
      :: concat (imap (Pdf.chapterTexts splitTextToSize (Pdf.maxLineWidth pageWidth))
                   (bk_chapters book))
    /\ (length (bk_chapters book) <= Service.count Pdf.isAddPage ops)%nat
    /\ last ops = Some (Pdf.Save (Pdf.fileName (bk_title book))).
Proof.
  intros pageWidth pageHeight splitTextToSize coverData imageOk book ops.
  unfold Pdf.downloadPDF. cbv zeta.
  destruct (Pdf.drawChapters _ _ _ _ _ _) as [body|] eqn:Hbody; [|discriminate].
  intros [= <-].
  pose proof (drawChapters_texts _ _ _ _ _ _ _ Hbody) as Htexts.
  pose proof (drawChapters_pages _ _ _ _ _ _ _ Hbody) as Hpages.
  split; [|split].
  - rewrite texts_app, Htexts, texts_app. cbn [Pdf.texts].
    rewrite app_nil_r.
    destruct (negb (Js.isEmpty coverData) && imageOk)%bool; reflexivity.
  - rewrite pages_app. lia.
  - apply last_snoc.
Qed.

Lemma pdf_keeps_every_line_in_order_witness :
  exists ops,
    Pdf.downloadPDF 210 297 Sample.wholeLine EmptyString false Sample.written
    = Pdf.Saved ops
    /\ Pdf.texts ops
       = ["Two  Days"; "By Ann"; "Chapter 1: Dawn"; " Morning"; "The sun rose.";
          "Birds sang."; "Chapter 2: Dusk"; "Night fell."].
Proof.
  destruct (Pdf.downloadPDF 210 297 Sample.wholeLine EmptyString false
              Sample.written) as [ops|msg] eqn:Hrun.
  - exists ops. split; [reflexivity|].
    rewrite (proj1 (pdf_keeps_every_line_in_order 210 297 Sample.wholeLine
                      EmptyString false Sample.written ops Hrun)).
    reflexivity.
  - vm_compute in Hrun. discriminate.
Defined.

(** X23. On a page at least 60 high, every text of the saved document is drawn
    between the top margin and the bottom margin, wherever the page breaks
    fall. *)
Theorem pdf_text_stays_within_margins :
  forall (pageWidth pageHeight : Q) (splitTextToSize : string -> Q -> list string)
         (coverData : string) (imageOk : bool) (book : EBook) (ops : list Pdf.Op),
    60 <= pageHeight ->
    Pdf.downloadPDF pageWidth pageHeight splitTextToSize coverData imageOk book
    = Pdf.Saved ops ->
    Forall (fun y => Pdf.margin <= y /\ y <= pageHeight - Pdf.margin)
      (Pdf.heights ops).
Proof.
  intros pageWidth pageHeight splitTextToSize coverData imageOk book ops Htall.
  unfold Pdf.downloadPDF. cbv zeta.
  destruct (Pdf.drawChapters _ _ _ _ _ _) as [body|] eqn:Hbody; [|discriminate].
  intros [= <-]. rewrite heights_app. cbn [Pdf.heights]. rewrite app_nil_r.
  refine (drawChapters_placed pageWidth pageHeight splitTextToSize Htall _ _ _ _ _ Hbody).
  rewrite heights_app. apply Forall_app. split.
  - destruct (negb (Js.isEmpty coverData) && imageOk)%bool; constructor.
  - cbn [Pdf.heights]. unfold Pdf.withinMargins, Pdf.margin.
    repeat constructor; Lqa.lra.
Qed.

Lemma pdf_text_stays_within_margins_witness :
  exists ops,
    Pdf.downloadPDF 210 297 Sample.wholeLine EmptyString false Sample.written
    = Pdf.Saved ops
    /\ Forall (fun y => Pdf.margin <= y /\ y <= 297 - Pdf.margin) (Pdf.heights ops).
Proof.
  destruct (Pdf.downloadPDF 210 297 Sample.wholeLine EmptyString false
              Sample.written) as [ops|msg] eqn:Hrun.
  - exists ops. split; [reflexivity|].
    apply (pdf_text_stays_within_margins 210 297 Sample.wholeLine EmptyString
             false Sample.written ops); [vm_compute; discriminate | exact Hrun].
  - vm_compute in Hrun. discriminate.
Defined.



Lemma replacePair_chars (a b : ascii) (by_ s : string) (c : ascii) :
  In c (Pdf.chars (Pdf.replacePair a b by_ s)) ->
  In c (Pdf.chars s) \/ In c (Pdf.chars by_).
Proof.
  revert c.
  assert (H : (forall c, In c (Pdf.chars (Pdf.replacePair a b by_ s)) ->
                         In c (Pdf.chars s) \/ In c (Pdf.chars by_))
              /\ forall c0 c,
                  In c (Pdf.chars (Pdf.replacePair a b by_ (String c0 s))) ->
                  In c (Pdf.chars (String c0 s)) \/ In c (Pdf.chars by_)).
  { induction s as [|c1 s [IH1 IH2]].
    - split; [intros c []|]. intros c0 c. cbn. tauto.
    - split; [apply IH2|]. intros c0 c.
      cbn [Pdf.replacePair].
      destruct (Ascii.eqb c0 a && Ascii.eqb c1 b)%bool.
      + rewrite chars_app, in_app_iff. intros [H|H]; [now right|].
        apply IH1 in H. cbn [Pdf.chars In]. tauto.
      + change (c0 = c \/ In c (Pdf.chars (Pdf.replacePair a b by_ (String c1 s)))
                -> In c (Pdf.chars (String c0 (String c1 s)))
                   \/ In c (Pdf.chars by_)).
        intros [H|H]; [left; now left|].
        apply IH2 in H. cbn [Pdf.chars In] in *. tauto. }
  apply H.
Qed.

Lemma removeChar_chars (a : ascii) (s : string) :
  ~ In a (Pdf.chars (Pdf.removeChar a s)).
Proof.
  induction s as [|c s IH]; cbn [Pdf.removeChar]; [intros []|].
  destruct (Ascii.eqb_spec c a); [exact IH|].
  cbn [Pdf.chars In]. tauto.
Qed.

Lemma removeChar_sub (a : ascii) (s : string) (c : ascii) :
  In c (Pdf.chars (Pdf.removeChar a s)) -> In c (Pdf.chars s).
Proof.
  induction s as [|c0 s IH]; cbn [Pdf.removeChar]; [intros []|].
  destruct (Ascii.eqb c0 a); cbn [Pdf.chars In]; tauto.
Qed.

Lemma split_chars (sep : ascii) (s : string) :
  Forall (fun p => ~ In sep (Pdf.chars p)
                   /\ forall c, In c (Pdf.chars p) -> In c (Pdf.chars s))
    (Pdf.split sep s)
  /\ Pdf.split sep s <> [].
Proof.
  induction s as [|c s [IH Hne]]; cbn [Pdf.split].
  - split; [|discriminate]. constructor; [|constructor].
    split; [intros [] | intros c []].
  - destruct (Ascii.eqb_spec c sep) as [->|Hc].
    + split; [|discriminate]. constructor.
      * split; [intros []|intros c []].
      * eapply Forall_impl; [exact IH|]. intros p [H1 H2].
        split; [exact H1|]. intros c Hc. right. now apply H2.
    + destruct (Pdf.split sep s) as [|first others]; [contradiction|].
      split; [|discriminate].
      inversion IH as [|? ? [H1 H2] Hrest]; subst. constructor.
      * cbn [Pdf.chars In]. split; [intros [?|?]; [congruence | tauto]|].
        intros c0 [?|?]; [now left | right; now apply H2].
      * eapply Forall_impl; [exact Hrest|]. intros p [H1' H2'].
        split; [exact H1'|]. intros c0 Hc0. right. now apply H2'.
Qed.

(** X25. The paragraphs of a chapter: there is at least one, none holds a line
    feed or a '#', and every character of a paragraph is a character of the
    content of the chapter. *)
Theorem pdf_paragraphs_hold_no_hash_and_no_line_feed :
  forall (content : string),
    Pdf.paragraphs content <> []
    /\ Forall (fun p => ~ In Pdf.lineFeed (Pdf.chars p)
                        /\ ~ In "#"%char (Pdf.chars p)
                        /\ forall c, In c (Pdf.chars p) -> In c (Pdf.chars content))
         (Pdf.paragraphs content).
Proof.
  intros content. unfold Pdf.paragraphs.
  destruct (split_chars Pdf.lineFeed (Pdf.cleanContent content)) as [Hall Hne].
  split; [exact Hne|].
  eapply Forall_impl; [exact Hall|]. intros p [Hsep Hsub].
  assert (Hclean : forall c, In c (Pdf.chars p) ->
                             c <> "#"%char /\ In c (Pdf.chars content)).
  { intros c Hc. pose proof (Hsub c Hc) as Hin. unfold Pdf.cleanContent in Hin.
    apply replacePair_chars in Hin as [Hin|Hin].
    - split.
      + intros ->. now apply removeChar_chars in Hin.
      + apply removeChar_sub in Hin.
        apply replacePair_chars in Hin as [Hin|[]]. exact Hin.
    - destruct Hin as [<-|[]]. now apply Hsep in Hc. }
  split; [exact Hsep|]. split.
  - intros H. now apply Hclean in H as [? _].
  - intros c Hc. now apply Hclean in Hc.
Qed.

End PdfDocument.

(** ** ApiKeyModal: every way validateAndSave ends *)

(** X26. validateAndSave never leaves the status at 'idle' or 'validating' and
    never touches the key field; the status is 'error' exactly when an error
    message is shown.  A blank key is turned down with its own message
    before any request is made; otherwise exactly one validation request is
    made, with the trimmed key, and a key that is saved is that trimmed key,
    which is not empty. *)
Theorem validation_always_settles :
  forall (validation : Service.Outcome unit) (s : ApiKeyModal.State),
    let s' := fst (ApiKeyModal.validateAndSave validation s) in
    let tr := snd (ApiKeyModal.validateAndSave validation s) in
    ApiKeyModal.key s' = ApiKeyModal.key s
    /\ (ApiKeyModal.status s' = ApiKeyModal.valid
        \/ ApiKeyModal.status s' = ApiKeyModal.error)
    /\ (ApiKeyModal.status s' = ApiKeyModal.error
        <-> ApiKeyModal.errorMessage s' <> EmptyString)
    /\ (Js.trim (ApiKeyModal.key s) = EmptyString ->
        tr = [] /\ ApiKeyModal.status s' = ApiKeyModal.error
        /\ ApiKeyModal.errorMessage s' = "Please enter an API key.")
    /\ (Js.trim (ApiKeyModal.key s) <> EmptyString ->
        tr = [ApiKeyModal.Validate (Js.trim (ApiKeyModal.key s))]
        \/ tr = [ApiKeyModal.Validate (Js.trim (ApiKeyModal.key s));
                 ApiKeyModal.SetTimeout
                   [ApiKeyModal.OnSave (Js.trim (ApiKeyModal.key s));
                    ApiKeyModal.OnClose] 500])
    /\ Forall (fun k => k = Js.trim (ApiKeyModal.key s) /\ k <> EmptyString)
         (ApiKeyModal.savedKeys tr).
Proof.
  intros validation [k st msg]. cbv zeta. unfold ApiKeyModal.validateAndSave.
  cbn [ApiKeyModal.key].
  destruct (Js.trim k) as [|c t] eqn:Htrim; cbn [Js.isEmpty].
  { cbn. repeat split; try (intros; congruence); try discriminate; auto. }
  assert (Hne : String c t <> EmptyString) by discriminate.
  destruct validation as [[]|e].
  { cbn. repeat split; try (intros; congruence); try discriminate; auto;
      repeat constructor; discriminate. }
  destruct (Js.includes _ "429" || Js.includes _ "quota").
  { cbn. repeat split; try (intros; congruence); try discriminate; auto;
      repeat constructor; discriminate. }
  destruct (Js.includes _ "403" || Js.includes _ "permission denied");
    [|destruct (Js.includes _ "400" || Js.includes _ "invalid argument")];
    cbn; repeat split; try (intros; congruence); try discriminate; auto.
Qed.

Lemma validation_always_settles_witness :
  snd (ApiKeyModal.validateAndSave (Service.Resolved tt)
         (ApiKeyModal.mkState (" " +:+ Sample.nbsp +:+ " ") ApiKeyModal.idle
            EmptyString)) = [].
Proof.
  apply (validation_always_settles (Service.Resolved tt)
           (ApiKeyModal.mkState (" " +:+ Sample.nbsp +:+ " ") ApiKeyModal.idle
              EmptyString)).
  reflexivity.
Defined.

(** X27. When validateAndSave accepts a key, firing its timer hands the trimmed
    key to the shell and shuts the dialog: the key of the shell is then the
    trimmed key.  When that is the key the shell had, nothing else changes.
    When it differs, the key effect runs: if its two statements run through,
    the service object is a new one built with the trimmed key and that key
    is the stored key; if the construction of the service object throws, the
    service object and the stored key stay as they were; if the writing to
    the storage throws, the service object is the new one and the stored key
    stays.  When the key is turned down, no timer is set and the shell stays
    as it is. *)
Theorem accepted_key_reaches_the_service :
  forall (o : Shell.EffectOutcome) (validation : Service.Outcome unit)
         (s : ApiKeyModal.State) (sh : Shell.State),
    let s' := fst (ApiKeyModal.validateAndSave validation s) in
    let sh' :=
      Shell.fireTimers o (snd (ApiKeyModal.validateAndSave validation s)) sh in
    (ApiKeyModal.status s' = ApiKeyModal.valid ->
     Shell.apiKey sh' = Js.trim (ApiKeyModal.key s)
     /\ Shell.isKeyModalOpen sh' = false
     /\ Shell.app sh' = Shell.app sh
     /\ (Js.trim (ApiKeyModal.key s) = Shell.apiKey sh ->
         Shell.service sh' = Shell.service sh
         /\ Shell.storedKey sh' = Shell.storedKey sh)
     /\ (Js.trim (ApiKeyModal.key s) <> Shell.apiKey sh ->
         match o with
         | Shell.Done =>
             Shell.service sh' = Some (Js.trim (ApiKeyModal.key s), Service.init)
             /\ Shell.storedKey sh' = Some (Js.trim (ApiKeyModal.key s))
         | Shell.NoService =>
             Shell.service sh' = Shell.service sh
             /\ Shell.storedKey sh' = Shell.storedKey sh
         | Shell.NotStored =>
             Shell.service sh' = Some (Js.trim (ApiKeyModal.key s), Service.init)
             /\ Shell.storedKey sh' = Shell.storedKey sh
         end))
    /\ (ApiKeyModal.status s' = ApiKeyModal.error -> sh' = sh).
Proof.
  intros o validation [k st msg] [a ak op sv stored iv il]. cbv zeta.
  unfold ApiKeyModal.validateAndSave. cbn [ApiKeyModal.key].
  destruct (Js.trim k) as [|c t] eqn:Htrim; cbn [Js.isEmpty].
  { cbn. split; [discriminate | reflexivity]. }
  set (key := String c t).
  assert (Hfire :
    let sh' := Shell.fireTimers o
                 [ApiKeyModal.Validate key;
                  ApiKeyModal.SetTimeout
                    [ApiKeyModal.OnSave key; ApiKeyModal.OnClose] 500]
                 (Shell.mkState a ak op sv stored iv il) in
    Shell.apiKey sh' = key
    /\ Shell.isKeyModalOpen sh' = false
    /\ Shell.app sh' = a
    /\ (key = ak -> Shell.service sh' = sv /\ Shell.storedKey sh' = stored)
    /\ (key <> ak ->
        match o with
        | Shell.Done =>
            Shell.service sh' = Some (key, Service.init)
            /\ Shell.storedKey sh' = Some key
        | Shell.NoService =>
            Shell.service sh' = sv /\ Shell.storedKey sh' = stored
        | Shell.NotStored =>
            Shell.service sh' = Some (key, Service.init)
            /\ Shell.storedKey sh' = stored
        end)).
  { cbv zeta. unfold Shell.fireTimers. cbn [fold_left Shell.fire].
    unfold Shell.onSave. cbn [Shell.apiKey Shell.app Shell.service Shell.storedKey
                              Shell.inputValue Shell.isLoading].
    destruct (String.eqb_spec key ak) as [<-|Hne].
    - cbn. repeat split; try reflexivity. intros Habs. now contradiction Habs.
    - unfold Shell.keyEffect. cbn [Shell.apiKey Js.isEmpty negb]. unfold key.
      cbn [Js.isEmpty negb].
      destruct o; cbn; repeat split; try reflexivity; intros; subst key;
        congruence. }
  destruct validation as [[]|e].
  { cbn [fst snd ApiKeyModal.status ApiKeyModal.setStatus]. split; [|discriminate].
    intros _. exact Hfire. }
  destruct (Js.includes _ "429" || Js.includes _ "quota").
  { cbn [fst snd ApiKeyModal.status ApiKeyModal.setStatus]. split; [|discriminate].
    intros _. exact Hfire. }
  split.
  - destruct (Js.includes _ "403" || Js.includes _ "permission denied");
      [|destruct (Js.includes _ "400" || Js.includes _ "invalid argument")];
      cbn; discriminate.
  - intros _. reflexivity.
Qed.

Lemma accepted_key_reaches_the_service_witness :
  Shell.service
    (Shell.fireTimers Shell.Done
       (snd (ApiKeyModal.validateAndSave (Service.Rejected Sample.tooMany)
               (ApiKeyModal.mkState (Sample.nbsp +:+ " AIza-new " +:+ Sample.nbsp)
                  ApiKeyModal.idle EmptyString)))
       Sample.shell)
  = Some ("AIza-new", Service.init)
  /\ Shell.storedKey
       (Shell.fireTimers Shell.NoService
          (snd (ApiKeyModal.validateAndSave (Service.Rejected Sample.tooMany)
                  (ApiKeyModal.mkState (Sample.nbsp +:+ " AIza-new " +:+ Sample.nbsp)
                     ApiKeyModal.idle EmptyString)))
          Sample.shell)
     = Some "AIza-sample".
Proof.
  split.
  - destruct (accepted_key_reaches_the_service Shell.Done
                (Service.Rejected Sample.tooMany)
                (ApiKeyModal.mkState (Sample.nbsp +:+ " AIza-new " +:+ Sample.nbsp)
                   ApiKeyModal.idle EmptyString)
                Sample.shell) as [Hvalid _].
    destruct (Hvalid eq_refl) as (_ & _ & _ & _ & Hnew).
    apply Hnew. discriminate.
  - destruct (accepted_key_reaches_the_service Shell.NoService
                (Service.Rejected Sample.tooMany)
                (ApiKeyModal.mkState (Sample.nbsp +:+ " AIza-new " +:+ Sample.nbsp)
                   ApiKeyModal.idle EmptyString)
                Sample.shell) as [Hvalid _].
    destruct (Hvalid eq_refl) as (_ & _ & _ & _ & Hnew).
    destruct (Hnew ltac:(discriminate)) as [_ Hst]. rewrite Hst. reflexivity.
Defined.

(** ** MarketAnalysis: the chart *)

Section ChartFacts.
Import MarketAnalysis.

Lemma bridge_of_history (n : nat) (trend : list Point) (k : nat) :
  (k + length trend = n)%nat ->
  List.filter isBridge
    (imap (fun i d =>
             mkChartPoint (month d) (value d) (Some (value d))
               (if (Z.of_nat (k + i) =? Z.of_nat n - 1)%Z
                then Some (value d) else None)) trend)
  = match last trend with
    | Some d => [mkChartPoint (month d) (value d) (Some (value d)) (Some (value d))]
    | None => []
    end.
Proof.
  revert k. induction trend as [|d trend IH]; intros k Hk; [reflexivity|].
  rewrite imap_cons. cbn [List.filter length] in *.
  rewrite (imap_ext _ (fun i d =>
             mkChartPoint (month d) (value d) (Some (value d))
               (if (Z.of_nat (S k + i) =? Z.of_nat n - 1)%Z
                then Some (value d) else None))).
  2:{ intros i x _. unfold compose.
      now replace (k + S i)%nat with (S k + i)%nat by lia. }
  rewrite (IH (S k)) by lia.
  destruct trend as [|d' trend].
  - cbn [last length] in *. rewrite Nat.add_0_r.
    destruct (Z.eqb_spec (Z.of_nat k) (Z.of_nat n - 1)); [reflexivity | lia].
  - rewrite Nat.add_0_r. cbn [length] in Hk.
    destruct (Z.eqb_spec (Z.of_nat k) (Z.of_nat n - 1)); [lia|].
    cbn [isBridge actual forecast]. now rewrite last_cons_cons.
Qed.

End ChartFacts.

(** X28. The chart data hold the history and then the forecast, in their order.
    Every point of the history is on the actual series and no point of the
    forecast is; the two series meet in exactly one point, the last of the
    history, and in none when there is no history. *)
Theorem chart_series_meet_at_the_last_history_point :
  forall (trendData forecastData : list MarketAnalysis.Point),
    let data := MarketAnalysis.combinedChartData trendData forecastData in
    map MarketAnalysis.cp_month data
    = map MarketAnalysis.month trendData ++ map MarketAnalysis.month forecastData
    /\ map MarketAnalysis.cp_value data
       = map MarketAnalysis.value trendData ++ map MarketAnalysis.value forecastData
    /\ map MarketAnalysis.actual data
       = map (fun d => Some (MarketAnalysis.value d)) trendData
         ++ map (fun _ => None) forecastData
    /\ List.filter MarketAnalysis.isBridge data
       = match last trendData with
         | Some d =>
             [MarketAnalysis.mkChartPoint (MarketAnalysis.month d)
                (MarketAnalysis.value d) (Some (MarketAnalysis.value d))
                (Some (MarketAnalysis.value d))]
         | None => []
         end.
Proof.
  intros trendData forecastData. cbv zeta. unfold MarketAnalysis.combinedChartData.
  rewrite !map_app, !List.map_map. cbn [MarketAnalysis.cp_month
    MarketAnalysis.cp_value MarketAnalysis.actual].
  assert (Himap : forall {B} (f : MarketAnalysis.ChartPoint -> B)
                         (g : MarketAnalysis.Point -> B)
                         (h : nat -> MarketAnalysis.Point -> MarketAnalysis.ChartPoint)
                         (l : list MarketAnalysis.Point),
             (forall i d, f (h i d) = g d) -> map f (imap h l) = map g l).
  { intros B f g h l. revert h. induction l as [|d l IH]; intros h Hfg;
      [reflexivity|].
    rewrite imap_cons. cbn [map]. rewrite Hfg. f_equal. apply IH.
    intros i d'. apply Hfg. }
  split; [|split; [|split]].
  - f_equal. now apply Himap.
  - f_equal. now apply Himap.
  - f_equal. now apply Himap.
  - rewrite List.filter_app.
    pose proof (bridge_of_history (length trendData) trendData 0 eq_refl) as Hb.
    cbn [Nat.add] in Hb. rewrite Hb.
    assert (Hnone : List.filter MarketAnalysis.isBridge
                      (map (fun d => MarketAnalysis.mkChartPoint
                                       (MarketAnalysis.month d)
                                       (MarketAnalysis.value d) None
                                       (Some (MarketAnalysis.value d)))
                         forecastData) = []).
    { induction forecastData as [|d l IH]; [reflexivity | exact IH]. }
    rewrite Hnone. apply app_nil_r.
Qed.

(** ** The earlier revision of sendMessage *)

Section EarlierFacts.
Import Service.

Variable chat : nat -> Outcome Response.

Lemma earlier_sendLoop_unfold (fuel : nat) (message : string) (s : State) :
  Earlier.sendLoop chat fuel message s =
  if (attempts s <? maxAttempts)%nat then
    match fuel with
    | O => (Fuel, s)
    | S fuel' =>
        match Earlier.iteration chat message s with
        | (Val (Return r), s') => (Val r, s')
        | (Val Continue, s') => Earlier.sendLoop chat fuel' message s'
        | (Val Break, s') => (Val Earlier.troubleMessage, s')
        | (Exn e, s') => (Exn e, s')
        | (Fuel, s') => (Fuel, s')
        end
    end
  else (Val Earlier.troubleMessage, s).
Proof.
  destruct fuel; cbn [Earlier.sendLoop]; unfold bind, gets, ret;
    destruct (attempts s <? maxAttempts)%nat; try reflexivity.
  destruct (Earlier.iteration chat message s) as [[[r| |]|e|] s']; reflexivity.
Qed.

(** A pass of the earlier revision whose request is rejected. *)
Lemma earlier_pass_rejected (fuel : nat) (message : string) (s : State)
  (e : Js.Error) :
  (attempts s < maxAttempts)%nat ->
  chat (chatCalls s) = Rejected e ->
  Earlier.sendLoop chat (S fuel) message s
  = let after := fun n tr =>
      mkState n (lastError s) (functionResponseParts s) (S (chatCalls s)) (heap s)
        (trace s ++ ChatSend (Earlier.finalMessage (attempts s) message) :: tr) in
    if Earlier.rateClass e
    then Earlier.sendLoop chat fuel message
           (after (S (attempts s)) [Wait ((Z.of_nat (attempts s) + 1) * 2000)])
    else if Earlier.authClass e then (Exn e, after (attempts s) [])
    else if (maxAttempts <=? S (attempts s))%nat
    then (Exn e, after (S (attempts s)) [])
    else Earlier.sendLoop chat fuel message (after (S (attempts s)) [Wait 1500]).
Proof.
  intros Hlt Hchat. rewrite earlier_sendLoop_unfold.
  destruct (Nat.ltb_spec (attempts s) maxAttempts) as [_|?]; [|lia].
  destruct s as [a le ps cc h tr]. cbn in Hchat.
  unfold Earlier.iteration, Earlier.tryBody, Earlier.onError, chatSendMessage,
    request, Earlier.authClass, Earlier.rateClass, Earlier.errorText.
  run_monad. rewrite Hchat. cbv zeta.
  destruct (Js.includes _ "429" || Js.includes _ "503").
  { cbn [negb andb]. now rewrite <- app_assoc. }
  cbn [negb andb].
  destruct (Js.includes _ "403" || Js.includes _ "key not valid");
    [reflexivity|].
  destruct (maxAttempts <=? S a)%nat; [reflexivity|].
  now rewrite <- app_assoc.
Qed.

End EarlierFacts.



(** X30. In the earlier revision, three requests in a row that fail for rate do
    not throw: sendMessage returns its fixed text about too much content,
    after waits of 2000, 4000 and 6000 ms, the last of them after the third
    and last request. *)
Theorem earlier_revision_gives_up_on_rate_limits :
  forall (chat : nat -> Service.Outcome Service.Response) (message : string)
         (s : Service.State) (e0 e1 e2 : Js.Error),
    chat (Service.chatCalls s) = Service.Rejected e0 ->
    chat (S (Service.chatCalls s)) = Service.Rejected e1 ->
    chat (S (S (Service.chatCalls s))) = Service.Rejected e2 ->
    Forall (fun e => Earlier.rateClass e = true) [e0; e1; e2] ->
    forall fuel, (3 <= fuel)%nat ->
    Earlier.sendMessage chat fuel message s
    = (Val Earlier.troubleMessage,
       Service.mkState 3 (Service.lastError s) (Service.functionResponseParts s)
         (3 + Service.chatCalls s) (Service.heap s)
         (Service.trace s
          ++ [Service.ChatSend message; Service.Wait 2000;
              Service.ChatSend (message +:+ " (Ensure valid JSON output.)");
              Service.Wait 4000;
              Service.ChatSend message; Service.Wait 6000])).
Proof.
  intros chat message [a le ps cc h tr] e0 e1 e2 H0 H1 H2 Hrate fuel Hfuel.
  cbn [Service.chatCalls] in *.
  inversion Hrate as [|? ? Hr0 Hrate1]; subst.
  inversion Hrate1 as [|? ? Hr1 Hrate2]; subst.
  inversion Hrate2 as [|? ? Hr2 _]; subst.
  destruct fuel as [|[|[|fuel]]]; try lia.
  unfold Earlier.sendMessage. run_monad.
  rewrite (earlier_pass_rejected chat _ message _ e0); [|cbn; unfold Service.maxAttempts; lia|exact H0].
  cbv zeta. rewrite Hr0.
  cbn [Service.attempts Service.lastError Service.functionResponseParts
       Service.chatCalls Service.heap Service.trace].
  rewrite (earlier_pass_rejected chat _ message _ e1); [|cbn; unfold Service.maxAttempts; lia|exact H1].
  cbv zeta. rewrite Hr1.
  cbn [Service.attempts Service.lastError Service.functionResponseParts
       Service.chatCalls Service.heap Service.trace].
  rewrite (earlier_pass_rejected chat _ message _ e2); [|cbn; unfold Service.maxAttempts; lia|exact H2].
  cbv zeta. rewrite Hr2.
  cbn [Service.attempts Service.lastError Service.functionResponseParts
       Service.chatCalls Service.heap Service.trace].
  rewrite earlier_sendLoop_unfold.
  cbn [Service.attempts Nat.ltb Nat.leb Service.maxAttempts].
  unfold Earlier.finalMessage, Earlier.retrySuffix. cbn [Nat.eqb].
  rewrite <- !app_assoc. reflexivity.
Qed.

Lemma earlier_revision_gives_up_on_rate_limits_witness :
  fst (Earlier.sendMessage (Sample.script [] (Service.Rejected Sample.tooMany)) 3
         "Write a novel" Service.init)
  = Val Earlier.troubleMessage.
Proof.
  rewrite (earlier_revision_gives_up_on_rate_limits
             (Sample.script [] (Service.Rejected Sample.tooMany)) "Write a novel"
             Service.init Sample.tooMany Sample.tooMany Sample.tooMany
             eq_refl eq_refl eq_refl
             ltac:(repeat constructor) 3 ltac:(lia)).
  reflexivity.
Defined.
